(** * KIAUH extensions menu: discovery, bulk selection and batch installation

    A shallow embedding of [kiauh/extensions/extensions_menu.py]
    (class [ExtensionsMenu]) and the properties of its three workers:

    - [discover_extensions]: the loader that turns the package directories
      under [EXTENSION_ROOT] into the ordered registry [self.extensions];
    - [bulk_install_extensions]: the interactive selection loop;
    - [_install_selected_extensions]: the batch executor;

    and of the two menus, [ExtensionsMenu] and [ExtensionSubmenu]: their
    options and the text they write.

    Python values are modelled as the code meets them.  Text is ASCII
    ([string]); a [dict] is an association list in insertion order, because
    the iteration order of the registry is what the menu shows; exceptions
    are values of [exn] carried by [Result]; the terminal is a list of input
    lines and a trace of emitted events; the root directory is the list of
    its entries in the order [iterdir] yields them, an order the file
    system chooses. *)

From Stdlib Require Import List String Ascii ZArith Lia Bool Arith.
From Stdlib Require Import DecimalString Permutation Sorted.
Import ListNotations.
Open Scope string_scope.

(** ** Python text primitives *)

Module Py.

(** [str.isspace] on ASCII: TAB, LF, VT, FF, CR, FS, GS, RS, US and space. *)
Definition isspace (c : ascii) : bool :=
  let n := nat_of_ascii c in
  (((9 <=? n) && (n <=? 13)) || ((28 <=? n) && (n <=? 32)))%nat.

Fixpoint lstrip (s : string) : string :=
  match s with
  | EmptyString => EmptyString
  | String c s' => if isspace c then lstrip s' else s
  end.

Fixpoint rstrip (s : string) : string :=
  match s with
  | EmptyString => EmptyString
  | String c s' =>
      match rstrip s' with
      | EmptyString => if isspace c then EmptyString else String c EmptyString
      | t => String c t
      end
  end.

(** [s.strip()] *)
Definition strip (s : string) : string := lstrip (rstrip s).

Definition lower_char (c : ascii) : ascii :=
  let n := nat_of_ascii c in
  if ((65 <=? n) && (n <=? 90))%nat then ascii_of_nat (n + 32) else c.

(** [s.lower()] *)
Fixpoint lower (s : string) : string :=
  match s with
  | EmptyString => EmptyString
  | String c s' => String (lower_char c) (lower s')
  end.

(** [s.split()] with no separator: the maximal runs of non-blank
    characters, in order.  [cur] is the run being read. *)
Fixpoint split_from (cur : string) (s : string) : list string :=
  match s with
  | EmptyString => match cur with EmptyString => [] | _ => [cur] end
  | String c s' =>
      if isspace c
      then match cur with
           | EmptyString => split_from EmptyString s'
           | _ => cur :: split_from EmptyString s'
           end
      else split_from (cur ++ String c EmptyString) s'
  end.

Definition split (s : string) : list string := split_from EmptyString s.

Definition nl : string := String (ascii_of_nat 10) EmptyString.

(** [str(n)] for a non-negative [int]. *)
Definition str_nat (n : nat) : string := NilZero.string_of_uint (Nat.to_uint n).

(** [str(z)] for an [int]. *)
Definition str_Z (z : Z) : string := NilZero.string_of_int (Z.to_int z).

Definition is_digit (c : ascii) : bool :=
  let n := nat_of_ascii c in ((48 <=? n) && (n <=? 57))%nat.

Definition digit_val (c : ascii) : Z := Z.of_nat (nat_of_ascii c - 48).

(** The digits of an integer literal as [int(str)] reads them: decimal
    digits, single underscores allowed between two digits.  [after_digit]
    tells whether the character just read was a digit. *)
Fixpoint int_digits (acc : Z) (after_digit : bool) (s : string) : option Z :=
  match s with
  | EmptyString => if after_digit then Some acc else None
  | String c s' =>
      if is_digit c then int_digits (10 * acc + digit_val c) true s'
      else if Ascii.eqb c "_"
           then if after_digit then int_digits acc false s' else None
           else None
  end.

(** The blanks [int(str)] skips around a literal: C's [isspace], that is
    TAB, LF, VT, FF, CR and space.  FS, GS, RS and US are blanks for
    [str.isspace] and [str.strip] but not here: [int] of a literal padded
    with one of them raises [ValueError]. *)
Definition isspace_c (c : ascii) : bool :=
  let n := nat_of_ascii c in
  (((9 <=? n) && (n <=? 13)) || (n =? 32))%nat.

Fixpoint lstrip_c (s : string) : string :=
  match s with
  | EmptyString => EmptyString
  | String c s' => if isspace_c c then lstrip_c s' else s
  end.

Fixpoint rstrip_c (s : string) : string :=
  match s with
  | EmptyString => EmptyString
  | String c s' =>
      match rstrip_c s' with
      | EmptyString => if isspace_c c then EmptyString else String c EmptyString
      | t => String c t
      end
  end.

(** The number of digits of a literal, underscores not counted. *)
Fixpoint count_digits (s : string) : Z :=
  match s with
  | EmptyString => 0
  | String c s' => ((if is_digit c then 1 else 0) + count_digits s')%Z
  end.

(** [sys.get_int_max_str_digits()], at its default. *)
Definition int_max_str_digits : Z := 4300.

(** The digits after the sign: a well-formed literal of more than
    [int_max_str_digits] digits, leading zeros counted, is refused. *)
Definition int_body (t : string) : option Z :=
  match int_digits 0 false t with
  | Some z => if (count_digits t <=? int_max_str_digits)%Z then Some z else None
  | None => None
  end.

(** [int(s)] for a [str] argument, base 10: the blanks around the literal
    are skipped, one sign is allowed.  [None] stands for [ValueError]. *)
Definition int (s : string) : option Z :=
  match lstrip_c (rstrip_c s) with
  | EmptyString => None
  | String c t =>
      if Ascii.eqb c "-" then option_map Z.opp (int_body t)
      else if Ascii.eqb c "+" then int_body t
      else int_body (String c t)
  end.

(** The values a parsed JSON document puts in a [dict].  Of an array, an
    object or a float the code only ever takes [str()]: [PyObj] carries that
    text.  A [PyInt] is an integer [json.load] has read, hence one within
    the digit limit, on which [str()] does not fail. *)
Inductive pyval : Type :=
| PyNone
| PyBool (b : bool)
| PyInt (z : Z)
| PyStr (s : string)
| PyObj (text : string).

(** [str(v)], which is what an f-string [f"{v}"] renders. *)
Definition str (v : pyval) : string :=
  match v with
  | PyNone => "None"
  | PyBool true => "True"
  | PyBool false => "False"
  | PyInt z => str_Z z
  | PyStr s => s
  | PyObj text => text
  end.

(** *** dict: association list in insertion order, keys distinct *)

Definition dict (V : Type) : Type := list (string * V).

Section Dict.
Context {V : Type}.

(** [k in d] *)
Definition contains (d : dict V) (k : string) : bool :=
  existsb (fun kv => String.eqb (fst kv) k) d.

(** [d[k]], [None] standing for [KeyError]; also the core of [d.get(k)]. *)
Fixpoint lookup (d : dict V) (k : string) : option V :=
  match d with
  | [] => None
  | (k', v) :: d' => if String.eqb k' k then Some v else lookup d' k
  end.

(** [d[k] = v]: an existing key keeps its position and takes the new
    value, a new key goes last. *)
Fixpoint set (d : dict V) (k : string) (v : V) : dict V :=
  match d with
  | [] => [(k, v)]
  | (k', v') :: d' =>
      if String.eqb k' k then (k', v) :: d' else (k', v') :: set d' k v
  end.

Definition keys (d : dict V) : list string := map fst d.
Definition values (d : dict V) : list V := map snd d.
Definition items (d : dict V) : list (string * V) := d.

(** [dict(pairs)] *)
Definition of_items (l : list (string * V)) : dict V :=
  fold_left (fun d kv => set d (fst kv) (snd kv)) l [].
End Dict.

(** [d.get(k)] on a dict of JSON values: a missing key gives [None]. *)
Definition get (d : dict pyval) (k : string) : pyval :=
  match lookup d k with Some v => v | None => PyNone end.

(** *** sorted(..., key=...) *)

Section Sorted.
Context {A : Type}.

(** Insertion in front of the first element whose key is not smaller:
    with [fold_right] this is a stable sort, as [sorted] is. *)
Fixpoint insert (x : Z * A) (l : list (Z * A)) : list (Z * A) :=
  match l with
  | [] => [x]
  | y :: l' => if (fst x <=? fst y)%Z then x :: y :: l' else y :: insert x l'
  end.

Definition sort (l : list (Z * A)) : list (Z * A) := fold_right insert [] l.

(** The key of every item is computed first; the first failure is the
    failure of the whole call. *)
Fixpoint decorate (key : A -> option Z) (l : list A) : option (list (Z * A)) :=
  match l with
  | [] => Some []
  | x :: l' =>
      match key x with
      | None => None
      | Some z =>
          match decorate key l' with
          | None => None
          | Some r => Some ((z, x) :: r)
          end
      end
  end.

Definition sorted (key : A -> option Z) (l : list A) : option (list A) :=
  option_map (fun r => map snd (sort r)) (decorate key l).
End Sorted.

End Py.

(** ** Exceptions *)

(** The exception classes the loader and the menu can meet, each below
    [Exception].  [IOError] is Python 3's alias of [OSError]. *)
Inductive exn_class : Type :=
| OSError | FileNotFoundError | PermissionError
| ValueError | JSONDecodeError | UnicodeDecodeError
| ImportError | ModuleNotFoundError
| AttributeError | IndexError | KeyError | TypeError
| RuntimeError | EOFError.

Definition IOError : exn_class := OSError.

(** The direct base class, [None] when that is [Exception] itself. *)
Definition base (c : exn_class) : option exn_class :=
  match c with
  | FileNotFoundError | PermissionError => Some OSError
  | JSONDecodeError | UnicodeDecodeError => Some ValueError
  | ModuleNotFoundError => Some ImportError
  | _ => None
  end.

Definition exn_class_eqb (c d : exn_class) : bool :=
  match c, d with
  | OSError, OSError | FileNotFoundError, FileNotFoundError
  | PermissionError, PermissionError | ValueError, ValueError
  | JSONDecodeError, JSONDecodeError | UnicodeDecodeError, UnicodeDecodeError
  | ImportError, ImportError | ModuleNotFoundError, ModuleNotFoundError
  | AttributeError, AttributeError | IndexError, IndexError
  | KeyError, KeyError | TypeError, TypeError
  | RuntimeError, RuntimeError | EOFError, EOFError => true
  | _, _ => false
  end.

(** [issubclass(c, d)]; the hierarchy above is one level deep. *)
Definition issubclass (c d : exn_class) : bool :=
  exn_class_eqb c d
  || match base c with Some b => exn_class_eqb b d | None => false end.

Record exn : Type := mkExn { class_of : exn_class; message : string }.

Definition isinstance (e : exn) (c : exn_class) : bool := issubclass (class_of e) c.

(** What a call gives: a value, or a raised exception. *)
Inductive Result (A : Type) : Type :=
| Ok (a : A)
| Raise (e : exn).
Arguments Ok {A} a.
Arguments Raise {A} e.

(** ** What the terminal sees *)

Inductive Color : Type := CYAN | YELLOW | GREEN | RED.

(** ** Extension packages, classes and instances *)

(** A class deriving [BaseExtension]: its name and what its constructor does
    with the metadata ([None]: it returns, [Some e]: it raises [e]). *)
Record ExtClass : Type := mkClass {
  class_name : string;
  init : Py.dict Py.pyval -> option exn
}.

(** Modelled from the spec: [extensions/base_extension.py] is not part of
    the sources.  An extension instance wraps exactly one descriptor, the
    [metadata] it was constructed with; [oid] is the identity of the object,
    which is its equality ([BaseExtension] defines no [__eq__]). *)
Record BaseExtension : Type := mkExt {
  oid : nat;
  ext_class : ExtClass;
  metadata : Py.dict Py.pyval
}.

(** A member of an imported module, as [predicate] looks at it. *)
Inductive member : Type :=
| NotAClass                  (* a function, a constant, a module *)
| OtherClass                 (* a class that does not derive BaseExtension *)
| BaseExtensionClass         (* BaseExtension itself, imported by the module *)
| Subclass (c : ExtClass).   (* a class deriving BaseExtension *)

(** The members of a module as [inspect.getmembers] walks them: pairs of
    name and value, sorted by name. *)
Definition module : Type := list (string * member).

(** [importlib.import_module], a function of the module path: the
    interpreter's view of the installed tree. *)
Record Site : Type := mkSite {
  import_module : string -> Result module
}.

(** A value of a parsed JSON document where the loader needs to tell an
    object from the rest. *)
Inductive json_value : Type :=
| JDict (d : Py.dict Py.pyval)
| JOther (v : Py.pyval).

(** What [json.load] returns: an object, or any other JSON value. *)
Inductive json_document : Type :=
| DocObject (members : Py.dict json_value)
| DocOther (v : Py.pyval).

(** One entry of [EXTENSION_ROOT.iterdir()].

    [exists_raises] is what [metadata_json.exists()] does when it does not
    answer: [Path.exists] takes a missing path for [False] but lets every
    other [OSError] of [stat] through (up to Python 3.13), the
    [PermissionError] of an entry that cannot be searched among them.  The
    call stands before the [try].

    [metadata_json] is [None] when [exists()] answers [False]; otherwise it
    is what [json.load(open(metadata_json, "r"))] gives, an exception of
    [open] or of the parser included. *)
Record Package : Type := mkPackage {
  path : string;      (* str(ext) *)
  name : string;      (* ext.name *)
  exists_raises : option exn;
  metadata_json : option (Result json_document)
}.

(** What the program emits and does, in order. *)
Inductive event : Type :=
| Print (s : string)                  (* print(s) *)
| Prompt (s : string)                 (* input(s) shows its prompt *)
| PrintOk (s : string)                (* Logger.print_ok(s) *)
| PrintError (s : string)             (* Logger.print_error(s) *)
| Install (extension : BaseExtension) (* extension.install_extension() *).

(** ** discover_extensions *)

(** [predicate(o)]: [inspect.isclass(o) and issubclass(o, BaseExtension)
    and o != BaseExtension]. *)
Definition predicate (o : member) : bool :=
  match o with
  | NotAClass => false
  | OtherClass => false
  | BaseExtensionClass => false
  | Subclass _ => true
  end.

(** [inspect.getmembers(module, predicate)] *)
Definition getmembers (m : module) (p : member -> bool) : list (string * member) :=
  filter (fun nv => p (snd nv)) m.

(** [ext_class(metadata)] with identity [o] for the new object.  Only a
    member that passed [predicate] gets here. *)
Definition instantiate (cls : member) (md : Py.dict Py.pyval) (o : nat)
  : Result BaseExtension :=
  match cls with
  | Subclass c =>
      match init c md with
      | Some e => Raise e
      | None => Ok (mkExt o c md)
      end
  | _ => Raise (mkExn TypeError "object is not an extension class")
  end.

(** [json.load(m).get("metadata")] *)
Definition get_metadata (doc : json_document) : Result json_value :=
  match doc with
  | DocObject members =>
      match Py.lookup members "metadata" with
      | Some v => Ok v
      | None => Ok (JOther Py.PyNone)
      end
  | DocOther _ => Raise (mkExn AttributeError "object has no attribute 'get'")
  end.

(** The body of the [try] for one package whose [metadata.json] exists:
    the key and the instance that go into [ext_dict], or the exception
    that leaves the body. *)
Definition load (site : Site) (ext : Package) (doc : Result json_document)
    (o : nat) : Result (string * BaseExtension) :=
  match doc with
  | Raise e => Raise e
  | Ok document =>
      match get_metadata document with
      | Raise e => Raise e
      | Ok (JOther _) => Raise (mkExn AttributeError "object has no attribute 'get'")
      | Ok (JDict md) =>
          let module_name := Py.get md "module" in
          let module_path :=
            "kiauh.extensions." ++ name ext ++ "." ++ Py.str module_name in
          match import_module site module_path with
          | Raise e => Raise e
          | Ok m =>
              match getmembers m predicate with
              | [] => Raise (mkExn IndexError "list index out of range")
              | (_, cls) :: _ =>
                  match instantiate cls md o with
                  | Raise e => Raise e
                  | Ok ext_instance =>
                      Ok (Py.str (Py.get md "index"), ext_instance)
                  end
              end
          end
      end
  end.

(** [except (IOError, json.JSONDecodeError, ImportError) as e] *)
Definition handled (e : exn) : bool :=
  isinstance e IOError || isinstance e JSONDecodeError || isinstance e ImportError.

Definition failed_loading (ext : Package) (e : exn) : event :=
  Print ("Failed loading extension " ++ path ext ++ ": " ++ message e).

(** The [for ext in EXTENSION_ROOT.iterdir()] loop over the entries the
    directory lists: [ext_dict] so far and the next free object identity go
    in; out come the loop's result, what it printed and the next free
    identity.  An exception of [exists()], which is called before the
    [try], leaves the loop whatever its class; so does an exception of the
    [try] body that the handler does not name. *)
Fixpoint scan (site : Site) (entries : list Package)
    (ext_dict : Py.dict BaseExtension) (o : nat)
  : Result (Py.dict BaseExtension) * list event * nat :=
  match entries with
  | [] => (Ok ext_dict, [], o)
  | ext :: rest =>
      match exists_raises ext with
      | Some e => (Raise e, [], o)
      | None =>
          match metadata_json ext with
          | None => scan site rest ext_dict o
          | Some doc =>
              match load site ext doc o with
              | Ok (key, ext_instance) =>
                  scan site rest (Py.set ext_dict key ext_instance) (S o)
              | Raise e =>
                  if handled e
                  then let '(r, out, o') := scan site rest ext_dict o in
                       (r, failed_loading ext e :: out, o')
                  else (Raise e, [], o)
              end
          end
      end
  end.

(** [int(x[0])], the sort key of an item of [ext_dict]. *)
Definition key_int {V : Type} (x : string * V) : option Z := Py.int (fst x).

(** [discover_extensions(self)], given the entries of [EXTENSION_ROOT] in
    the order [iterdir()] yields them and the next free object identity. *)
Definition discover_extensions (site : Site) (root : list Package) (o : nat)
  : Result (Py.dict BaseExtension) * list event * nat :=
  match scan site root [] o with
  | (Raise e, out, o') => (Raise e, out, o')
  | (Ok ext_dict, out, o') =>
      match Py.sorted key_int (Py.items ext_dict) with
      | None => (Raise (mkExn ValueError "invalid literal for int() with base 10"), out, o')
      | Some l => (Ok (Py.of_items l), out, o')
      end
  end.

(** ** The bulk installation menu *)

(** The collaborators of the menu that live outside this file.  [Host] is
    the state of the machine the extensions install themselves on. *)
Record Menu (Host : Type) : Type := mkMenu {
  (** [Color.apply(text, color)] *)
  color_apply : string -> Color -> string;
  (** [get_confirm(question, default_choice)]: from the pending input lines
      to the answer, the lines left and what it printed. *)
  get_confirm : string -> bool -> list string -> Result bool * list string * list string;
  (** [extension.install_extension()]: it returns ([None]) or raises an
      [Exception] ([Some e]), and changes the host. *)
  install_extension : BaseExtension -> Host -> option exn * Host
}.
Arguments color_apply {Host} m _ _.
Arguments get_confirm {Host} m _ _ _.
Arguments install_extension {Host} m _ _.

(** [extension.metadata.get("display_name")] as an f-string renders it. *)
Definition display_name (ext : BaseExtension) : string :=
  Py.str (Py.get (metadata ext) "display_name").

(** [a == b] on instances: identity. *)
Definition ext_eqb (a b : BaseExtension) : bool := Nat.eqb (oid a) (oid b).

(** [ext in l] *)
Definition mem (ext : BaseExtension) (l : list BaseExtension) : bool :=
  existsb (ext_eqb ext) l.

(** [for idx in indices: ...], filling [temp_selected]. *)
Fixpoint parse_indices (extensions : Py.dict BaseExtension)
    (indices : list string) (temp_selected : list BaseExtension)
  : list BaseExtension * list event :=
  match indices with
  | [] => (temp_selected, [])
  | idx :: rest =>
      match Py.lookup extensions idx with
      | Some ext =>
          if negb (mem ext temp_selected)
          then let '(t, out) := parse_indices extensions rest (temp_selected ++ [ext]) in
               (t, Print ("Added: " ++ display_name ext) :: out)
          else let '(t, out) := parse_indices extensions rest temp_selected in
               (t, Print ("Already selected: " ++ display_name ext) :: out)
      | None =>
          let '(t, out) := parse_indices extensions rest temp_selected in
          (t, Print ("Invalid extension number: " ++ idx) :: out)
      end
  end.

(** [for ext in temp_selected: if ext not in selected_extensions: ...] *)
Fixpoint add_selected (temp_selected selected_extensions : list BaseExtension)
  : list BaseExtension :=
  match temp_selected with
  | [] => selected_extensions
  | ext :: rest =>
      if negb (mem ext selected_extensions)
      then add_selected rest (selected_extensions ++ [ext])
      else add_selected rest selected_extensions
  end.

Definition print_names (l : list BaseExtension) : list event :=
  map (fun ext => Print ("  - " ++ display_name ext)) l.

(** The [else] branch of the loop body once the line is split into
    [indices]: the new [selected_extensions] and what was printed.  No step
    of it raises, so the [try] around it has nothing to catch. *)
Definition select_tokens (extensions : Py.dict BaseExtension)
    (indices : list string) (selected_extensions : list BaseExtension)
  : list BaseExtension * list event :=
  let '(temp_selected, out) := parse_indices extensions indices [] in
  match temp_selected with
  | [] => (selected_extensions, out)
  | _ =>
      let selected := add_selected temp_selected selected_extensions in
      (selected,
       (out ++ Print (Py.nl ++ "Currently selected ("
                       ++ Py.str_nat (List.length selected) ++ "):")
            :: print_names selected)%list)
  end.

(** The [else] branch of the loop body for one line of key tokens. *)
Definition select_line (extensions : Py.dict BaseExtension) (selection : string)
    (selected_extensions : list BaseExtension)
  : list BaseExtension * list event :=
  select_tokens extensions (Py.split selection) selected_extensions.

Definition select_prompt {Host : Type} (m : Menu Host) : event :=
  Prompt (color_apply m "Select extensions (or 'done' to proceed): " CYAN).

(** The [while True] loop.  It reads the pending input lines one by one;
    [input] raises [EOFError] when none is left.  Out come the selection
    (or the exception), the lines not read and what was emitted. *)
Fixpoint selection_loop {Host : Type} (m : Menu Host)
    (extensions : Py.dict BaseExtension) (stdin : list string)
    (selected_extensions : list BaseExtension)
  : Result (list BaseExtension) * list string * list event :=
  match stdin with
  | [] => (Raise (mkExn EOFError "EOF when reading a line"), [], [select_prompt m])
  | line :: rest =>
      let selection := Py.strip line in
      if String.eqb (Py.lower selection) "done"
      then (Ok selected_extensions, rest, [select_prompt m])
      else if String.eqb (Py.lower selection) "all"
      then let selected := Py.values extensions in
           (Ok selected, rest,
            [select_prompt m;
             Print ("Selected all " ++ Py.str_nat (List.length selected) ++ " extensions")])
      else let '(selected, out) := select_line extensions selection selected_extensions in
           let '(r, rest', out') := selection_loop m extensions rest selected in
           (r, rest', select_prompt m :: (out ++ out')%list)
  end.

(** The locals of [_install_selected_extensions] that its summary prints. *)
Record Batch : Type := mkBatch {
  total : nat;
  successful : nat;
  failed : list string
}.

(** The marks of the per-item reports, as the source file holds them. *)
Definition ok_mark : string := "âœ“".
Definition fail_mark : string := "âœ—".

(** [for i, extension in enumerate(extensions, 1): ...].  The handler
    [except Exception] takes whatever the action raises; the loop goes on
    either way. *)
Fixpoint install_each {Host : Type} (m : Menu Host) (n : nat) (i : nat)
    (extensions : list BaseExtension) (succ : nat) (fails : list string)
    (host : Host) : nat * list string * Host * list event :=
  match extensions with
  | [] => (succ, fails, host, [])
  | extension :: rest =>
      let name := display_name extension in
      let progress :=
        Print ("[" ++ Py.str_nat i ++ "/" ++ Py.str_nat n ++ "] Installing "
                   ++ name ++ "...") in
      match install_extension m extension host with
      | (None, host') =>
          let '(s, f, h, out) := install_each m n (S i) rest (S succ) fails host' in
          (s, f, h,
           progress :: Install extension
             :: PrintOk (ok_mark ++ " " ++ name ++ " installed successfully")
             :: Print "" :: out)
      | (Some e, host') =>
          let '(s, f, h, out) := install_each m n (S i) rest succ (fails ++ [name]) host' in
          (s, f, h,
           progress :: Install extension
             :: PrintError (fail_mark ++ " Failed to install " ++ name ++ ": " ++ message e)
             :: Print "" :: out)
      end
  end.

(** The installation summary. *)
Definition summary {Host : Type} (m : Menu Host) (b : Batch) : list event :=
  ([Print (color_apply m "=== Installation Summary ===" CYAN);
    Print ("Total extensions: " ++ Py.str_nat (total b));
    Print (color_apply m ("Successful: " ++ Py.str_nat (successful b)) GREEN)]
   ++ match failed b with
      | [] => [Print (color_apply m "All extensions installed successfully! ğŸ‰" GREEN)]
      | _ => Print (color_apply m ("Failed: " ++ Py.str_nat (List.length (failed b))) RED)
             :: Print "Failed extensions:"
             :: map (fun name => Print ("  - " ++ name)) (failed b)
      end)%list.

(** [_install_selected_extensions(self, extensions)] *)
Definition _install_selected_extensions {Host : Type} (m : Menu Host)
    (extensions : list BaseExtension) (host : Host)
  : Batch * Host * list event :=
  let n := List.length extensions in
  let '(s, f, host', out) := install_each m n 1 extensions 0 [] host in
  let b := mkBatch n s f in
  (b, host',
   Print (Py.nl ++ color_apply m "Starting bulk installation..." GREEN)
     :: Print ("Installing " ++ Py.str_nat n ++ " extension(s)" ++ Py.nl)
     :: (out ++ summary m b)%list).

Definition print_available (extensions : Py.dict BaseExtension) : list event :=
  map (fun extension =>
         Print ("  " ++ Py.str (Py.get (metadata extension) "index") ++ ") "
                     ++ display_name extension))
      (Py.values extensions).

Definition bulk_header {Host : Type} (m : Menu Host)
    (extensions : Py.dict BaseExtension) : list event :=
  Print (Py.nl ++ color_apply m "=== Bulk Extension Installation ===" CYAN)
    :: Print (Py.nl ++ "Available extensions:")
    :: (print_available extensions
        ++ [Print (Py.nl ++ color_apply m "Instructions:" YELLOW);
            Print "  - Enter extension numbers separated by spaces (e.g., 1 3 5)";
            Print "  - Enter 'all' to select all extensions";
            Print "  - Enter 'done' when finished selecting"])%list.

(** [bulk_install_extensions(self)], with [self.extensions] the registry:
    it returns [None] or raises; the input left, the host and what was
    emitted come with it. *)
Definition bulk_install_extensions {Host : Type} (m : Menu Host)
    (extensions : Py.dict BaseExtension) (stdin : list string) (host : Host)
  : Result unit * list string * Host * list event :=
  match selection_loop m extensions stdin [] with
  | (Raise e, rest, out) => (Raise e, rest, host, (bulk_header m extensions ++ out)%list)
  | (Ok [], rest, out) =>
      (Ok tt, rest, host,
       (bulk_header m extensions ++ out ++ [Print "No extensions selected."])%list)
  | (Ok selected_extensions, rest, out) =>
      let confirm :=
        Print (Py.nl ++ color_apply m "Selected extensions for installation:" YELLOW)
          :: print_names selected_extensions in
      match get_confirm m "Proceed with installation?" true rest with
      | (Raise e, rest', said) =>
          (Raise e, rest', host,
           (bulk_header m extensions ++ out ++ confirm ++ map Print said)%list)
      | (Ok true, rest', said) =>
          let '(_, host', out') := _install_selected_extensions m selected_extensions host in
          (Ok tt, rest', host',
           (bulk_header m extensions ++ out ++ confirm ++ map Print said ++ out')%list)
      | (Ok false, rest', said) =>
          (Ok tt, rest', host,
           (bulk_header m extensions ++ out ++ confirm ++ map Print said
              ++ [Print "Installation cancelled."])%list)
      end
  end.

(** ** The menus *)

(** *** Text layout *)

(** [format(s, "<n")]: [s] padded with blanks on the right up to [n]
    characters; a longer [s] is left as it is. *)
Definition ljust (s : string) (n : nat) : string :=
  s ++ string_of_list_ascii (repeat " "%char (n - String.length s)).

(** [s[1:]] *)
Definition slice1 (s : string) : string :=
  match s with
  | EmptyString => EmptyString
  | String _ s' => s'
  end.

(** [s.split(LF)] *)
Fixpoint split_lines_from (cur : string) (s : string) : list string :=
  match s with
  | EmptyString => [cur]
  | String c s' =>
      if Ascii.eqb c (ascii_of_nat 10)
      then cur :: split_lines_from EmptyString s'
      else split_lines_from (cur ++ String c EmptyString) s'
  end.

Definition split_lines (s : string) : list string :=
  split_lines_from EmptyString s.

(** [LF.join(lines)] *)
Fixpoint join_lines (lines : list string) : string :=
  match lines with
  | [] => EmptyString
  | l :: lines' =>
      match lines' with
      | [] => l
      | _ => l ++ Py.nl ++ join_lines lines'
      end
  end.

Definition is_blank (c : ascii) : bool :=
  Ascii.eqb c " " || Ascii.eqb c (ascii_of_nat 9).

(** The blanks and tabs a line starts with. *)
Fixpoint leading_blanks (s : string) : string :=
  match s with
  | String c s' => if is_blank c then String c (leading_blanks s') else EmptyString
  | EmptyString => EmptyString
  end.

(** The line holds blanks and tabs only. *)
Fixpoint only_blanks (s : string) : bool :=
  match s with
  | EmptyString => true
  | String c s' => is_blank c && only_blanks s'
  end.

Fixpoint common_prefix (a b : string) : string :=
  match a, b with
  | String x a', String y b' =>
      if Ascii.eqb x y then String x (common_prefix a' b') else EmptyString
  | _, _ => EmptyString
  end.

(** [s] without the prefix [p], when it starts with it. *)
Fixpoint remove_prefix (p s : string) : option string :=
  match p, s with
  | EmptyString, _ => Some s
  | String x p', String y s' => if Ascii.eqb x y then remove_prefix p' s' else None
  | String _ _, EmptyString => None
  end.

(** The margin [textwrap.dedent] finds: the longest run of blanks and tabs
    that every line holding something else starts with; [None] when there
    is no such line. *)
Fixpoint margin_of (lines : list string) (margin : option string) : option string :=
  match lines with
  | [] => margin
  | l :: lines' =>
      if only_blanks l then margin_of lines' margin
      else match margin with
           | None => margin_of lines' (Some (leading_blanks l))
           | Some mg => margin_of lines' (Some (common_prefix mg (leading_blanks l)))
           end
  end.

(** [textwrap.dedent(text)]: lines of blanks and tabs only become empty,
    the common margin is taken off the other lines. *)
Definition dedent (text : string) : string :=
  let lines := map (fun l => if only_blanks l then EmptyString else l)
                   (split_lines text) in
  match margin_of lines None with
  | None => join_lines lines
  | Some mg =>
      join_lines (map (fun l => match remove_prefix mg l with
                                | Some l' => l'
                                | None => l
                                end) lines)
  end.

(** The frame of the menus, as the source file holds its characters. *)
Definition border : string := "â•‘".
Definition rule : string :=
  "â•Ÿâ”€â”€â”€â”€â”€â”€â”€â”€â”€â”€â”€â”€â”€â”€â”€â”€â”€â”€â”€â”€â”€â”€â”€â”€â”€â”€â”€â”€â”€â”€â”€â”€â”€â”€â”€â”€â”€â”€â”€â”€â”€â”€â”€â”€â”€â”€â”€â”€â”€â”€â”€â”€â”€â”€â”€â•¢".
Definition blank_row : string :=
  border ++ string_of_list_ascii (repeat " "%char 55) ++ border.
Definition bullet : string := "â—".
Definition indent12 : string := string_of_list_ascii (repeat " "%char 12).
Definition indent16 : string := string_of_list_ascii (repeat " "%char 16).

(** *** Values in a condition *)

(** [bool(v)].  Of an array, an object or a float the text decides: the
    empty array, the empty object and the two zeros are false. *)
Definition truthy (v : Py.pyval) : bool :=
  match v with
  | Py.PyNone => false
  | Py.PyBool b => b
  | Py.PyInt z => negb (z =? 0)%Z
  | Py.PyStr s => negb (String.eqb s "")
  | Py.PyObj text =>
      negb (existsb (String.eqb text) ["[]"; "{}"; "0.0"; "-0.0"])
  end.

(** [v or d] *)
Definition or_else (v d : Py.pyval) : Py.pyval := if truthy v then v else d.

(** [v.strip()]: only a [str] has the method. *)
Definition strip_value (v : Py.pyval) : Result string :=
  match v with
  | Py.PyStr s => Ok (Py.strip s)
  | _ => Raise (mkExn AttributeError "object has no attribute 'strip'")
  end.

(** *** Options and menus *)

(** The menu classes a [previous_menu] can name. *)
Inductive menu_class : Type :=
| MainMenu
| ExtensionsMenu_class
| ExtensionSubmenu_class
| OtherMenu (class : string).

(** The methods the options of the two menus are bound to. *)
Inductive callback : Type :=
| Extension_submenu                        (* ExtensionsMenu.extension_submenu *)
| Bulk_install_extensions                  (* ExtensionsMenu.bulk_install_extensions *)
| Install_extension (ext : BaseExtension)  (* ext.install_extension *)
| Update_extension (ext : BaseExtension)   (* ext.update_extension *)
| Remove_extension (ext : BaseExtension).  (* ext.remove_extension *)

(** Modelled from the spec: [core.menus.Option] is not part of the sources.
    An option of a menu is the method the menu calls when its key is
    chosen, with the [opt_data] it passes to the method ([None] unless
    given). *)
Record Option : Type := mkOption {
  method : callback;
  opt_data : option BaseExtension
}.

(** What [Logger.format_content] is given to lay out: a value of the
    metadata as it is, or a list of lines built here. *)
Inductive content : Type :=
| Described (v : Py.pyval)
| Lines (l : list string).

(** The collaborators of [print_menu] that live outside this file. *)
Record Render : Type := mkRender {
  (** [Color.apply(text, color)] *)
  Color_apply : string -> Color -> string;
  (** [Logger.format_content(content, line_width, border_left, border_right)] *)
  format_content : content -> nat -> string -> string -> Result string
}.

Module ExtensionSubmenu.

(** The attributes of an [ExtensionSubmenu] this file sets or reads. *)
Record t : Type := mk {
  title : Py.pyval;
  title_color : Color;
  extension : BaseExtension;
  previous_menu : option menu_class;
  options : Py.dict Option
}.

(** [ExtensionSubmenu(extension, previous_menu)]; [base_options] is what
    [BaseMenu.__init__] leaves in [self.options]. *)
Definition __init__ (base_options : Py.dict Option)
    (extension : option BaseExtension) (previous_menu : option menu_class)
  : Result t :=
  match extension with
  | None => Raise (mkExn AttributeError "'NoneType' object has no attribute 'metadata'")
  | Some ext =>
      Ok (mk (Py.get (metadata ext) "display_name") YELLOW ext previous_menu
             base_options)
  end.

Definition set_previous_menu (self : t) (previous_menu : option menu_class) : t :=
  mk (title self) (title_color self) (extension self)
     (Some (match previous_menu with
            | Some c => c
            | None => ExtensionsMenu_class
            end))
     (options self).

Definition set_options (self : t) : t :=
  let ext := extension self in
  let o1 := Py.set (options self) "1" (mkOption (Install_extension ext) None) in
  let o :=
    if truthy (Py.get (metadata ext) "updates")
    then Py.set (Py.set o1 "2" (mkOption (Update_extension ext) None))
                "3" (mkOption (Remove_extension ext) None)
    else Py.set o1 "2" (mkOption (Remove_extension ext) None) in
  mk (title self) (title_color self) ext (previous_menu self) o.

(** One row of the action list, as the source writes it out. *)
Definition action_row (key label : string) : string :=
  border ++ " " ++ ljust (key ++ ") " ++ label) 53 ++ " " ++ border.

(** A line of the links block. *)
Definition bullet_line (link : string) : string := bullet ++ " " ++ link.

(** [print_menu(self)]: the text it writes, or the exception it raises. *)
Definition print_menu (r : Render) (self : t) : Result string :=
  let line_width := 53 in
  let md := metadata (extension self) in
  let description :=
    match Py.lookup md "description" with
    | Some v => v
    | None => Py.PyObj "[]"
    end in
  match format_content r (Described description) line_width border border with
  | Raise e => Raise e
  | Ok description_text =>
      let menu0 :=
        slice1 (dedent (Py.nl ++ indent12 ++ rule ++ Py.nl ++ indent12))
        ++ description_text ++ Py.nl in
      match strip_value (or_else (Py.get md "website") (Py.PyStr "")) with
      | Raise e => Raise e
      | Ok website =>
          match strip_value (or_else (Py.get md "repo") (Py.PyStr "")) with
          | Raise e => Raise e
          | Ok repo =>
              let actions :=
                slice1 (dedent (Py.nl ++ indent12 ++ rule ++ Py.nl
                                 ++ indent12 ++ action_row "1" "Install" ++ Py.nl
                                 ++ indent12))
                ++ (if truthy (Py.get md "updates")
                    then action_row "2" "Update" ++ Py.nl
                         ++ action_row "3" "Remove" ++ Py.nl
                    else action_row "2" "Remove" ++ Py.nl)
                ++ rule ++ Py.nl in
              if negb (String.eqb website "") || negb (String.eqb repo "")
              then
                let links_lines :=
                  "Links:"
                  :: List.app (if negb (String.eqb website "")
                               then [bullet_line website] else [])
                              (if negb (String.eqb repo "")
                               then [bullet_line repo] else []) in
                match format_content r (Lines links_lines) line_width border border with
                | Raise e => Raise e
                | Ok links_text =>
                    Ok (menu0
                        ++ slice1 (dedent (Py.nl ++ indent16 ++ rule ++ Py.nl ++ indent16))
                        ++ links_text ++ Py.nl
                        ++ actions)
                end
              else Ok (menu0 ++ actions)
          end
      end
  end.

End ExtensionSubmenu.

Module ExtensionsMenu.

(** The attributes of an [ExtensionsMenu] this file sets or reads. *)
Record t : Type := mk {
  title : string;
  title_color : Color;
  previous_menu : option menu_class;
  extensions : Py.dict BaseExtension;
  options : Py.dict Option
}.

(** [ExtensionsMenu(previous_menu)]: the registry is discovered when the
    menu is made; [base_options] is what [BaseMenu.__init__] leaves in
    [self.options]. *)
Definition __init__ (base_options : Py.dict Option) (site : Site)
    (root : list Package) (o : nat) (previous_menu : option menu_class)
  : Result t * list event * nat :=
  match discover_extensions site root o with
  | (Ok reg, out, o') =>
      (Ok (mk "Extensions Menu" CYAN previous_menu reg base_options), out, o')
  | (Raise e, out, o') => (Raise e, out, o')
  end.

Definition set_previous_menu (self : t) (previous_menu : option menu_class) : t :=
  mk (title self) (title_color self)
     (Some (match previous_menu with
            | Some c => c
            | None => MainMenu
            end))
     (extensions self) (options self).

Definition set_options (self : t) : t :=
  let by_key :=
    Py.of_items
      (map (fun i => (i, mkOption Extension_submenu (Py.lookup (extensions self) i)))
           (Py.keys (extensions self))) in
  mk (title self) (title_color self) (previous_menu self) (extensions self)
     (Py.set by_key "i" (mkOption Bulk_install_extensions None)).

(** [extension_submenu(self, opt_data=...)]: the submenu that is then
    run. *)
Definition extension_submenu (base_options : Py.dict Option) (self : t)
    (opt_data : option BaseExtension) : Result ExtensionSubmenu.t :=
  ExtensionSubmenu.__init__ base_options opt_data (Some ExtensionsMenu_class).

(** The row of one extension in the listing. *)
Definition row (ext : BaseExtension) : string :=
  Py.str (Py.get (metadata ext) "index") ++ ") " ++ display_name ext.

(** [print_menu(self)]: the text it writes. *)
Definition print_menu (r : Render) (self : t) : string :=
  let line1 := Color_apply r "Available Extensions:" YELLOW in
  let line2 := Color_apply r "I) Bulk Install Extensions" GREEN in
  let menu :=
    slice1 (dedent (Py.nl ++ indent12 ++ rule ++ Py.nl
                     ++ indent12 ++ border ++ " " ++ ljust line1 62 ++ " " ++ border
                     ++ Py.nl
                     ++ indent12 ++ blank_row ++ Py.nl
                     ++ indent12)) in
  menu
  ++ String.concat ""
       (map (fun ext => border ++ " " ++ ljust (row ext) 53 ++ " " ++ border ++ Py.nl)
            (Py.values (extensions self)))
  ++ blank_row ++ Py.nl
  ++ border ++ " " ++ ljust line2 62 ++ " " ++ border ++ Py.nl
  ++ rule ++ Py.nl.

End ExtensionsMenu.

(** ** Notions the statements are written with *)

(** What scanning one directory entry comes to. *)
Inductive outcome : Type :=
| Skipped                 (* no metadata.json *)
| Loaded (key : string)   (* an instance goes into ext_dict under key *)
| Failed (e : exn)        (* the try body raised e *)
| Unreadable (e : exn).   (* exists() raised e, before the try *)

Definition outcome_of (site : Site) (ext : Package) : outcome :=
  match exists_raises ext with
  | Some e => Unreadable e
  | None =>
      match metadata_json ext with
      | None => Skipped
      | Some doc =>
          match load site ext doc 0 with
          | Ok (key, _) => Loaded key
          | Raise e => Failed e
          end
      end
  end.

Definition loads (site : Site) (ext : Package) : bool :=
  match outcome_of site ext with Loaded _ => true | _ => false end.

(** For every entry of the directory [exists()] answers, and every
    failure of a [try] body is of a class the handler names. *)
Definition failures_handled (site : Site) (root : list Package) : Prop :=
  forall ext, In ext root ->
    exists_raises ext = None
    /\ forall e, outcome_of site ext = Failed e -> handled e = true.

(** The same, as a check that can be run. *)
Definition failures_handledb (site : Site) (root : list Package) : bool :=
  forallb (fun ext => match outcome_of site ext with
                      | Failed e => handled e
                      | Unreadable _ => false
                      | _ => true
                      end) root.

Definition failure_log (site : Site) (root : list Package) : list event :=
  flat_map (fun ext => match outcome_of site ext with
                       | Failed e => [failed_loading ext e]
                       | _ => []
                       end) root.

Definition loaded_keys (site : Site) (root : list Package) : list string :=
  flat_map (fun ext => match outcome_of site ext with
                       | Loaded key => [key]
                       | _ => []
                       end) root.

(** The keys of a dict after [d[k] = v], from the keys before. *)
Definition add_key (ks : list string) (k : string) : list string :=
  if existsb (fun k' => String.eqb k' k) ks then ks else (ks ++ [k])%list.

(** No two instances are the same object, and every one was allocated
    below [o]. *)
Definition allocated_below (o : nat) (d : Py.dict BaseExtension) : Prop :=
  NoDup (map oid (Py.values d)) /\ Forall (fun inst => oid inst < o) (Py.values d).

(** A change of the items that keeps the decoration. *)
Definition relabel {A B : Type} (f : A -> B) (p : Z * A) : Z * B :=
  (fst p, f (snd p)).


(** [int(k)] succeeds. *)
Definition is_integer (k : string) : bool :=
  match Py.int k with Some _ => true | None => false end.


(** What the action list of a submenu calls the method of an option. *)
Definition action_label (c : callback) : string :=
  match c with
  | Install_extension _ => "Install"
  | Update_extension _ => "Update"
  | Remove_extension _ => "Remove"
  | Extension_submenu => "Extension"
  | Bulk_install_extensions => "Bulk Install Extensions"
  end.

(** The options of a menu written out as rows of an action list. *)
Definition action_rows (options : Py.dict Option) : string :=
  String.concat ""
    (map (fun ko => ExtensionSubmenu.action_row (fst ko) (action_label (method (snd ko)))
                    ++ Py.nl)
         options).

(** The value of [website] or [repo] gives no link: it is false in a
    condition, or a string of blanks. *)
Definition no_link (v : Py.pyval) : bool :=
  match v with
  | Py.PyStr s => String.eqb (Py.strip s) ""
  | _ => negb (truthy v)
  end.

(** The link a value of [website] or [repo] gives: the string without the
    blanks around it; nothing when it is no string. *)
Definition link_of (v : Py.pyval) : string :=
  match v with
  | Py.PyStr s => Py.strip s
  | _ => ""
  end.

(** The lines of the links block: the links that are not empty, website
    first. *)
Definition link_lines (website repo : Py.pyval) : list string :=
  map ExtensionSubmenu.bullet_line
      (filter (fun l => negb (String.eqb l "")) [link_of website; link_of repo]).

(** [metadata.get("description", [])] *)
Definition description_of (md : Py.dict Py.pyval) : Py.pyval :=
  match Py.lookup md "description" with
  | Some v => v
  | None => Py.PyObj "[]"
  end.

(** The options [set_options] gives a submenu that has none yet. *)
Definition offered (self : ExtensionSubmenu.t) : Py.dict Option :=
  ExtensionSubmenu.options
    (ExtensionSubmenu.set_options
       (ExtensionSubmenu.mk (ExtensionSubmenu.title self)
          (ExtensionSubmenu.title_color self) (ExtensionSubmenu.extension self)
          (ExtensionSubmenu.previous_menu self) [])).

(** An instance is registered under its own index. *)
Definition keyed_by_index (d : Py.dict BaseExtension) : Prop :=
  Forall (fun kv => fst kv = Py.str (Py.get (metadata (snd kv)) "index")) d.

(** The value is a string. *)
Definition is_str (v : Py.pyval) : bool :=
  match v with Py.PyStr _ => true | _ => false end.

(** The order [sorted] puts decorated items in. *)
Definition by_key {A : Type} (x y : Z * A) : Prop := (fst x <= fst y)%Z.

(** The keys read as integers do not decrease along the list. *)
Definition ascending (ks : list string) : Prop :=
  exists zs, map Py.int ks = map Some zs /\ StronglySorted Z.le zs.

Definition registry_keys (r : Result (Py.dict BaseExtension)) : Result (list string) :=
  match r with
  | Ok reg => Ok (Py.keys reg)
  | Raise e => Raise e
  end.

(** [line.strip().lower() == command] *)
Definition is_command (command line : string) : bool :=
  String.eqb (Py.lower (Py.strip line)) command.

(** A line the loop reads as key tokens. *)
Definition key_line (line : string) : bool :=
  negb (is_command "done" line) && negb (is_command "all" line).

(** The instances the tokens name, in token order, unknown tokens left out. *)
Definition picked (extensions : Py.dict BaseExtension) (indices : list string)
  : list BaseExtension :=
  flat_map (fun idx => match Py.lookup extensions idx with
                       | Some ext => [ext]
                       | None => []
                       end) indices.

Definition picks (extensions : Py.dict BaseExtension) (line : string)
  : list BaseExtension :=
  picked extensions (Py.split (Py.strip line)).

(** The selection the key lines [lines] leave, starting from [selected]. *)
Definition accumulate (extensions : Py.dict BaseExtension) (lines : list string)
    (selected : list BaseExtension) : list BaseExtension :=
  fold_left (fun sel line => fst (select_line extensions (Py.strip line) sel))
            lines selected.

(** Every instance once, at the place of its first occurrence. *)
Fixpoint first_occurrences (l : list BaseExtension) : list BaseExtension :=
  match l with
  | [] => []
  | x :: l' => x :: filter (fun y => negb (ext_eqb x y)) (first_occurrences l')
  end.

(** How often the instance occurs in the list. *)
Definition occurrences (ext : BaseExtension) (l : list BaseExtension) : nat :=
  List.length (filter (ext_eqb ext) l).

(** The install actions of a sequence run one after the other, each on the
    host the one before left: what each did, and the host at the end. *)
Fixpoint run_actions {Host : Type} (m : Menu Host)
    (extensions : list BaseExtension) (host : Host)
  : list (option exn) * Host :=
  match extensions with
  | [] => ([], host)
  | extension :: rest =>
      let '(r, host') := install_extension m extension host in
      let '(rs, host'') := run_actions m rest host' in
      (r :: rs, host'')
  end.

Definition raised (r : option exn) : bool :=
  match r with Some _ => true | None => false end.

(** The display names of the items whose action raised, in sequence order. *)
Definition failed_names (extensions : list BaseExtension)
    (rs : list (option exn)) : list string :=
  map (fun p => display_name (fst p))
      (filter (fun p => raised (snd p)) (combine extensions rs)).

Definition succeeded (rs : list (option exn)) : nat :=
  List.length (filter (fun r => negb (raised r)) rs).

(** The instances whose install action the trace shows invoked, in order. *)
Definition installs (out : list event) : list BaseExtension :=
  flat_map (fun ev => match ev with Install ext => [ext] | _ => [] end) out.

Definition progress_marker (i n : nat) (ext : BaseExtension) : event :=
  Print ("[" ++ Py.str_nat i ++ "/" ++ Py.str_nat n ++ "] Installing "
             ++ display_name ext ++ "...").

(** What the batch emits for item [i] of [n] whose action did [r]. *)
Definition item_trace (n : nat) (i : nat) (ext : BaseExtension) (r : option exn)
  : list event :=
  [progress_marker i n ext;
   Install ext;
   match r with
   | None => PrintOk (ok_mark ++ " " ++ display_name ext ++ " installed successfully")
   | Some e => PrintError (fail_mark ++ " Failed to install " ++ display_name ext
                                     ++ ": " ++ message e)
   end;
   Print ""].

Fixpoint batch_trace (n : nat) (i : nat) (extensions : list BaseExtension)
    (rs : list (option exn)) : list event :=
  match extensions, rs with
  | ext :: extensions', r :: rs' =>
      (item_trace n i ext r ++ batch_trace n (S i) extensions' rs')%list
  | _, _ => []
  end.

Definition is_install (ev : event) : bool :=
  match ev with Install _ => true | _ => false end.

(** The text of the [index] of a metadata: the key its package is
    registered under, and the number its row shows. *)
Definition index_key (md : Py.dict Py.pyval) : string :=
  Py.str (Py.get md "index").

(** A package with a valid metadata document: [exists()] answers,
    [metadata.json] parses to an object whose [metadata] member is the
    object [md], the module [md] names can be imported and defines an
    extension class, and the first such class can be instantiated with
    [md]. *)
Definition valid_package (site : Site) (ext : Package) (md : Py.dict Py.pyval)
  : Prop :=
  exists_raises ext = None
  /\ (exists members,
        metadata_json ext = Some (Ok (DocObject members))
        /\ Py.lookup members "metadata" = Some (JDict md))
  /\ (exists m n c others,
        import_module site
          ("kiauh.extensions." ++ name ext ++ "." ++ Py.str (Py.get md "module"))
        = Ok m
        /\ getmembers m predicate = (n, Subclass c) :: others
        /\ init c md = None).

(** A listing all of whose packages are valid: the entries that hold no
    [metadata.json] aside, the metadata of its packages are [mds], in
    listing order. *)
Inductive valid_listing (site : Site)
  : list Package -> list (Py.dict Py.pyval) -> Prop :=
| valid_nil : valid_listing site [] []
| valid_skip ext root mds :
    exists_raises ext = None ->
    metadata_json ext = None ->
    valid_listing site root mds ->
    valid_listing site (ext :: root) mds
| valid_cons ext root md mds :
    valid_package site ext md ->
    valid_listing site root mds ->
    valid_listing site (ext :: root) (md :: mds).

(** The characters an integer literal is made of: digits, the
    underscore, a sign, and the blanks [int] skips. *)
Definition literal_char (c : ascii) : bool :=
  Py.is_digit c || Ascii.eqb c "_" || Ascii.eqb c "+" || Ascii.eqb c "-"
  || Py.isspace_c c.

(** The row of an extension in the listing of [print_menu]. *)
Definition menu_row (ext : BaseExtension) : string :=
  border ++ " " ++ ljust (ExtensionsMenu.row ext) 53 ++ " " ++ border ++ Py.nl.

(** ** A sample installation *)

Module Sample.

Definition descriptor (module_name index label : string) : Py.dict Py.pyval :=
  [("index", Py.PyStr index); ("module", Py.PyStr module_name);
   ("display_name", Py.PyStr label); ("updates", Py.PyBool false)].

Definition document (md : Py.dict Py.pyval) : json_document :=
  DocObject [("metadata", JDict md)].

(** A class whose constructor stores the metadata and returns. *)
Definition plain (cls : string) : ExtClass := mkClass cls (fun _ => None).

(** A class that cannot be instantiated: an abstract method is left. *)
Definition abstract (cls : string) : ExtClass :=
  mkClass cls (fun _ => Some (mkExn TypeError "Can't instantiate abstract class")).

Definition shell_cmd : Package :=
  mkPackage "extensions/gcode_shell_cmd" "gcode_shell_cmd" None
    (Some (Ok (document (descriptor "gcode_shell_cmd_extension" "1" "G-Code Shell Command")))).

Definition theme : Package :=
  mkPackage "extensions/mainsail_theme_installer" "mainsail_theme_installer" None
    (Some (Ok (document (descriptor "mainsail_theme_installer_extension" "2" "Mainsail Theme Installer")))).

Definition backup : Package :=
  mkPackage "extensions/klipper_backup" "klipper_backup" None
    (Some (Ok (document (descriptor "klipper_backup_extension" "10" "Klipper-Backup")))).

(** A plain file of the directory. *)
Definition init_py : Package := mkPackage "extensions/__init__.py" "__init__.py" None None.

(** [metadata.json] is not readable. *)
Definition locked : Package :=
  mkPackage "extensions/locked" "locked" None
    (Some (Raise (mkExn PermissionError "[Errno 13] Permission denied"))).

(** [metadata.json] is not JSON. *)
Definition garbled : Package :=
  mkPackage "extensions/garbled" "garbled" None
    (Some (Raise (mkExn JSONDecodeError "Expecting value: line 1 column 1 (char 0)"))).

(** The module the metadata names does not exist. *)
Definition orphan : Package :=
  mkPackage "extensions/orphan" "orphan" None
    (Some (Ok (document (descriptor "missing" "7" "Orphan")))).

(** The document has no [metadata] member. *)
Definition bare : Package :=
  mkPackage "extensions/bare" "bare" None (Some (Ok (DocObject []))).

(** The module defines no extension class. *)
Definition hollow : Package :=
  mkPackage "extensions/hollow" "hollow" None
    (Some (Ok (document (descriptor "hollow_extension" "8" "Hollow")))).

(** The module defines two extension classes. *)
Definition twin : Package :=
  mkPackage "extensions/twin" "twin" None
    (Some (Ok (document (descriptor "twin_extension" "3" "Twin")))).

(** The extension class cannot be instantiated. *)
Definition unfinished : Package :=
  mkPackage "extensions/unfinished" "unfinished" None
    (Some (Ok (document (descriptor "unfinished_extension" "4" "Unfinished")))).

(** The metadata has no [index]. *)
Definition unnumbered : Package :=
  mkPackage "extensions/unnumbered" "unnumbered" None
    (Some (Ok (DocObject [("metadata",
       JDict [("module", Py.PyStr "unnumbered_extension");
              ("display_name", Py.PyStr "Unnumbered")])]))).


(** The index is the one [twin] declares. *)
Definition usurper : Package :=
  mkPackage "extensions/usurper" "usurper" None
    (Some (Ok (document (descriptor "usurper_extension" "3" "Usurper")))).

(** The entry cannot be searched: [exists()] raises. *)
Definition sealed : Package :=
  mkPackage "extensions/sealed" "sealed"
    (Some (mkExn PermissionError
             "[Errno 13] Permission denied: 'extensions/sealed/metadata.json'"))
    None.

(** The index is a string that starts with a blank. *)
Definition spaced : Package :=
  mkPackage "extensions/spaced" "spaced" None
    (Some (Ok (document (descriptor "spaced_extension" " 7" "Spaced")))).

Definition site : Site :=
  mkSite (fun module_path =>
    if String.eqb module_path "kiauh.extensions.gcode_shell_cmd.gcode_shell_cmd_extension"
    then Ok [("BaseExtension", BaseExtensionClass);
             ("Logger", OtherClass);
             ("ShellCommandExtension", Subclass (plain "ShellCommandExtension"));
             ("os", NotAClass)]
    else if String.eqb module_path "kiauh.extensions.mainsail_theme_installer.mainsail_theme_installer_extension"
    then Ok [("BaseExtension", BaseExtensionClass);
             ("MainsailThemeInstallerExtension",
              Subclass (plain "MainsailThemeInstallerExtension"))]
    else if String.eqb module_path "kiauh.extensions.klipper_backup.klipper_backup_extension"
    then Ok [("BaseExtension", BaseExtensionClass);
             ("KlipperbackupExtension", Subclass (plain "KlipperbackupExtension"))]
    else if String.eqb module_path "kiauh.extensions.hollow.hollow_extension"
    then Ok [("BaseExtension", BaseExtensionClass); ("Logger", OtherClass)]
    else if String.eqb module_path "kiauh.extensions.twin.twin_extension"
    then Ok [("BaseExtension", BaseExtensionClass);
             ("CastorExtension", Subclass (plain "CastorExtension"));
             ("PolluxExtension", Subclass (plain "PolluxExtension"))]
    else if String.eqb module_path "kiauh.extensions.unfinished.unfinished_extension"
    then Ok [("UnfinishedExtension", Subclass (abstract "UnfinishedExtension"))]
    else if String.eqb module_path "kiauh.extensions.unnumbered.unnumbered_extension"
    then Ok [("UnnumberedExtension", Subclass (plain "UnnumberedExtension"))]
    else if String.eqb module_path "kiauh.extensions.padded.padded_extension"
    then Ok [("PaddedExtension", Subclass (plain "PaddedExtension"))]
    else Raise (mkExn ModuleNotFoundError ("No module named '" ++ module_path ++ "'"))).

(** The site with the modules of [usurper] and [spaced] installed as
    well. *)
Definition crowded_site : Site :=
  mkSite (fun module_path =>
    if String.eqb module_path "kiauh.extensions.usurper.usurper_extension"
    then Ok [("UsurperExtension", Subclass (plain "UsurperExtension"))]
    else if String.eqb module_path "kiauh.extensions.spaced.spaced_extension"
    then Ok [("SpacedExtension", Subclass (plain "SpacedExtension"))]
    else import_module site module_path).

(** A listing of the root directory with three packages that load, a
    plain file and three packages whose failure the handler names. *)
Definition listing : list Package :=
  [backup; init_py; locked; theme; garbled; orphan; shell_cmd].

Definition instance (o : nat) (cls index label : string) (module_name : string)
  : BaseExtension :=
  mkExt o (plain cls) (descriptor module_name index label).

Definition A : BaseExtension := instance 0 "AExtension" "1" "A" "a_extension".
Definition B : BaseExtension := instance 1 "BExtension" "2" "B" "b_extension".
Definition C : BaseExtension := instance 2 "CExtension" "3" "C" "c_extension".
Definition D : BaseExtension := instance 3 "DExtension" "4" "D" "d_extension".
Definition E : BaseExtension := instance 4 "EExtension" "5" "E" "e_extension".

Definition registry : Py.dict BaseExtension := [("1", A); ("2", B); ("3", C)].

(** The host is the list of the extensions installed on it, by identity.
    Installing [B] or [D] raises; [get_confirm] reads one line and takes
    the empty line as the default. *)
Definition menu : Menu (list nat) :=
  mkMenu (list nat)
    (fun text _ => text)
    (fun question default stdin =>
       match stdin with
       | [] => (Raise (mkExn EOFError "EOF when reading a line"), [], [question])
       | answer :: rest =>
           (Ok (if String.eqb (Py.lower (Py.strip answer)) "n" then false
                else if String.eqb (Py.strip answer) "" then default else true),
            rest, [question])
       end)
    (fun ext host =>
       if Nat.eqb (oid ext) 1 || Nat.eqb (oid ext) 3
       then (Some (mkExn RuntimeError "installation failed"), host)
       else (None, (host ++ [oid ext])%list)).

(** The terminal of the examples: no colours, every line framed. *)
Definition render : Render :=
  mkRender
    (fun text _ => text)
    (fun c width left right =>
       match c with
       | Described v => Ok (left ++ " " ++ ljust (Py.str v) width ++ " " ++ right)
       | Lines l =>
           Ok (join_lines (map (fun s => left ++ " " ++ ljust s width ++ " " ++ right) l))
       end).

(** An extension that can be updated and has a website. *)
Definition obico : BaseExtension :=
  mkExt 7 (plain "ObicoExtension")
    [("index", Py.PyStr "8"); ("module", Py.PyStr "moonraker_obico_extension");
     ("display_name", Py.PyStr "Obico for Klipper"); ("updates", Py.PyBool true);
     ("description", Py.PyObj "['Remote access and AI failure detection']");
     ("website", Py.PyStr " https://www.obico.io "); ("repo", Py.PyNone)].


End Sample.

(** * Properties *)

(** ** The Python primitives on examples *)

Example strip_ex : Py.strip "  1 3  " = "1 3". Proof. reflexivity. Qed.
Example split_ex : Py.split " 1  3 5 " = ["1"; "3"; "5"]. Proof. reflexivity. Qed.
Example lower_ex : Py.lower "DoNe" = "done". Proof. reflexivity. Qed.
Example int_ex1 : Py.int " 12 " = Some 12%Z. Proof. reflexivity. Qed.
Example int_ex2 : Py.int "-1_0" = Some (-10)%Z. Proof. reflexivity. Qed.
Example int_ex3 : Py.int "None" = None. Proof. reflexivity. Qed.
Example int_ex4 : Py.int "1__0" = None. Proof. reflexivity. Qed.
Example int_ex5 : Py.int "" = None. Proof. reflexivity. Qed.
(** [int] does not skip FS, which [strip] drops; and it refuses a literal
    of more than 4300 digits. *)
Example int_ex6 : Py.int (String (ascii_of_nat 28) "1") = None.
Proof. reflexivity. Qed.
Example int_ex7 : Py.strip (String (ascii_of_nat 28) "1") = "1".
Proof. reflexivity. Qed.
Example int_ex8 :
  Py.int (string_of_list_ascii (repeat "0"%char 4300)) = Some 0%Z
  /\ Py.int (string_of_list_ascii (repeat "0"%char 4301)) = None.
Proof. split; vm_compute; reflexivity. Qed.
Example int_ex9 : Py.int "- 1" = None /\ Py.int "+1" = Some 1%Z.
Proof. split; reflexivity. Qed.
Example sorted_ex :
  Py.sorted (fun kv => Py.int (fst kv)) [("10", 1); ("2", 2); ("02", 3); ("1", 4)]
  = Some [("1", 4); ("2", 2); ("02", 3); ("10", 1)].
Proof. reflexivity. Qed.
Example dedent_ex :
  dedent (Py.nl ++ indent12 ++ "a" ++ Py.nl ++ indent16 ++ "b" ++ Py.nl ++ indent12)
  = Py.nl ++ "a" ++ Py.nl ++ "    b" ++ Py.nl.
Proof. reflexivity. Qed.
Example set_ex :
  Py.set (Py.set (Py.set [] "2" 0) "1" 1) "2" 2 = [("2", 2); ("1", 1)].
Proof. reflexivity. Qed.

(** ** Facts about dicts and sorting *)

Section DictFacts.
Context {V : Type}.
Implicit Types (d : Py.dict V) (k : string) (v : V).

Lemma contains_In d k : Py.contains d k = true <-> In k (Py.keys d).
Proof.
  unfold Py.contains, Py.keys. rewrite existsb_exists, in_map_iff. split.
  - intros [kv [Hin Heq]]. apply String.eqb_eq in Heq. now exists kv.
  - intros [kv [Heq Hin]]. exists kv. split; [assumption|].
    now apply String.eqb_eq.
Qed.

Lemma lookup_None d k : Py.lookup d k = None <-> ~ In k (Py.keys d).
Proof.
  induction d as [|[k' v'] d IH]; simpl.
  - tauto.
  - destruct (String.eqb_spec k' k) as [->|Hne].
    + split; [discriminate | intros H; exfalso; apply H; now left].
    + rewrite IH. tauto.
Qed.

Lemma lookup_Some_In d k v : Py.lookup d k = Some v -> In v (Py.values d).
Proof.
  induction d as [|[k' v'] d IH]; simpl; [discriminate|].
  destruct (String.eqb k' k).
  - intros [= ->]. now left.
  - intros H. right. now apply IH.
Qed.

(** Assignment to a key of the dict leaves the keys as they are; a new key
    is appended. *)
Lemma keys_set d k v :
  Py.keys (Py.set d k v)
  = if Py.contains d k then Py.keys d else (Py.keys d ++ [k])%list.
Proof.
  induction d as [|[k' v'] d IH]; simpl; [reflexivity|].
  unfold Py.contains in *. simpl.
  destruct (String.eqb k' k); simpl; [reflexivity|].
  rewrite IH. now destruct (existsb _ d).
Qed.

Lemma set_fresh d k v :
  ~ In k (Py.keys d) -> Py.set d k v = (d ++ [(k, v)])%list.
Proof.
  induction d as [|[k' v'] d IH]; simpl; [reflexivity|].
  intros Hn. destruct (String.eqb_spec k' k) as [->|Hne].
  - exfalso. apply Hn. now left.
  - rewrite IH; [reflexivity|]. intros Hin. apply Hn. now right.
Qed.

Lemma values_set_subset d k v x :
  In x (Py.values (Py.set d k v)) -> x = v \/ In x (Py.values d).
Proof.
  induction d as [|[k' v'] d IH]; simpl.
  - intros [<-|[]]. now left.
  - destruct (String.eqb k' k); simpl.
    + intros [<-|H]; [now left | right; now right].
    + intros [<-|H]; [right; now left|].
      destruct (IH H) as [->|H']; [now left | right; now right].
Qed.

Lemma fold_set_fresh (l : list (string * V)) : forall d,
  NoDup (Py.keys d ++ map fst l) ->
  fold_left (fun d kv => Py.set d (fst kv) (snd kv)) l d = (d ++ l)%list.
Proof.
  induction l as [|[k v] l IH]; intros d Hnd; simpl.
  - now rewrite app_nil_r.
  - simpl in Hnd. rewrite set_fresh.
    + rewrite IH.
      * now rewrite <- app_assoc.
      * unfold Py.keys in *. rewrite map_app. simpl.
        rewrite <- app_assoc. exact Hnd.
    + apply NoDup_remove_2 in Hnd. intros Hin. apply Hnd.
      apply in_or_app. now left.
Qed.

Lemma keys_set_add d k v : Py.keys (Py.set d k v) = add_key (Py.keys d) k.
Proof.
  rewrite keys_set. unfold add_key, Py.contains, Py.keys.
  replace (existsb (fun k' => String.eqb k' k) (map fst d))
    with (existsb (fun kv : string * V => String.eqb (fst kv) k) d);
    [reflexivity|].
  induction d as [|kv d' IH]; simpl; [reflexivity | now rewrite IH].
Qed.

Lemma keys_fold_set (l : list (string * V)) : forall d,
  Py.keys (fold_left (fun d kv => Py.set d (fst kv) (snd kv)) l d)
  = fold_left add_key (map fst l) (Py.keys d).
Proof.
  induction l as [|[k v] l IH]; intros d; simpl; [reflexivity|].
  now rewrite IH, keys_set_add.
Qed.

Lemma NoDup_keys_set d k v : NoDup (Py.keys d) -> NoDup (Py.keys (Py.set d k v)).
Proof.
  intros Hnd. rewrite keys_set. destruct (Py.contains d k) eqn:Hc; [assumption|].
  apply NoDup_app; [assumption | repeat constructor; intros [] |].
  intros x Hx [<-|[]]. apply contains_In in Hx. congruence.
Qed.

(** [dict(pairs)] of pairs with distinct keys is the pairs, in order. *)
Lemma of_items_distinct (l : list (string * V)) :
  NoDup (map fst l) -> Py.of_items l = l.
Proof.
  intros Hnd. unfold Py.of_items. now rewrite fold_set_fresh.
Qed.

Lemma lookup_In d k v :
  NoDup (Py.keys d) -> In (k, v) d -> Py.lookup d k = Some v.
Proof.
  induction d as [|[k' v'] d IH]; simpl; [intros _ []|].
  intros Hnd Hin. inversion Hnd as [|? ? Hnotin Hnd']; subst.
  destruct Hin as [[= -> ->]|Hin].
  - now rewrite String.eqb_refl.
  - destruct (String.eqb_spec k' k) as [->|Hne]; [|now apply IH].
    exfalso. apply Hnotin. unfold Py.keys. apply in_map_iff. now exists (k, v).
Qed.

Lemma In_set d k v : In (k, v) (Py.set d k v).
Proof.
  induction d as [|[k' v'] d IH]; simpl; [now left|].
  destruct (String.eqb_spec k' k) as [->|Hne]; [now left | now right].
Qed.

Lemma lookup_Some_pair d k v : Py.lookup d k = Some v -> In (k, v) d.
Proof.
  induction d as [|[k' v'] d IH]; simpl; [discriminate|].
  destruct (String.eqb_spec k' k) as [->|Hne].
  - intros [= ->]. now left.
  - intros H. right. now apply IH.
Qed.

(** Lookup does not depend on the order of the items. *)
Lemma lookup_perm d1 d2 k :
  NoDup (Py.keys d1) -> Permutation d1 d2 -> Py.lookup d1 k = Py.lookup d2 k.
Proof.
  intros Hnd Hp. destruct (Py.lookup d2 k) as [v|] eqn:H2.
  - apply lookup_In; [exact Hnd|].
    apply (Permutation_in _ (Permutation_sym Hp)). now apply lookup_Some_pair.
  - apply lookup_None. apply lookup_None in H2. intros Hin. apply H2.
    unfold Py.keys in *. eapply Permutation_in; [|exact Hin].
    now apply Permutation_map.
Qed.

Lemma lookup_set_same d k v : Py.lookup (Py.set d k v) k = Some v.
Proof.
  induction d as [|[k' v'] d IH]; simpl.
  - now rewrite String.eqb_refl.
  - destruct (String.eqb k' k) eqn:He; simpl; rewrite He; [reflexivity | exact IH].
Qed.

Lemma lookup_set_other d k k0 v :
  k0 <> k -> Py.lookup (Py.set d k0 v) k = Py.lookup d k.
Proof.
  intros Hne. induction d as [|[k' v'] d IH]; simpl.
  - destruct (String.eqb_spec k0 k); [contradiction | reflexivity].
  - destruct (String.eqb_spec k' k0) as [->|Hne']; simpl.
    + destruct (String.eqb_spec k0 k); [contradiction | reflexivity].
    + destruct (String.eqb k' k); [reflexivity | exact IH].
Qed.

Lemma lookup_mapped (f : string -> V) ks k :
  In k ks -> Py.lookup (map (fun i => (i, f i)) ks) k = Some (f k).
Proof.
  induction ks as [|k' ks IH]; intros Hin; [destruct Hin|]. simpl.
  destruct (String.eqb_spec k' k) as [->|Hne]; [reflexivity|].
  destruct Hin as [->|Hin]; [contradiction | now apply IH].
Qed.

Lemma lookup_Some_key d k v : Py.lookup d k = Some v -> In k (Py.keys d).
Proof.
  intros H. destruct (in_dec string_dec k (Py.keys d)) as [Hin|Hnot]; [exact Hin|].
  apply lookup_None in Hnot. congruence.
Qed.
End DictFacts.

Section SortFacts.
Context {A : Type}.
Implicit Types (l : list (Z * A)) (x : Z * A).

Lemma insert_perm x l : Permutation (Py.insert x l) (x :: l).
Proof.
  induction l as [|y l IH]; simpl; [reflexivity|].
  destruct (fst x <=? fst y)%Z; [reflexivity|].
  rewrite IH. apply perm_swap.
Qed.

Lemma sort_perm l : Permutation (Py.sort l) l.
Proof.
  induction l as [|x l IH]; simpl; [reflexivity|].
  rewrite insert_perm. now constructor.
Qed.

Lemma insert_sorted x l :
  StronglySorted by_key l -> StronglySorted by_key (Py.insert x l).
Proof.
  induction l as [|y l IH]; intros Hs; simpl.
  - constructor; constructor.
  - destruct (Z.leb_spec (fst x) (fst y)) as [Hle|Hgt].
    + constructor; [assumption|].
      inversion Hs as [|? ? _ Hall]; subst.
      constructor; [exact Hle|].
      eapply Forall_impl; [|exact Hall].
      intros z Hz. unfold by_key in *. lia.
    + inversion Hs as [|? ? Hs' Hall]; subst.
      constructor; [now apply IH|].
      rewrite Forall_forall. intros z Hz.
      apply (Permutation_in _ (insert_perm x l)) in Hz.
      destruct Hz as [<-|Hz].
      * unfold by_key. lia.
      * rewrite Forall_forall in Hall. now apply Hall.
Qed.

Lemma sort_sorted l : StronglySorted by_key (Py.sort l).
Proof.
  induction l as [|x l IH]; simpl; [constructor|]. now apply insert_sorted.
Qed.

Lemma decorate_Some (key : A -> option Z) (items : list A) :
  Forall (fun a => key a <> None) items ->
  exists r, Py.decorate key items = Some r
            /\ map snd r = items
            /\ Forall (fun p => key (snd p) = Some (fst p)) r.
Proof.
  induction 1 as [|a items Ha _ [r [Hr [Hsnd Hall]]]]; simpl.
  - exists []. repeat split; constructor.
  - destruct (key a) as [z|] eqn:Hk; [|contradiction].
    rewrite Hr. exists ((z, a) :: r). repeat split.
    + simpl. now rewrite Hsnd.
    + constructor; assumption.
Qed.

Lemma decorate_None (key : A -> option Z) (items : list A) :
  Exists (fun a => key a = None) items -> Py.decorate key items = None.
Proof.
  induction 1 as [a items Ha|a items _ IH]; simpl.
  - now rewrite Ha.
  - destruct (key a); [|reflexivity]. now rewrite IH.
Qed.

(** [sorted(items, key=key)] when every key can be computed: a
    rearrangement of the items whose keys do not decrease. *)
Lemma sorted_Some (key : A -> option Z) (items : list A) :
  Forall (fun a => key a <> None) items ->
  exists res zs,
    Py.sorted key items = Some res
    /\ Permutation res items
    /\ map key res = map Some zs
    /\ StronglySorted Z.le zs.
Proof.
  intros Hall. destruct (decorate_Some key items Hall) as [r [Hr [Hsnd Hkeys]]].
  exists (map snd (Py.sort r)), (map fst (Py.sort r)).
  unfold Py.sorted. rewrite Hr. simpl. repeat split.
  - rewrite <- Hsnd. apply Permutation_map, sort_perm.
  - assert (Hs : Forall (fun p => key (snd p) = Some (fst p)) (Py.sort r)).
    { rewrite Forall_forall in *. intros p Hp. apply Hkeys.
      now apply (Permutation_in _ (sort_perm r)). }
    induction Hs as [|p s Hp _ IH]; simpl; [reflexivity|].
    now rewrite Hp, IH.
  - generalize (sort_sorted r). generalize (Py.sort r).
    induction 1 as [|p s _ IH Hfa]; simpl; constructor; [assumption|].
    rewrite Forall_map. exact Hfa.
Qed.
Lemma sorted_perm (key : A -> option Z) (items res : list A) :
  Py.sorted key items = Some res -> Permutation res items.
Proof.
  unfold Py.sorted. destruct (Py.decorate key items) as [r|] eqn:Hr; [|discriminate].
  simpl. intros [= <-].
  assert (Hsnd : map snd r = items).
  { clear - Hr. revert r Hr. induction items as [|a items IH]; simpl; intros r Hr.
    - now injection Hr as <-.
    - destruct (key a); [|discriminate].
      destruct (Py.decorate key items) as [r'|]; [|discriminate].
      injection Hr as <-. simpl. now rewrite (IH r' eq_refl). }
  rewrite <- Hsnd. apply Permutation_map, sort_perm.
Qed.
End SortFacts.

Lemma decorate_Some_inv {A : Type} (key : A -> option Z) (items : list A) r :
  Py.decorate key items = Some r -> Forall (fun a => key a <> None) items.
Proof.
  revert r. induction items as [|a items IH]; intros r Hr; [constructor|].
  simpl in Hr. destruct (key a) as [z|] eqn:Hk; [|discriminate].
  destruct (Py.decorate key items) as [r'|]; [|discriminate].
  constructor; [congruence | now apply (IH r')].
Qed.

(** Sorting looks at the decoration only: it commutes with any change
    of the items that keeps the decoration. *)
Section SortKeys.
Context {A B : Type} (f : A -> B).

Lemma insert_relabel x l :
  Py.insert (relabel f x) (map (relabel f) l) = map (relabel f) (Py.insert x l).
Proof.
  induction l as [|y l IH]; simpl; [reflexivity|].
  destruct (fst x <=? fst y)%Z; simpl; [reflexivity|]. now rewrite IH.
Qed.

Lemma sort_relabel l : Py.sort (map (relabel f) l) = map (relabel f) (Py.sort l).
Proof.
  induction l as [|x l IH]; simpl; [reflexivity|].
  now rewrite IH, insert_relabel.
Qed.

Lemma decorate_relabel (key : B -> option Z) (l : list A) :
  Py.decorate key (map f l)
  = option_map (map (relabel f)) (Py.decorate (fun a => key (f a)) l).
Proof.
  induction l as [|a l IH]; simpl; [reflexivity|].
  destruct (key (f a)); [|reflexivity]. rewrite IH.
  now destruct (Py.decorate _ l).
Qed.

Lemma sorted_relabel (key : B -> option Z) (l : list A) :
  Py.sorted key (map f l) = option_map (map f) (Py.sorted (fun a => key (f a)) l).
Proof.
  unfold Py.sorted. rewrite decorate_relabel.
  destruct (Py.decorate _ l) as [r|]; simpl; [|reflexivity].
  rewrite sort_relabel, !map_map. reflexivity.
Qed.
End SortKeys.

(** ** The loader, one directory entry at a time *)

Section LoaderFacts.
Variable site : Site.

(** Where the new object lives has no bearing on whether the package
    loads, nor on its key. *)
Lemma load_at ext doc o :
  load site ext doc o
  = match load site ext doc 0 with
    | Ok (key, inst) => Ok (key, mkExt o (ext_class inst) (metadata inst))
    | Raise e => Raise e
    end.
Proof.
  unfold load. destruct doc as [document|e]; [|reflexivity].
  destruct (get_metadata document) as [[md|v]|e]; try reflexivity.
  destruct (import_module site _) as [m|e]; [|reflexivity].
  destruct (getmembers m predicate) as [|[n cls] rest]; [reflexivity|].
  unfold instantiate. destruct cls; try reflexivity.
  destruct (init c md); reflexivity.
Qed.

Lemma scan_skipped ext rest d o :
  outcome_of site ext = Skipped -> scan site (ext :: rest) d o = scan site rest d o.
Proof.
  unfold outcome_of. simpl. destruct (exists_raises ext); [discriminate|].
  destruct (metadata_json ext) as [doc|]; [|reflexivity].
  destruct (load site ext doc 0) as [[k i]|e]; discriminate.
Qed.

Lemma scan_loaded ext o key :
  outcome_of site ext = Loaded key ->
  exists inst, oid inst = o
    /\ forall rest d,
         scan site (ext :: rest) d o = scan site rest (Py.set d key inst) (S o).
Proof.
  unfold outcome_of. simpl. destruct (exists_raises ext); [discriminate|].
  destruct (metadata_json ext) as [doc|]; [|discriminate].
  rewrite (load_at ext doc o).
  destruct (load site ext doc 0) as [[k i]|e]; [|discriminate].
  intros [= ->]. eexists. split; [|reflexivity]. reflexivity.
Qed.

Lemma scan_failed ext rest d o e :
  outcome_of site ext = Failed e ->
  scan site (ext :: rest) d o
  = if handled e
    then let '(r, out, o') := scan site rest d o in
         (r, failed_loading ext e :: out, o')
    else (Raise e, [], o).
Proof.
  unfold outcome_of. simpl. destruct (exists_raises ext); [discriminate|].
  destruct (metadata_json ext) as [doc|]; [|discriminate].
  rewrite (load_at ext doc o).
  destruct (load site ext doc 0) as [[k i]|e']; [discriminate|].
  now intros [= ->].
Qed.

(** An exception of [exists()] leaves the loop, whatever its class. *)
Lemma scan_unreadable ext rest d o e :
  outcome_of site ext = Unreadable e ->
  scan site (ext :: rest) d o = (Raise e, [], o).
Proof.
  unfold outcome_of. simpl. destruct (exists_raises ext) as [e'|].
  - now intros [= ->].
  - destruct (metadata_json ext) as [doc|]; [|discriminate].
    destruct (load site ext doc 0) as [[k i]|e']; discriminate.
Qed.

Lemma outcome_unreadable ext e :
  outcome_of site ext = Unreadable e <-> exists_raises ext = Some e.
Proof.
  unfold outcome_of. destruct (exists_raises ext) as [e'|].
  - split; now intros [= ->].
  - split; [|discriminate].
    destruct (metadata_json ext) as [doc|]; [|discriminate].
    destruct (load site ext doc 0) as [[k i]|e']; discriminate.
Qed.

Lemma failures_handled_cons ext root :
  failures_handled site (ext :: root) ->
  (forall e, outcome_of site ext = Failed e -> handled e = true)
  /\ (forall e, outcome_of site ext <> Unreadable e)
  /\ failures_handled site root.
Proof.
  intros H. destruct (H ext (or_introl eq_refl)) as [Hex He]. split; [exact He|].
  split.
  - intros e Hu. apply outcome_unreadable in Hu. congruence.
  - intros x Hin. apply H. now right.
Qed.

Lemma failures_handled_app l1 l2 :
  failures_handled site (l1 ++ l2)
  <-> failures_handled site l1 /\ failures_handled site l2.
Proof.
  unfold failures_handled. split.
  - intros H. split; intros ext Hin; apply H; apply in_or_app; tauto.
  - intros [H1 H2] ext Hin. apply in_app_or in Hin. destruct Hin; auto.
Qed.

(** With every failure handled the loop runs to its end, logs the
    failures and leaves the dict it would leave without the packages that
    do not load. *)
Lemma scan_filter root : forall d o,
  failures_handled site root ->
  exists d' o',
    scan site root d o = (Ok d', failure_log site root, o')
    /\ scan site (filter (loads site) root) d o = (Ok d', [], o').
Proof.
  induction root as [|ext root IH]; intros d o Hh.
  - exists d, o. split; reflexivity.
  - apply failures_handled_cons in Hh. destruct Hh as [He [Hu Hh]].
    unfold failure_log. cbn [filter flat_map]. unfold loads at 1.
    destruct (outcome_of site ext) as [|key|e|e] eqn:Hout.
    + rewrite (scan_skipped _ _ _ _ Hout). apply IH, Hh.
    + destruct (scan_loaded ext o key Hout) as [inst [_ Hstep]].
      rewrite !Hstep. apply IH, Hh.
    + rewrite (scan_failed _ _ _ _ _ Hout), (He e eq_refl).
      destruct (IH d o Hh) as [d' [o' [H1 H2]]].
      exists d', o'. rewrite H1. split; [reflexivity | exact H2].
    + exfalso. exact (Hu e eq_refl).
Qed.
(** With every failure handled and no key met twice, the dict the loop
    leaves has the keys of the packages that load, in scan order. *)
Lemma scan_keys root : forall d o,
  failures_handled site root ->
  NoDup (Py.keys d ++ loaded_keys site root) ->
  exists d' o',
    scan site root d o = (Ok d', failure_log site root, o')
    /\ Py.keys d' = (Py.keys d ++ loaded_keys site root)%list.
Proof.
  induction root as [|ext root IH]; intros d o Hh Hnd.
  - exists d, o. split; [reflexivity|]. simpl. now rewrite app_nil_r.
  - apply failures_handled_cons in Hh. destruct Hh as [He [Hu Hh]].
    unfold failure_log, loaded_keys in *. cbn [flat_map] in *.
    destruct (outcome_of site ext) as [|key|e|e] eqn:Hout.
    + rewrite (scan_skipped _ _ _ _ Hout). apply IH; assumption.
    + destruct (scan_loaded ext o key Hout) as [inst [_ Hstep]].
      rewrite Hstep. cbn [app] in *.
      assert (Hfresh : ~ In key (Py.keys d)).
      { apply NoDup_remove_2 in Hnd. intros Hin. apply Hnd.
        apply in_or_app. now left. }
      destruct (IH (Py.set d key inst) (S o) Hh) as [d' [o' [H1 H2]]].
      * rewrite set_fresh by assumption. unfold Py.keys in *.
        rewrite map_app. cbn [map fst]. rewrite <- app_assoc. exact Hnd.
      * exists d', o'. split; [exact H1|]. rewrite H2.
        rewrite set_fresh by assumption. unfold Py.keys.
        rewrite map_app. cbn [map fst]. now rewrite <- app_assoc.
    + rewrite (scan_failed _ _ _ _ _ Hout), (He e eq_refl).
      destruct (IH d o Hh Hnd) as [d' [o' [H1 H2]]].
      exists d', o'. rewrite H1. split; [reflexivity | exact H2].
    + exfalso. exact (Hu e eq_refl).
Qed.


Lemma allocated_below_set d key inst :
  allocated_below (oid inst) d -> allocated_below (S (oid inst)) (Py.set d key inst).
Proof.
  intros [Hnd Hlt]. split.
  - clear - Hnd Hlt. induction d as [|[k v] d IH]; simpl.
    + repeat constructor. intros [].
    + simpl in Hnd, Hlt. inversion Hnd as [|? ? Hnotin Hnd']; subst.
      inversion Hlt as [|? ? Hv Hlt']; subst.
      destruct (String.eqb k key); simpl.
      * constructor; [|assumption].
        rewrite in_map_iff. intros [x [Hx Hin]].
        rewrite Forall_forall in Hlt'. specialize (Hlt' x Hin). lia.
      * constructor; [|now apply IH].
        rewrite in_map_iff. intros [x [Hx Hin]].
        apply values_set_subset in Hin. destruct Hin as [->|Hin].
        -- simpl in Hv. lia.
        -- apply Hnotin. rewrite in_map_iff. now exists x.
  - rewrite Forall_forall in *. intros x Hx.
    apply values_set_subset in Hx. destruct Hx as [->|Hx]; [lia|].
    specialize (Hlt x Hx). lia.
Qed.

(** Every instance in the dict is a different object. *)
Lemma scan_allocates root : forall d o d' out o',
  NoDup (Py.keys d) -> allocated_below o d ->
  scan site root d o = (Ok d', out, o') ->
  NoDup (Py.keys d') /\ allocated_below o' d'.
Proof.
  induction root as [|ext root IH]; intros d o d' out o' Hk Ha Hs.
  - simpl in Hs. injection Hs as <- <- <-. now split.
  - destruct (outcome_of site ext) as [|key|e|e] eqn:Hout.
    + rewrite (scan_skipped _ _ _ _ Hout) in Hs. now apply (IH d o d' out o').
    + destruct (scan_loaded ext o key Hout) as [inst [Hoid Hstep]].
      rewrite Hstep in Hs. apply (IH _ _ _ _ _ (NoDup_keys_set d key inst Hk)) in Hs.
      * exact Hs.
      * subst o. now apply allocated_below_set.
    + rewrite (scan_failed _ _ _ _ _ Hout) in Hs. destruct (handled e).
      * destruct (scan site root d o) as [[r out1] p1] eqn:Hrest.
        injection Hs as -> <- <-. now apply (IH d o d' out1 p1).
      * discriminate.
    + rewrite (scan_unreadable _ _ _ _ _ Hout) in Hs. discriminate.
Qed.

Lemma failures_handled_check root :
  failures_handledb site root = true -> failures_handled site root.
Proof.
  unfold failures_handledb. rewrite forallb_forall.
  intros H ext Hin. specialize (H ext Hin). split.
  - destruct (exists_raises ext) as [e|] eqn:Hex; [|reflexivity].
    apply outcome_unreadable in Hex. now rewrite Hex in H.
  - intros e He. now rewrite He in H.
Qed.
End LoaderFacts.

(** ** discover_extensions *)

Section Discovery.
Variable site : Site.

(** The keys of the registry are a function of the keys of [ext_dict]. *)
Lemma sorted_registry_keys (d : Py.dict BaseExtension) :
  option_map (fun l => Py.keys (Py.of_items l)) (Py.sorted key_int (Py.items d))
  = option_map (fun ks => fold_left add_key ks []) (Py.sorted Py.int (Py.keys d)).
Proof.
  unfold Py.keys at 2, Py.items. rewrite (sorted_relabel fst Py.int d).
  change (fun a : string * BaseExtension => Py.int (fst a)) with (@key_int BaseExtension).
  destruct (Py.sorted key_int d) as [l|]; simpl; [|reflexivity].
  unfold Py.of_items. now rewrite keys_fold_set.
Qed.

(** The registry holds every instance once, under distinct keys. *)
Lemma discover_distinct_instances root o reg out o' :
  discover_extensions site root o = (Ok reg, out, o') ->
  NoDup (Py.keys reg) /\ NoDup (map oid (Py.values reg)).
Proof.
  unfold discover_extensions.
  destruct (scan site root [] o) as [[[d|e] out1] p1] eqn:Hs; [|discriminate].
  destruct (Py.sorted key_int (Py.items d)) as [l|] eqn:Hl; [|discriminate].
  intros [= <- <- <-].
  destruct (scan_allocates site root [] o d out1 p1) as [Hk [Hv _]];
    [constructor | split; constructor | exact Hs |].
  apply sorted_perm in Hl. unfold Py.items in Hl.
  assert (Hnd : NoDup (map fst l)).
  { eapply Permutation_NoDup; [|exact Hk].
    apply Permutation_map. now symmetry. }
  rewrite (of_items_distinct l Hnd). split; [exact Hnd|].
  eapply Permutation_NoDup; [|exact Hv].
  unfold Py.values. rewrite !(Permutation_map _ Hl). reflexivity.
Qed.

End Discovery.

(** ** The order of the directory listing *)

(** [iterdir] yields the entries in an order the file system chooses.  The
    keys of the registry do not depend on it; their iteration order does
    not either, unless two keys read as the same integer. *)
Section ListingOrder.
Variable site : Site.

Lemma In_add_key ks k0 k : In k (add_key ks k0) <-> In k ks \/ k = k0.
Proof.
  unfold add_key. destruct (existsb _ ks) eqn:He.
  - split; [now left|]. intros [H| ->]; [assumption|].
    apply existsb_exists in He. destruct He as [k' [Hin Heq]].
    apply String.eqb_eq in Heq. now subst.
  - rewrite in_app_iff. simpl. intuition.
Qed.

Lemma In_add_keys l : forall ks k,
  In k (fold_left add_key l ks) <-> In k ks \/ In k l.
Proof.
  induction l as [|k0 l IH]; intros ks k; simpl; [tauto|].
  rewrite IH, In_add_key. intuition.
Qed.

Lemma scan_keys_fold root : forall d o,
  failures_handled site root ->
  exists d' o',
    scan site root d o = (Ok d', failure_log site root, o')
    /\ Py.keys d' = fold_left add_key (loaded_keys site root) (Py.keys d).
Proof.
  induction root as [|ext root IH]; intros d o Hh.
  - exists d, o. split; reflexivity.
  - apply failures_handled_cons in Hh. destruct Hh as [He [Hu Hh]].
    unfold failure_log, loaded_keys in *. cbn [flat_map].
    destruct (outcome_of site ext) as [|key|e|e] eqn:Hout.
    + rewrite (scan_skipped _ _ _ _ _ Hout). apply IH, Hh.
    + destruct (scan_loaded site ext o key Hout) as [inst [_ Hstep]].
      rewrite Hstep. cbn [app fold_left]. rewrite <- (keys_set_add d key inst).
      apply IH, Hh.
    + rewrite (scan_failed _ _ _ _ _ _ Hout), (He e eq_refl).
      destruct (IH d o Hh) as [d' [o' [H1 H2]]].
      exists d', o'. rewrite H1. split; [reflexivity | exact H2].
    + exfalso. exact (Hu e eq_refl).
Qed.





End ListingOrder.

Section DiscoveryEdges.
Variable site : Site.

(** Scanning a listing in two parts: over a first part whose failures are
    handled the loop hands its dict and its allocation point to the
    second. *)
Lemma scan_app pre : forall rest d o,
  failures_handled site pre ->
  exists d1 o1,
    scan site pre d o = (Ok d1, failure_log site pre, o1)
    /\ scan site (pre ++ rest) d o
       = (fst (fst (scan site rest d1 o1)),
          (failure_log site pre ++ snd (fst (scan site rest d1 o1)))%list,
          snd (scan site rest d1 o1)).
Proof.
  induction pre as [|ext pre IH]; intros rest d o Hh.
  - exists d, o. split; [reflexivity|]. simpl.
    now destruct (scan site rest d o) as [[r out] o'].
  - apply failures_handled_cons in Hh. destruct Hh as [He [Hu Hh]].
    unfold failure_log. cbn [flat_map].
    change ((ext :: pre) ++ rest)%list with (ext :: (pre ++ rest))%list.
    destruct (outcome_of site ext) as [|key|e|e] eqn:Hout.
    + rewrite !(scan_skipped _ _ _ _ _ Hout). apply IH, Hh.
    + destruct (scan_loaded site ext o key Hout) as [inst [_ Hstep]].
      rewrite !Hstep. apply IH, Hh.
    + rewrite !(scan_failed _ _ _ _ _ _ Hout), (He e eq_refl).
      destruct (IH rest d o Hh) as [d1 [o1 [H1 H2]]].
      exists d1, o1. rewrite H1, H2. split; reflexivity.
    + exfalso. exact (Hu e eq_refl).
Qed.

End DiscoveryEdges.

Lemma loaded_keys_app (site : Site) (l1 l2 : list Package) :
  loaded_keys site (l1 ++ l2) = (loaded_keys site l1 ++ loaded_keys site l2)%list.
Proof. unfold loaded_keys. apply flat_map_app. Qed.

Lemma all_integer_check (ks : list string) :
  forallb is_integer ks = true -> Forall (fun k => Py.int k <> None) ks.
Proof.
  rewrite forallb_forall, Forall_forall. intros H k Hk. specialize (H k Hk).
  unfold is_integer in H. now destruct (Py.int k).
Qed.

Lemma some_non_integer_check (ks : list string) :
  existsb (fun k => negb (is_integer k)) ks = true ->
  Exists (fun k => Py.int k = None) ks.
Proof.
  rewrite existsb_exists, Exists_exists. intros [k [Hk H]]. exists k.
  split; [assumption|]. unfold is_integer in H. now destruct (Py.int k).
Qed.



(** ** The loader over whole listings *)

Section ListingFacts.
Variable site : Site.

(** A key the loop has assigned stays with its instance as long as no
    later package declares it. *)
Lemma scan_keeps root : forall d o d' out o' k v,
  scan site root d o = (Ok d', out, o') ->
  ~ In k (loaded_keys site root) ->
  Py.lookup d k = Some v ->
  Py.lookup d' k = Some v.
Proof.
  induction root as [|ext root IH]; intros d o d' out o' k v Hs Hk Hl.
  - simpl in Hs. injection Hs as <- _ _. exact Hl.
  - unfold loaded_keys in Hk. cbn [flat_map] in Hk.
    destruct (outcome_of site ext) as [|key|e|e] eqn:Hout.
    + rewrite (scan_skipped _ _ _ _ _ Hout) in Hs. now apply (IH d o d' out o').
    + destruct (scan_loaded site ext o key Hout) as [inst [_ Hstep]].
      rewrite Hstep in Hs. apply (IH _ _ _ _ _ k v Hs).
      * intros Hin. apply Hk. now right.
      * rewrite lookup_set_other; [exact Hl|].
        intros Heq. apply Hk. left. exact Heq.
    + rewrite (scan_failed _ _ _ _ _ _ Hout) in Hs.
      destruct (handled e); [|discriminate].
      destruct (scan site root d o) as [[r out1] p1] eqn:Hrest.
      injection Hs as -> _ _. now apply (IH d o d' out1 p1).
    + rewrite (scan_unreadable _ _ _ _ _ _ Hout) in Hs. discriminate.
Qed.

(** The loop allocates one object per package that loads. *)
Lemma scan_count root : forall d o d' out o',
  scan site root d o = (Ok d', out, o') ->
  o' = o + List.length (loaded_keys site root).
Proof.
  induction root as [|ext root IH]; intros d o d' out o' Hs.
  - simpl in Hs. injection Hs as _ _ <-. simpl. lia.
  - unfold loaded_keys. cbn [flat_map].
    destruct (outcome_of site ext) as [|key|e|e] eqn:Hout.
    + rewrite (scan_skipped _ _ _ _ _ Hout) in Hs. now apply (IH d o d' out o').
    + destruct (scan_loaded site ext o key Hout) as [inst [_ Hstep]].
      rewrite Hstep in Hs. apply IH in Hs. unfold loaded_keys in Hs.
      simpl. lia.
    + rewrite (scan_failed _ _ _ _ _ _ Hout) in Hs.
      destruct (handled e); [|discriminate].
      destruct (scan site root d o) as [[r out1] p1] eqn:Hrest.
      injection Hs as -> _ <-. now apply (IH d o d' out1 p1).
    + rewrite (scan_unreadable _ _ _ _ _ _ Hout) in Hs. discriminate.
Qed.


(** The [try] body on a document whose module imports: the class is the
    first member that passes [predicate]. *)
Lemma load_first ext document md o m n c others :
  get_metadata document = Ok (JDict md) ->
  import_module site
    ("kiauh.extensions." ++ name ext ++ "." ++ Py.str (Py.get md "module"))
  = Ok m ->
  getmembers m predicate = (n, Subclass c) :: others ->
  load site ext (Ok document) o
  = match init c md with
    | Some e => Raise e
    | None => Ok (index_key md, mkExt o c md)
    end.
Proof.
  intros Hmd Himp Hg. unfold load. rewrite Hmd, Himp, Hg. simpl.
  now destruct (init c md).
Qed.

Lemma valid_package_step ext md :
  valid_package site ext md ->
  outcome_of site ext = Loaded (index_key md)
  /\ exists c, forall rest d o,
       scan site (ext :: rest) d o
       = scan site rest (Py.set d (index_key md) (mkExt o c md)) (S o).
Proof.
  intros [Hex [[members [Hdoc Hmd]] [m [n [c [others [Himp [Hg Hinit]]]]]]]].
  assert (Hload : forall o,
    load site ext (Ok (DocObject members)) o = Ok (index_key md, mkExt o c md)).
  { intros o. rewrite (load_first ext (DocObject members) md o m n c others);
      [now rewrite Hinit | | exact Himp | exact Hg].
    unfold get_metadata. now rewrite Hmd. }
  split.
  - unfold outcome_of. now rewrite Hex, Hdoc, Hload.
  - exists c. intros rest d o. simpl. now rewrite Hex, Hdoc, Hload.
Qed.

Lemma valid_listing_outcomes root mds :
  valid_listing site root mds ->
  failures_handled site root
  /\ loaded_keys site root = map index_key mds
  /\ failure_log site root = [].
Proof.
  induction 1 as [|ext root mds Hex Hmd _ [Hh [Hk Hl]]
                  |ext root md mds Hv _ [Hh [Hk Hl]]].
  - split; [intros x []|]. split; reflexivity.
  - assert (Hout : outcome_of site ext = Skipped).
    { unfold outcome_of. now rewrite Hex, Hmd. }
    split; [|split].
    + intros x [<-|Hin]; [|now apply Hh]. split; [exact Hex|].
      intros e He. rewrite Hout in He. discriminate.
    + unfold loaded_keys in *. cbn [flat_map]. now rewrite Hout.
    + unfold failure_log in *. cbn [flat_map]. now rewrite Hout.
  - destruct (valid_package_step ext md Hv) as [Hout _].
    split; [|split].
    + intros x [<-|Hin]; [|now apply Hh]. split; [apply Hv|].
      intros e He. rewrite Hout in He. discriminate.
    + unfold loaded_keys in *. cbn [flat_map]. rewrite Hout. simpl. now rewrite Hk.
    + unfold failure_log in *. cbn [flat_map]. now rewrite Hout.
Qed.

(** After the loop every valid package is in the dict, under its key,
    with an instance made from its metadata. *)
Lemma valid_listing_lookup root mds :
  valid_listing site root mds -> forall d o d' out o',
  NoDup (map index_key mds) ->
  scan site root d o = (Ok d', out, o') ->
  Forall (fun md => exists inst,
            Py.lookup d' (index_key md) = Some inst /\ metadata inst = md) mds.
Proof.
  induction 1 as [|ext root mds Hex Hmd Hv IH|ext root md mds Hv Hl IH];
    intros d o d' out o' Hnd Hs.
  - constructor.
  - assert (Hout : outcome_of site ext = Skipped).
    { unfold outcome_of. now rewrite Hex, Hmd. }
    rewrite (scan_skipped _ _ _ _ _ Hout) in Hs. exact (IH _ _ _ _ _ Hnd Hs).
  - destruct (valid_package_step ext md Hv) as [_ [c Hstep]].
    rewrite Hstep in Hs. simpl in Hnd. inversion Hnd as [|? ? Hnotin Hnd']; subst.
    constructor.
    + exists (mkExt o c md). split; [|reflexivity].
      apply (scan_keeps root _ _ _ _ _ _ _ Hs).
      * destruct (valid_listing_outcomes root mds Hl) as [_ [Hk _]]. now rewrite Hk.
      * apply lookup_set_same.
    + exact (IH _ _ _ _ _ Hnd' Hs).
Qed.

(** From the dict the loop leaves to the registry: with every key an
    integer literal the sort succeeds, and the registry holds the same
    items, in ascending order of [int(key)]. *)
Lemma discover_of_scan root o d out o' :
  scan site root [] o = (Ok d, out, o') ->
  Forall (fun k => Py.int k <> None) (Py.keys d) ->
  exists reg,
    discover_extensions site root o = (Ok reg, out, o')
    /\ Permutation reg d
    /\ NoDup (Py.keys reg)
    /\ ascending (Py.keys reg)
    /\ forall k, Py.lookup reg k = Py.lookup d k.
Proof.
  intros Hs Hint.
  destruct (scan_allocates site root [] o d out o') as [Hnd _];
    [constructor | split; constructor | exact Hs |].
  assert (Hall : Forall (fun x : string * BaseExtension => key_int x <> None) (Py.items d)).
  { unfold Py.items, key_int. unfold Py.keys in Hint. now rewrite Forall_map in Hint. }
  destruct (sorted_Some key_int (Py.items d) Hall)
    as [res [zs [Hres [Hperm [Hkeys Hsorted]]]]].
  unfold Py.items in Hperm.
  assert (Hnd' : NoDup (map fst res)).
  { eapply Permutation_NoDup; [|exact Hnd]. apply Permutation_map. now symmetry. }
  exists res. unfold discover_extensions. rewrite Hs, Hres, (of_items_distinct res Hnd').
  split; [reflexivity|]. split; [exact Hperm|]. split; [exact Hnd'|]. split.
  - exists zs. split; [|exact Hsorted]. unfold Py.keys. now rewrite map_map.
  - intros k. now apply lookup_perm.
Qed.


End ListingFacts.


(** ** The claims about discovery *)

(** C1, as amended.  For every listing of the root directory in which
    [exists()] answers for every entry and each package either loads or
    fails with an exception of one of the classes the handler names
    ([IOError], [json.JSONDecodeError], [ImportError]): the scan loop does
    not raise; it logs one line with the identity and the error of each
    failing package, in scan order; and [discover_extensions] returns what
    it returns for the directory without the failing packages, which are
    thereby excluded while the scan goes on with the next package. *)
Theorem discover_isolates_handled_failures (site : Site) (root : list Package) (o : nat) :
  failures_handled site root ->
  (exists ext_dict o',
      scan site root [] o = (Ok ext_dict, failure_log site root, o'))
  /\ discover_extensions site root o
     = (fst (fst (discover_extensions site (filter (loads site) root) o)),
        failure_log site root,
        snd (discover_extensions site (filter (loads site) root) o)).
Proof.
  intros Hh. destruct (scan_filter site root [] o Hh) as [d' [o' [H1 H2]]]. split.
  - now exists d', o'.
  - unfold discover_extensions. rewrite H1, H2.
    now destruct (Py.sorted key_int (Py.items d')).
Qed.

Lemma discover_isolates_handled_failures_witness :
  failures_handled Sample.site Sample.listing
  /\ discover_extensions Sample.site Sample.listing 0
     = (fst (fst (discover_extensions Sample.site
                    (filter (loads Sample.site) Sample.listing) 0)),
        failure_log Sample.site Sample.listing,
        snd (discover_extensions Sample.site
               (filter (loads Sample.site) Sample.listing) 0)).
Proof.
  assert (H : failures_handled Sample.site Sample.listing)
    by (apply failures_handled_check; reflexivity).
  split; [exact H|].
  exact (proj2 (discover_isolates_handled_failures Sample.site Sample.listing 0 H)).
Defined.

(** C1 as stated fails: a package whose extension class cannot be
    instantiated raises [TypeError], which the handler does not name; the
    exception leaves [discover_extensions], no registry is returned and the
    package after it is never scanned. *)
Lemma discover_aborts_on_unhandled_failure :
  outcome_of Sample.site Sample.unfinished
  = Failed (mkExn TypeError "Can't instantiate abstract class")
  /\ discover_extensions Sample.site
       [Sample.backup; Sample.unfinished; Sample.shell_cmd] 0
     = (Raise (mkExn TypeError "Can't instantiate abstract class"), [], 1).
Proof. split; reflexivity. Qed.

(** An entry that cannot be searched ends the scan as well: [exists()] is
    called before the [try], so that its [PermissionError] leaves
    [discover_extensions] although the handler names its class. *)
Example discover_aborts_on_unreadable_entry :
  handled (mkExn PermissionError
             "[Errno 13] Permission denied: 'extensions/sealed/metadata.json'") = true
  /\ discover_extensions Sample.site
       [Sample.backup; Sample.sealed; Sample.shell_cmd] 0
     = (Raise (mkExn PermissionError
                 "[Errno 13] Permission denied: 'extensions/sealed/metadata.json'"),
        [], 1).
Proof. split; reflexivity. Qed.

(** C2, as amended.  Implementation-type discovery takes the first member
    of the resolved module, in member-name order, that is a class deriving
    [BaseExtension] other than [BaseExtension] itself, whatever members
    follow it: a module with two or more such classes loads with the first
    of them and is not a failed load.  When the constructor returns, the
    loop assigns the instance to [ext_dict] under the package's key and
    goes on with the next entry; and the registry [discover_extensions]
    returns holds that instance under that key whenever the loop runs to
    its end over the other entries, no package scanned later declares the
    same key and every loaded key is an integer literal. *)
Theorem load_takes_first_candidate (site : Site) (ext : Package)
    (document : json_document) (md : Py.dict Py.pyval)
    (before after : module) (n : string) (c : ExtClass) :
  get_metadata document = Ok (JDict md) ->
  import_module site
    ("kiauh.extensions." ++ name ext ++ "." ++ Py.str (Py.get md "module"))
  = Ok (before ++ (n, Subclass c) :: after)%list ->
  Forall (fun nv => predicate (snd nv) = false) before ->
  (forall o,
      load site ext (Ok document) o
      = match init c md with
        | Some e => Raise e
        | None => Ok (index_key md, mkExt o c md)
        end)
  /\ (exists_raises ext = None ->
      metadata_json ext = Some (Ok document) ->
      init c md = None ->
      outcome_of site ext = Loaded (index_key md)
      /\ (forall rest d o,
             scan site (ext :: rest) d o
             = scan site rest (Py.set d (index_key md) (mkExt o c md)) (S o))
      /\ (forall pre post o,
             failures_handled site (pre ++ post) ->
             ~ In (index_key md) (loaded_keys site post) ->
             Forall (fun k => Py.int k <> None)
                    (loaded_keys site (pre ++ ext :: post)) ->
             exists reg,
               discover_extensions site (pre ++ ext :: post) o
               = (Ok reg, failure_log site (pre ++ post),
                  S (o + List.length (loaded_keys site (pre ++ post))))
               /\ Py.lookup reg (index_key md)
                  = Some (mkExt (o + List.length (loaded_keys site pre)) c md))).
Proof.
  intros Hmd Himp Hbefore.
  assert (Hg : getmembers (before ++ (n, Subclass c) :: after)%list predicate
               = (n, Subclass c) :: getmembers after predicate).
  { unfold getmembers. rewrite filter_app.
    replace (filter (fun nv => predicate (snd nv)) before) with (@nil (string * member)).
    - reflexivity.
    - clear - Hbefore. induction Hbefore as [|nv l Hnv _ IH]; simpl; [reflexivity|].
      now rewrite Hnv. }
  assert (Hload : forall o,
    load site ext (Ok document) o
    = match init c md with
      | Some e => Raise e
      | None => Ok (index_key md, mkExt o c md)
      end).
  { intros o. exact (load_first site ext document md o _ n c _ Hmd Himp Hg). }
  split; [exact Hload|]. intros Hex Hdoc Hinit.
  assert (Hout : outcome_of site ext = Loaded (index_key md)).
  { unfold outcome_of. now rewrite Hex, Hdoc, Hload, Hinit. }
  assert (Hstep : forall rest d o,
    scan site (ext :: rest) d o
    = scan site rest (Py.set d (index_key md) (mkExt o c md)) (S o)).
  { intros rest d o. simpl. now rewrite Hex, Hdoc, Hload, Hinit. }
  split; [exact Hout|]. split; [exact Hstep|].
  intros pre post o Hh Hfresh Hint.
  apply failures_handled_app in Hh. destruct Hh as [Hpre Hpost].
  (* the loop over the packages before, the package, the packages after *)
  destruct (scan_app site pre (ext :: post) [] o Hpre) as [d1 [o1 [H1 H2]]].
  pose proof (scan_count site pre [] o d1 _ o1 H1) as Ho1.
  rewrite Hstep in H2.
  destruct (scan_keys_fold site post (Py.set d1 (index_key md) (mkExt o1 c md)) (S o1) Hpost)
    as [d3 [o3 [H3 Hk3]]].
  pose proof (scan_count site post _ (S o1) d3 _ o3 H3) as Ho3.
  rewrite H3 in H2. cbn [fst snd] in H2.
  assert (Hlook : Py.lookup d3 (index_key md) = Some (mkExt o1 c md)).
  { apply (scan_keeps site post _ _ _ _ _ _ _ H3 Hfresh). apply lookup_set_same. }
  (* every key the loop leaves is a key some package loaded under *)
  assert (Hall : failures_handled site (pre ++ ext :: post)).
  { apply failures_handled_app. split; [exact Hpre|].
    intros x [<-|Hin]; [|now apply Hpost]. split; [exact Hex|].
    intros e He. rewrite Hout in He. discriminate. }
  destruct (scan_keys_fold site (pre ++ ext :: post) [] o Hall) as [d' [o' [Hs' Hk']]].
  rewrite H2 in Hs'. injection Hs' as <- Hlog <-.
  assert (Hkeys : Forall (fun k => Py.int k <> None) (Py.keys d3)).
  { rewrite Forall_forall in *. intros k Hk. apply Hint.
    rewrite Hk' in Hk. apply In_add_keys in Hk. now destruct Hk as [[]|Hk]. }
  destruct (discover_of_scan site (pre ++ ext :: post) o d3 _ o3 H2 Hkeys)
    as [reg [Hd [_ [_ [_ Hsame]]]]].
  exists reg. split.
  - rewrite Hd. f_equal; [f_equal|].
    + unfold failure_log. now rewrite flat_map_app.
    + rewrite loaded_keys_app, length_app. lia.
  - rewrite Hsame, Hlook, Ho1. reflexivity.
Qed.

Lemma load_takes_first_candidate_witness :
  load Sample.site Sample.twin
    (Ok (Sample.document (Sample.descriptor "twin_extension" "3" "Twin"))) 0
  = Ok ("3", mkExt 0 (Sample.plain "CastorExtension")
                     (Sample.descriptor "twin_extension" "3" "Twin"))
  /\ exists reg,
       discover_extensions Sample.site
         ([Sample.shell_cmd; Sample.locked] ++ Sample.twin :: [Sample.backup]) 0
       = (Ok reg, failure_log Sample.site [Sample.shell_cmd; Sample.locked; Sample.backup], 3)
       /\ Py.lookup reg "3"
          = Some (mkExt 1 (Sample.plain "CastorExtension")
                          (Sample.descriptor "twin_extension" "3" "Twin")).
Proof.
  destruct (load_takes_first_candidate Sample.site Sample.twin
              (Sample.document (Sample.descriptor "twin_extension" "3" "Twin"))
              (Sample.descriptor "twin_extension" "3" "Twin")
              [("BaseExtension", BaseExtensionClass)]
              [("PolluxExtension", Subclass (Sample.plain "PolluxExtension"))]
              "CastorExtension" (Sample.plain "CastorExtension")
              eq_refl eq_refl) as [H1 H2].
  - repeat constructor.
  - split; [exact (H1 0)|].
    destruct (H2 eq_refl eq_refl eq_refl) as [_ [_ H3]].
    apply (H3 [Sample.shell_cmd; Sample.locked] [Sample.backup] 0).
    + apply failures_handled_check. reflexivity.
    + simpl. intros [H|[]]. discriminate H.
    + apply all_integer_check. reflexivity.
Defined.

(** C2 as stated fails: a package whose module defines two extension
    classes is in the registry, with the first of them in name order; and a
    package whose module defines none raises [IndexError] out of
    [discover_extensions], so that the scan does not complete for the
    packages after it. *)
Lemma ambiguous_package_is_loaded :
  discover_extensions Sample.site [Sample.twin] 0
  = (Ok [("3", mkExt 0 (Sample.plain "CastorExtension")
                       (Sample.descriptor "twin_extension" "3" "Twin"))], [], 1)
  /\ discover_extensions Sample.site [Sample.hollow; Sample.shell_cmd] 0
     = (Raise (mkExn IndexError "list index out of range"), [], 0).
Proof. split; reflexivity. Qed.

(** Why the registry needs its conditions: a package scanned later under
    the same key takes the key over, and a key that is no integer literal
    makes the final sort raise for every package. *)
Example first_candidate_can_be_replaced :
  fst (fst (discover_extensions Sample.crowded_site [Sample.twin; Sample.usurper] 0))
  = Ok [("3", mkExt 1 (Sample.plain "UsurperExtension")
                (Sample.descriptor "usurper_extension" "3" "Usurper"))]
  /\ fst (fst (discover_extensions Sample.site [Sample.twin; Sample.unnumbered] 0))
     = Raise (mkExn ValueError "invalid literal for int() with base 10").
Proof. split; reflexivity. Qed.

(** C5.  For every listing whose packages all hold a valid metadata
    document (the entries without [metadata.json] aside) with ordering
    keys that are integer literals: [discover_extensions] returns a
    registry and logs nothing; the registry has exactly as many entries as
    the documents have distinct ordering keys, N, under exactly these
    keys, and it iterates in ascending order of [int(key)].  When the keys
    of the documents are pairwise distinct, N is the number of packages
    and each key leads to an instance made from the metadata of its
    package. *)
Theorem discover_sorted_by_int_key (site : Site) (root : list Package)
    (mds : list (Py.dict Py.pyval)) (o : nat) :
  valid_listing site root mds ->
  Forall (fun md => Py.int (index_key md) <> None) mds ->
  exists reg,
    discover_extensions site root o = (Ok reg, [], o + List.length mds)
    /\ NoDup (Py.keys reg)
    /\ (forall k, In k (Py.keys reg) <-> In k (map index_key mds))
    /\ List.length reg = List.length (nodup string_dec (map index_key mds))
    /\ ascending (Py.keys reg)
    /\ (NoDup (map index_key mds) ->
        List.length reg = List.length mds
        /\ Forall (fun md => exists inst,
                     Py.lookup reg (index_key md) = Some inst
                     /\ metadata inst = md)
                  mds).
Proof.
  intros Hv Hint.
  destruct (valid_listing_outcomes site root mds Hv) as [Hh [Hk Hlog]].
  destruct (scan_keys_fold site root [] o Hh) as [d [o' [Hs Hkd]]].
  rewrite Hk in Hkd. rewrite Hlog in Hs.
  pose proof (scan_count site root [] o d _ o' Hs) as Ho.
  rewrite Hk, length_map in Ho. subst o'.
  assert (Hin : forall k, In k (Py.keys d) <-> In k (map index_key mds)).
  { intros k. rewrite Hkd, In_add_keys. simpl. tauto. }
  assert (Hkeys : Forall (fun k => Py.int k <> None) (Py.keys d)).
  { rewrite Forall_forall in *. intros k Hkin. apply Hin in Hkin.
    apply in_map_iff in Hkin. destruct Hkin as [md [<- Hmd]]. now apply Hint. }
  destruct (discover_of_scan site root o d _ _ Hs Hkeys)
    as [reg [Hd [Hperm [Hnd [Hasc Hsame]]]]].
  assert (Hpk : Permutation (Py.keys reg) (Py.keys d))
    by (unfold Py.keys; now apply Permutation_map).
  assert (Hreg : forall k, In k (Py.keys reg) <-> In k (map index_key mds)).
  { intros k. rewrite <- Hin. split; intros H.
    - apply (Permutation_in _ Hpk H).
    - apply (Permutation_in _ (Permutation_sym Hpk) H). }
  assert (Hlen : List.length reg
                 = List.length (nodup string_dec (map index_key mds))).
  { rewrite <- (length_map fst reg). apply Permutation_length.
    apply NoDup_Permutation; [exact Hnd | apply NoDup_nodup |].
    intros k. rewrite nodup_In. apply Hreg. }
  exists reg. split; [exact Hd|]. split; [exact Hnd|]. split; [exact Hreg|].
  split; [exact Hlen|]. split; [exact Hasc|].
  intros Hdistinct. split.
  - rewrite Hlen, (nodup_fixed_point string_dec Hdistinct). apply length_map.
  - pose proof (valid_listing_lookup site root mds Hv [] o d _ _ Hdistinct Hs) as Hl.
    rewrite Forall_forall in *. intros md Hmd.
    destruct (Hl md Hmd) as [inst [H1 H2]]. exists inst. now rewrite Hsame.
Qed.

Lemma discover_sorted_by_int_key_witness :
  exists reg,
    discover_extensions Sample.site
      [Sample.backup; Sample.init_py; Sample.theme; Sample.shell_cmd] 0
    = (Ok reg, [], 3)
    /\ NoDup (Py.keys reg)
    /\ (forall k, In k (Py.keys reg) <-> In k ["10"; "2"; "1"])
    /\ List.length reg = 3
    /\ ascending (Py.keys reg).
Proof.
  destruct (discover_sorted_by_int_key Sample.site
              [Sample.backup; Sample.init_py; Sample.theme; Sample.shell_cmd]
              [Sample.descriptor "klipper_backup_extension" "10" "Klipper-Backup";
               Sample.descriptor "mainsail_theme_installer_extension" "2"
                 "Mainsail Theme Installer";
               Sample.descriptor "gcode_shell_cmd_extension" "1"
                 "G-Code Shell Command"] 0)
    as [reg [H1 [H2 [H3 [H4 [H5 _]]]]]].
  - apply valid_cons.
    { split; [reflexivity|]. split; [eexists; split; reflexivity|].
      do 4 eexists. split; [reflexivity|]. split; reflexivity. }
    apply valid_skip; [reflexivity | reflexivity |].
    apply valid_cons.
    { split; [reflexivity|]. split; [eexists; split; reflexivity|].
      do 4 eexists. split; [reflexivity|]. split; reflexivity. }
    apply valid_cons.
    { split; [reflexivity|]. split; [eexists; split; reflexivity|].
      do 4 eexists. split; [reflexivity|]. split; reflexivity. }
    apply valid_nil.
  - repeat constructor; vm_compute; discriminate.
  - exists reg. split; [exact H1|]. split; [exact H2|]. split; [exact H3|].
    split; [exact H4 | exact H5].
Defined.

(** The registry of the sample packages, in full. *)
Example discover_valid_packages :
  fst (fst (discover_extensions Sample.site
              [Sample.backup; Sample.init_py; Sample.theme; Sample.shell_cmd] 0))
  = Ok [("1", mkExt 2 (Sample.plain "ShellCommandExtension")
                (Sample.descriptor "gcode_shell_cmd_extension" "1"
                   "G-Code Shell Command"));
        ("2", mkExt 1 (Sample.plain "MainsailThemeInstallerExtension")
                (Sample.descriptor "mainsail_theme_installer_extension" "2"
                   "Mainsail Theme Installer"));
        ("10", mkExt 0 (Sample.plain "KlipperbackupExtension")
                 (Sample.descriptor "klipper_backup_extension" "10"
                    "Klipper-Backup"))].
Proof. reflexivity. Qed.




Example discover_listing :
  registry_keys (fst (fst (discover_extensions Sample.site Sample.listing 0)))
  = Ok ["1"; "2"; "10"].
Proof. reflexivity. Qed.

Example discover_unnumbered :
  fst (fst (discover_extensions Sample.site [Sample.backup; Sample.unnumbered] 0))
  = Raise (mkExn ValueError "invalid literal for int() with base 10").
Proof. reflexivity. Qed.

(** ** The batch executor *)

Section Batch.
Context {Host : Type} (m : Menu Host).

Lemma run_actions_length extensions : forall host,
  List.length (fst (run_actions m extensions host)) = List.length extensions.
Proof.
  induction extensions as [|ext rest IH]; intros host; simpl; [reflexivity|].
  destruct (install_extension m ext host) as [r host1].
  specialize (IH host1). destruct (run_actions m rest host1) as [rs host2].
  simpl in *. now rewrite IH.
Qed.

(** The loop with its counters is the run of the actions, one after the
    other, with the outcomes tallied. *)
Lemma install_each_spec n extensions : forall i succ fails host,
  install_each m n i extensions succ fails host
  = (succ + succeeded (fst (run_actions m extensions host)),
     (fails ++ failed_names extensions (fst (run_actions m extensions host)))%list,
     snd (run_actions m extensions host),
     batch_trace n i extensions (fst (run_actions m extensions host))).
Proof.
  induction extensions as [|ext rest IH]; intros i succ fails host; simpl.
  - unfold succeeded, failed_names. simpl. now rewrite Nat.add_0_r, app_nil_r.
  - destruct (install_extension m ext host) as [[e|] host1].
    + rewrite IH. destruct (run_actions m rest host1) as [rs host2]. simpl.
      unfold succeeded, failed_names. simpl. now rewrite <- app_assoc.
    + rewrite IH. destruct (run_actions m rest host1) as [rs host2]. simpl.
      unfold succeeded, failed_names. simpl. now rewrite Nat.add_succ_r.
Qed.

Lemma installs_app (l1 l2 : list event) :
  installs (l1 ++ l2) = (installs l1 ++ installs l2)%list.
Proof. unfold installs. now rewrite flat_map_app. Qed.

Lemma installs_batch_trace n extensions : forall i rs,
  List.length rs = List.length extensions ->
  installs (batch_trace n i extensions rs) = extensions.
Proof.
  induction extensions as [|ext rest IH]; intros i [|r rs] Hlen;
    simpl in *; try discriminate; [reflexivity|].
  injection Hlen as Hlen. destruct r; simpl; now rewrite (IH (S i) rs Hlen).
Qed.

Lemma installs_summary b : installs (summary m b) = [].
Proof.
  unfold summary. rewrite installs_app. simpl.
  destruct (failed b) as [|name names]; simpl; [reflexivity|].
  induction names as [|x names IH]; simpl; [reflexivity | exact IH].
Qed.

(** Every invocation in the trace of the loop comes right after the
    progress marker of its item, numbered from [i]. *)
Lemma marker_before_install n extensions : forall i rs pre ext post,
  batch_trace n i extensions rs = (pre ++ Install ext :: post)%list ->
  exists pre',
    pre = (pre' ++ [progress_marker (i + List.length (installs pre')) n ext])%list.
Proof.
  induction extensions as [|e rest IH]; intros i rs pre ext post Heq.
  - destruct pre; discriminate.
  - destruct rs as [|r rs]; [destruct pre; discriminate|].
    simpl in Heq.
    destruct pre as [|p1 pre]; [discriminate|]. injection Heq as <- Heq.
    destruct pre as [|p2 pre].
    + injection Heq as <- _. exists []. simpl. now rewrite Nat.add_0_r.
    + injection Heq as <- Heq.
      destruct pre as [|p3 pre]; [destruct r; discriminate|].
      injection Heq as Hp3 Heq.
      destruct pre as [|p4 pre]; [discriminate|]. injection Heq as <- Heq.
      destruct (IH (S i) rs pre ext post Heq) as [pre' ->].
      exists (progress_marker i n e :: Install e :: p3 :: Print "" :: pre').
      simpl. rewrite <- Hp3.
      destruct r; simpl; rewrite Nat.add_succ_r; reflexivity.
Qed.

Lemma failed_names_length extensions : forall rs,
  List.length rs = List.length extensions ->
  succeeded rs + List.length (failed_names extensions rs) = List.length extensions.
Proof.
  unfold succeeded, failed_names.
  induction extensions as [|ext rest IH]; intros [|r rs] Hlen;
    simpl in *; try discriminate; [reflexivity|].
  injection Hlen as Hlen. specialize (IH rs Hlen). rewrite length_map in *.
  destruct r; simpl; lia.
Qed.
End Batch.

(** C3.  For every sequence of N extension instances the batch executor
    invokes the install action of all N items, in sequence order, each
    invocation coming right after its progress marker [i/N] (1-based); an
    item that raises does not keep the later items from being attempted;
    at the end [successful] is the number of items whose action did not
    raise and [failed] holds the display names of the items whose action
    did, in sequence order. *)
Theorem batch_attempts_every_item {Host : Type} (m : Menu Host)
    (extensions : list BaseExtension) (host : Host) :
  let rs := fst (run_actions m extensions host) in
  let b := fst (fst (_install_selected_extensions m extensions host)) in
  let out := snd (_install_selected_extensions m extensions host) in
  installs out = extensions
  /\ total b = List.length extensions
  /\ successful b = succeeded rs
  /\ failed b = failed_names extensions rs
  /\ successful b + List.length (failed b) = List.length extensions
  /\ snd (fst (_install_selected_extensions m extensions host))
     = snd (run_actions m extensions host)
  /\ out = (Print (Py.nl ++ color_apply m "Starting bulk installation..." GREEN)
              :: Print ("Installing " ++ Py.str_nat (List.length extensions)
                                      ++ " extension(s)" ++ Py.nl)
              :: batch_trace (List.length extensions) 1 extensions rs
              ++ summary m b)%list
  /\ forall pre ext post,
       batch_trace (List.length extensions) 1 extensions rs
       = (pre ++ Install ext :: post)%list ->
       exists pre',
         pre = (pre' ++ [progress_marker (1 + List.length (installs pre'))
                                          (List.length extensions) ext])%list.
Proof.
  intros rs b out. subst rs b out. unfold _install_selected_extensions.
  rewrite install_each_spec. simpl.
  pose proof (run_actions_length m extensions host) as Hlen.
  repeat split.
  - rewrite installs_app, installs_summary, app_nil_r.
    now apply installs_batch_trace.
  - now apply failed_names_length.
  - intros pre ext post Heq.
    exact (marker_before_install _ _ 1 _ pre ext post Heq).
Qed.

(** The example of the specification: five items, the second and the
    fourth raise. *)
Example batch_two_of_five_fail :
  let '(b, host, out) :=
    _install_selected_extensions Sample.menu
      [Sample.A; Sample.B; Sample.C; Sample.D; Sample.E] [] in
  total b = 5 /\ successful b = 5 - 2 /\ failed b = ["B"; "D"]
  /\ host = [0; 2; 4]
  /\ installs out = [Sample.A; Sample.B; Sample.C; Sample.D; Sample.E].
Proof. repeat split; reflexivity. Qed.

(** ** The selection loop *)

Section Membership.
Implicit Types (x y : BaseExtension) (l acc : list BaseExtension).

Lemma ext_eqb_refl x : ext_eqb x x = true.
Proof. apply Nat.eqb_refl. Qed.

Lemma ext_eqb_sym x y : ext_eqb x y = ext_eqb y x.
Proof. apply Nat.eqb_sym. Qed.

Lemma ext_eqb_oid x y : ext_eqb x y = true <-> oid x = oid y.
Proof. apply Nat.eqb_eq. Qed.

Lemma mem_oid x l : mem x l = true <-> In (oid x) (map oid l).
Proof.
  unfold mem. rewrite existsb_exists, in_map_iff. split.
  - intros [y [Hin He]]. exists y. apply ext_eqb_oid in He. now split.
  - intros [y [He Hin]]. exists y. split; [assumption|]. now apply ext_eqb_oid.
Qed.

Lemma mem_app x l1 l2 : mem x (l1 ++ l2) = mem x l1 || mem x l2.
Proof. unfold mem. apply existsb_app. Qed.

Lemma add_selected_app l1 : forall l2 acc,
  add_selected (l1 ++ l2) acc = add_selected l2 (add_selected l1 acc).
Proof.
  induction l1 as [|x l1 IH]; intros l2 acc; simpl; [reflexivity|].
  destruct (negb (mem x acc)); apply IH.
Qed.

Lemma mem_add_selected x l : forall acc,
  mem x (add_selected l acc) = mem x acc || mem x l.
Proof.
  induction l as [|y l IH]; intros acc; simpl.
  - now rewrite orb_false_r.
  - destruct (mem y acc) eqn:Hy; simpl; rewrite IH.
    + destruct (ext_eqb x y) eqn:Hxy; simpl; [|reflexivity].
      apply ext_eqb_oid in Hxy.
      assert (Hx : mem x acc = true).
      { apply mem_oid. rewrite Hxy. now apply mem_oid. }
      now rewrite Hx.
    + rewrite mem_app. simpl. rewrite orb_false_r. now rewrite orb_assoc.
Qed.

(** Staging a line first and then merging the stage is merging the line. *)
Lemma add_selected_staged l : forall t acc,
  add_selected (add_selected l t) acc = add_selected l (add_selected t acc).
Proof.
  induction l as [|x l IH]; intros t acc; simpl; [reflexivity|].
  destruct (mem x t) eqn:Hx; simpl.
  - rewrite IH. rewrite mem_add_selected, Hx, orb_true_r. reflexivity.
  - rewrite IH, add_selected_app. simpl.
    now destruct (negb (mem x (add_selected t acc))).
Qed.

Lemma add_selected_NoDup l : forall acc,
  NoDup (map oid acc) -> NoDup (map oid (add_selected l acc)).
Proof.
  induction l as [|x l IH]; intros acc Hnd; simpl; [assumption|].
  destruct (mem x acc) eqn:Hx; simpl; apply IH; [assumption|].
  rewrite map_app. simpl. apply NoDup_app; [assumption | repeat constructor; intros [] |].
  intros o Ho [<-|[]]. apply mem_oid in Ho. congruence.
Qed.

Lemma filter_filter (p q : BaseExtension -> bool) l :
  filter p (filter q l) = filter (fun y => q y && p y) l.
Proof.
  induction l as [|y l IH]; simpl; [reflexivity|].
  destruct (q y); simpl; [destruct (p y)|]; now rewrite IH.
Qed.

(** Merging a sequence into a selection appends, in the order of their
    first occurrence, the instances the selection does not hold yet. *)
Lemma add_selected_first_occurrences l : forall acc,
  add_selected l acc
  = (acc ++ filter (fun y => negb (mem y acc)) (first_occurrences l))%list.
Proof.
  induction l as [|x l IH]; intros acc; simpl.
  - now rewrite app_nil_r.
  - destruct (mem x acc) eqn:Hx; simpl; rewrite IH.
    + f_equal. rewrite filter_filter. apply filter_ext. intros y.
      destruct (ext_eqb x y) eqn:Hxy; simpl; [|reflexivity].
      apply ext_eqb_oid in Hxy.
      assert (Hy : mem y acc = true).
      { apply mem_oid. rewrite <- Hxy. now apply mem_oid. }
      now rewrite Hy.
    + rewrite <- app_assoc. simpl. do 2 f_equal.
      rewrite filter_filter. apply filter_ext. intros y.
      rewrite mem_app. simpl. rewrite orb_false_r, negb_orb.
      now rewrite (ext_eqb_sym y x), andb_comm.
Qed.

Lemma add_selected_nil l : add_selected l [] = first_occurrences l.
Proof.
  rewrite add_selected_first_occurrences. simpl.
  induction (first_occurrences l) as [|y fo IH]; simpl; [reflexivity|].
  now rewrite IH.
Qed.

Lemma first_occurrences_NoDup l : NoDup (map oid (first_occurrences l)).
Proof.
  rewrite <- add_selected_nil. apply add_selected_NoDup. constructor.
Qed.

Lemma mem_first_occurrences x l : mem x (first_occurrences l) = mem x l.
Proof. rewrite <- add_selected_nil. now rewrite mem_add_selected. Qed.

Lemma occurrences_NoDup x l :
  NoDup (map oid l) -> mem x l = true -> occurrences x l = 1.
Proof.
  unfold occurrences. induction l as [|y l IH]; simpl; [discriminate|].
  intros Hnd Hm. inversion Hnd as [|? ? Hnotin Hnd']; subst.
  destruct (ext_eqb x y) eqn:Hxy; simpl.
  - f_equal. apply ext_eqb_oid in Hxy.
    assert (Hx : mem x l = false).
    { destruct (mem x l) eqn:Hx; [|reflexivity].
      apply mem_oid in Hx. rewrite Hxy in Hx. contradiction. }
    clear - Hx. induction l as [|z l IH]; simpl in *; [reflexivity|].
    apply orb_false_elim in Hx. destruct Hx as [Hz Hx]. rewrite Hz. now apply IH.
  - now apply IH.
Qed.
End Membership.

Section Selection.
Variable extensions : Py.dict BaseExtension.

(** The stage a line leaves is the merge of the instances its tokens
    name. *)
Lemma parse_indices_picked indices : forall temp,
  fst (parse_indices extensions indices temp)
  = add_selected (picked extensions indices) temp.
Proof.
  induction indices as [|idx rest IH]; intros temp; simpl; [reflexivity|].
  destruct (Py.lookup extensions idx) as [ext|]; simpl.
  - destruct (negb (mem ext temp)).
    + specialize (IH (temp ++ [ext])%list).
      destruct (parse_indices extensions rest (temp ++ [ext])). exact IH.
    + specialize (IH temp). destruct (parse_indices extensions rest temp). exact IH.
  - specialize (IH temp). destruct (parse_indices extensions rest temp). exact IH.
Qed.

Lemma parse_indices_app l1 : forall l2 temp,
  parse_indices extensions (l1 ++ l2) temp
  = (fst (parse_indices extensions l2 (fst (parse_indices extensions l1 temp))),
     (snd (parse_indices extensions l1 temp)
      ++ snd (parse_indices extensions l2 (fst (parse_indices extensions l1 temp))))%list).
Proof.
  induction l1 as [|idx l1 IH]; intros l2 temp; simpl.
  - now destruct (parse_indices extensions l2 temp).
  - destruct (Py.lookup extensions idx) as [ext|];
      [destruct (negb (mem ext temp))|];
      rewrite IH;
      match goal with
      | |- context [parse_indices extensions l1 ?t] =>
          destruct (parse_indices extensions l1 t)
      end; reflexivity.
Qed.

Lemma select_tokens_picked indices selected :
  fst (select_tokens extensions indices selected)
  = add_selected (picked extensions indices) selected.
Proof.
  unfold select_tokens.
  pose proof (parse_indices_picked indices []) as H.
  destruct (parse_indices extensions indices []) as [temp out]. simpl in H.
  assert (E : add_selected (picked extensions indices) selected
              = add_selected temp selected).
  { rewrite H. exact (eq_sym (add_selected_staged _ [] selected)). }
  rewrite E. now destruct temp.
Qed.

Lemma accumulate_picked lines : forall selected,
  accumulate extensions lines selected
  = add_selected (flat_map (picks extensions) lines) selected.
Proof.
  unfold accumulate.
  induction lines as [|line lines IH]; intros selected; simpl; [reflexivity|].
  rewrite IH, add_selected_app. unfold select_line, picks.
  now rewrite select_tokens_picked.
Qed.

Lemma picked_app l1 l2 :
  picked extensions (l1 ++ l2)
  = (picked extensions l1 ++ picked extensions l2)%list.
Proof. unfold picked. apply flat_map_app. Qed.
End Selection.

Section Loop.
Context {Host : Type} (m : Menu Host).
Variable extensions : Py.dict BaseExtension.

Lemma loop_done line rest selected :
  is_command "done" line = true ->
  selection_loop m extensions (line :: rest) selected
  = (Ok selected, rest, [select_prompt m]).
Proof. unfold is_command. intros H. simpl. now rewrite H. Qed.

Lemma loop_all line rest selected :
  is_command "all" line = true ->
  selection_loop m extensions (line :: rest) selected
  = (Ok (Py.values extensions), rest,
     [select_prompt m;
      Print ("Selected all " ++ Py.str_nat (List.length (Py.values extensions))
                             ++ " extensions")]).
Proof.
  unfold is_command. intros H. simpl. rewrite H.
  apply String.eqb_eq in H. now rewrite H.
Qed.

Lemma loop_key_line line rest selected :
  key_line line = true ->
  selection_loop m extensions (line :: rest) selected
  = (fst (fst (selection_loop m extensions rest
                 (fst (select_line extensions (Py.strip line) selected)))),
     snd (fst (selection_loop m extensions rest
                 (fst (select_line extensions (Py.strip line) selected)))),
     select_prompt m
       :: (snd (select_line extensions (Py.strip line) selected)
           ++ snd (selection_loop m extensions rest
                     (fst (select_line extensions (Py.strip line) selected))))%list).
Proof.
  unfold key_line, is_command. intros H. apply andb_prop in H. destruct H as [H1 H2].
  apply negb_true_iff in H1, H2. simpl. rewrite H1, H2.
  destruct (select_line extensions (Py.strip line) selected) as [sel out].
  simpl. now destruct (selection_loop m extensions rest sel) as [[r rest'] out'].
Qed.

Lemma installs_map_Print (l : list string) : installs (map Print l) = [].
Proof. induction l as [|s l IH]; simpl; [reflexivity | exact IH]. Qed.

Lemma installs_print_names l : installs (print_names l) = [].
Proof. unfold print_names. induction l as [|x l IH]; simpl; [reflexivity | exact IH]. Qed.

Lemma installs_parse_indices indices : forall temp,
  installs (snd (parse_indices extensions indices temp)) = [].
Proof.
  induction indices as [|idx rest IH]; intros temp; simpl; [reflexivity|].
  destruct (Py.lookup extensions idx) as [ext|]; [destruct (negb (mem ext temp))|];
    match goal with
    | |- context [parse_indices extensions rest ?t] =>
        specialize (IH t); destruct (parse_indices extensions rest t)
    end; exact IH.
Qed.

Lemma installs_select_tokens indices selected :
  installs (snd (select_tokens extensions indices selected)) = [].
Proof.
  unfold select_tokens. pose proof (installs_parse_indices indices []) as H.
  destruct (parse_indices extensions indices []) as [temp out]. simpl in H.
  destruct temp; simpl; [exact H|].
  rewrite installs_app, H. simpl. apply installs_print_names.
Qed.

(** The loop invokes no install action. *)
Lemma installs_selection_loop stdin : forall selected,
  installs (snd (selection_loop m extensions stdin selected)) = [].
Proof.
  induction stdin as [|line rest IH]; intros selected; [reflexivity|].
  destruct (is_command "done" line) eqn:Hd; [now rewrite loop_done|].
  destruct (is_command "all" line) eqn:Ha; [now rewrite loop_all|].
  rewrite loop_key_line by (unfold key_line; now rewrite Hd, Ha).
  cbn [snd installs flat_map app]. fold (installs).
  change (installs (snd (select_line extensions (Py.strip line) selected)
                    ++ snd (selection_loop m extensions rest
                         (fst (select_line extensions (Py.strip line) selected)))) = []).
  rewrite installs_app, IH. unfold select_line.
  now rewrite installs_select_tokens.
Qed.

(** Key lines in front of the input are consumed one by one; the loop goes
    on with the selection they leave. *)
Lemma loop_prefix pre stdin : forall selected,
  forallb key_line pre = true ->
  fst (selection_loop m extensions (pre ++ stdin) selected)
  = fst (selection_loop m extensions stdin (accumulate extensions pre selected))
  /\ exists out,
       snd (selection_loop m extensions (pre ++ stdin) selected)
       = (out ++ snd (selection_loop m extensions stdin
                        (accumulate extensions pre selected)))%list.
Proof.
  induction pre as [|line pre IH]; intros selected Hk.
  - split; [reflexivity|]. now exists [].
  - simpl in Hk. apply andb_prop in Hk. destruct Hk as [Hl Hk].
    change ((line :: pre) ++ stdin)%list with (line :: (pre ++ stdin))%list.
    rewrite (loop_key_line line (pre ++ stdin)%list selected Hl).
    destruct (IH (fst (select_line extensions (Py.strip line) selected)) Hk)
      as [H1 [out H2]].
    unfold accumulate in *. cbn [fold_left fst snd]. split.
    + rewrite <- H1. now destruct (selection_loop m extensions (pre ++ stdin) _) as [[r t] o].
    + exists (select_prompt m
              :: snd (select_line extensions (Py.strip line) selected) ++ out)%list.
      rewrite H2. cbn [app]. now rewrite <- app_assoc.
Qed.

Lemma installs_bulk_header : installs (bulk_header m extensions) = [].
Proof.
  unfold bulk_header. cbn [installs flat_map app]. fold installs.
  rewrite installs_app. unfold print_available.
  induction (Py.values extensions) as [|x l IH]; simpl; [reflexivity | exact IH].
Qed.

(** The selection holds no instance twice, however the loop ends. *)
Lemma loop_NoDup stdin : forall selected sel,
  NoDup (map oid (Py.values extensions)) ->
  NoDup (map oid selected) ->
  fst (fst (selection_loop m extensions stdin selected)) = Ok sel ->
  NoDup (map oid sel).
Proof.
  induction stdin as [|line rest IH]; intros selected sel Hreg Hnd; [discriminate|].
  destruct (is_command "done" line) eqn:Hd.
  { rewrite loop_done by assumption. simpl. now intros [= <-]. }
  destruct (is_command "all" line) eqn:Ha.
  { rewrite loop_all by assumption. simpl. now intros [= <-]. }
  rewrite loop_key_line by (unfold key_line; now rewrite Hd, Ha).
  cbn [fst]. apply IH; [assumption|].
  unfold select_line. rewrite select_tokens_picked. now apply add_selected_NoDup.
Qed.
End Loop.

(** C4.  In the selection loop the command "all", in any letter case and
    after any lines of key tokens, replaces whatever was selected so far
    with every entry of the registry, in registry order, reports their
    number and ends the loop at once: the lines after it are not read. *)
Theorem select_all_overrides {Host : Type} (m : Menu Host)
    (extensions : Py.dict BaseExtension) (pre : list string) (line : string)
    (rest : list string) (selected : list BaseExtension) :
  forallb key_line pre = true ->
  is_command "all" line = true ->
  fst (fst (selection_loop m extensions (pre ++ line :: rest) selected))
  = Ok (Py.values extensions)
  /\ snd (fst (selection_loop m extensions (pre ++ line :: rest) selected)) = rest
  /\ exists out,
       snd (selection_loop m extensions (pre ++ line :: rest) selected)
       = (out ++ [Print ("Selected all "
                          ++ Py.str_nat (List.length (Py.values extensions))
                          ++ " extensions")])%list.
Proof.
  intros Hk Ha.
  destruct (loop_prefix m extensions pre (line :: rest) selected Hk) as [H1 [out H2]].
  rewrite H1, H2, (loop_all m extensions line rest _ Ha). cbn [fst snd].
  repeat split. exists (out ++ [select_prompt m])%list.
  now rewrite <- app_assoc.
Qed.

Lemma select_all_overrides_witness :
  fst (fst (selection_loop Sample.menu Sample.registry
              ["3 1"; "2 9"; " ALL "; "1"; "done"] []))
  = Ok [Sample.A; Sample.B; Sample.C]
  /\ snd (fst (selection_loop Sample.menu Sample.registry
                 ["3 1"; "2 9"; " ALL "; "1"; "done"] []))
     = ["1"; "done"].
Proof.
  destruct (select_all_overrides Sample.menu Sample.registry
              ["3 1"; "2 9"] " ALL " ["1"; "done"] [] eq_refl eq_refl)
    as [H1 [H2 _]].
  split; [exact H1 | exact H2].
Defined.

(** C6, as amended.  In the selection loop the command "done", in any
    letter case, ends the loop and hands the selection accumulated so far
    to the caller; when that selection is empty [bulk_install_extensions]
    reports that nothing is selected and returns: no install action is
    invoked, the host is as it was and nothing is raised. *)
Theorem done_returns_selection {Host : Type} (m : Menu Host)
    (extensions : Py.dict BaseExtension) (pre : list string) (line : string)
    (rest : list string) (host : Host) :
  forallb key_line pre = true ->
  is_command "done" line = true ->
  fst (fst (selection_loop m extensions (pre ++ line :: rest) []))
  = Ok (accumulate extensions pre [])
  /\ snd (fst (selection_loop m extensions (pre ++ line :: rest) [])) = rest
  /\ (accumulate extensions pre [] = [] ->
      fst (fst (bulk_install_extensions m extensions (pre ++ line :: rest) host))
      = (Ok tt, rest)
      /\ snd (fst (bulk_install_extensions m extensions (pre ++ line :: rest) host))
         = host
      /\ installs (snd (bulk_install_extensions m extensions (pre ++ line :: rest) host))
         = []
      /\ exists out,
           snd (bulk_install_extensions m extensions (pre ++ line :: rest) host)
           = (out ++ [Print "No extensions selected."])%list).
Proof.
  intros Hk Hd.
  destruct (loop_prefix m extensions pre (line :: rest) [] Hk) as [H1 [out H2]].
  rewrite (loop_done m extensions line rest _ Hd) in H1, H2. cbn [fst snd] in *.
  rewrite H1. cbn [fst snd]. split; [reflexivity|]. split; [reflexivity|].
  intros Hempty. unfold bulk_install_extensions.
  pose proof (installs_selection_loop m extensions (pre ++ line :: rest) []) as Hq.
  destruct (selection_loop m extensions (pre ++ line :: rest) []) as [[r t] o].
  cbn [fst snd] in *. injection H1 as -> ->. rewrite Hempty. cbn [fst snd].
  split; [reflexivity|]. split; [reflexivity|]. split.
  - now rewrite !installs_app, Hq, installs_bulk_header.
  - exists (bulk_header m extensions ++ o)%list. now rewrite <- app_assoc.
Qed.

Lemma done_returns_selection_witness :
  fst (fst (selection_loop Sample.menu Sample.registry ["2 3"; "1"; " Done"; "y"] []))
  = Ok [Sample.B; Sample.C; Sample.A]
  /\ fst (fst (bulk_install_extensions Sample.menu Sample.registry
                 ["7 x"; "DONE"; "y"] [5]))
     = (Ok tt, ["y"])
  /\ snd (fst (bulk_install_extensions Sample.menu Sample.registry
                 ["7 x"; "DONE"; "y"] [5]))
     = [5].
Proof.
  destruct (done_returns_selection Sample.menu Sample.registry
              ["2 3"; "1"] " Done" ["y"] [] eq_refl eq_refl) as [H1 _].
  destruct (done_returns_selection Sample.menu Sample.registry
              ["7 x"] "DONE" ["y"] [5] eq_refl eq_refl) as [_ [_ H2]].
  destruct (H2 eq_refl) as [H3 [H4 _]].
  split; [exact H1 | split; [exact H3 | exact H4]].
Defined.

(** C6 as stated fails: "finish" is not a command of the loop.  The line is
    read as a key token and reported as an invalid extension number; the
    loop goes on reading, here until "done". *)
Lemma finish_is_not_a_command :
  is_command "done" "finish" = false
  /\ selection_loop Sample.menu Sample.registry ["2"; "finish"; "3"; "done"] []
     = (Ok [Sample.B; Sample.C], [],
        [Prompt "Select extensions (or 'done' to proceed): ";
         Print "Added: B";
         Print (Py.nl ++ "Currently selected (1):");
         Print "  - B";
         Prompt "Select extensions (or 'done' to proceed): ";
         Print "Invalid extension number: finish";
         Prompt "Select extensions (or 'done' to proceed): ";
         Print "Added: C";
         Print (Py.nl ++ "Currently selected (2):");
         Print "  - B";
         Print "  - C";
         Prompt "Select extensions (or 'done' to proceed): "])
  /\ fst (fst (selection_loop Sample.menu Sample.registry ["2"; "finish"] []))
     = Raise (mkExn EOFError "EOF when reading a line").
Proof. repeat split; reflexivity. Qed.

(** C7.  The accumulated selection holds no extension instance twice.
    After any lines of key tokens, ended by "done", it is the sequence of
    the instances the valid tokens name, each kept once at the place of its
    first selection: an instance selected any number of times, on any
    number of lines, occurs exactly once.  Whichever way the loop ends,
    over a registry of distinct instances the selection has no
    duplicates. *)
Theorem selection_has_no_duplicates {Host : Type} (m : Menu Host)
    (extensions : Py.dict BaseExtension) (pre : list string) (line : string)
    (rest : list string) :
  forallb key_line pre = true ->
  is_command "done" line = true ->
  let sel := first_occurrences (flat_map (picks extensions) pre) in
  fst (fst (selection_loop m extensions (pre ++ line :: rest) [])) = Ok sel
  /\ NoDup (map oid sel)
  /\ (forall ext, mem ext (flat_map (picks extensions) pre) = true ->
                  occurrences ext sel = 1)
  /\ (NoDup (map oid (Py.values extensions)) ->
      forall stdin sel',
        fst (fst (selection_loop m extensions stdin [])) = Ok sel' ->
        NoDup (map oid sel')).
Proof.
  intros Hk Hd sel. subst sel.
  destruct (loop_prefix m extensions pre (line :: rest) [] Hk) as [H1 _].
  rewrite (loop_done m extensions line rest _ Hd) in H1.
  rewrite accumulate_picked, add_selected_nil in H1.
  split; [now rewrite H1|]. split; [apply first_occurrences_NoDup|]. split.
  - intros ext Hm. apply occurrences_NoDup; [apply first_occurrences_NoDup|].
    now rewrite mem_first_occurrences.
  - intros Hreg stdin sel' Hs.
    apply (loop_NoDup m extensions stdin [] sel' Hreg); [constructor | exact Hs].
Qed.

Lemma selection_has_no_duplicates_witness :
  fst (fst (selection_loop Sample.menu Sample.registry
              ["2 3"; "2 1 2"; "3 3"; "done"] []))
  = Ok [Sample.B; Sample.C; Sample.A]
  /\ occurrences Sample.B [Sample.B; Sample.C; Sample.A] = 1.
Proof.
  pose proof (selection_has_no_duplicates Sample.menu Sample.registry
                ["2 3"; "2 1 2"; "3 3"] "done" [] eq_refl eq_refl) as H.
  cbv zeta in H. destruct H as [H1 [_ [H3 _]]].
  split; [exact H1 | exact (H3 Sample.B eq_refl)].
Defined.

(** C8.  A token that is no key of the registry changes nothing and raises
    nothing: the stage is passed on as it is and "Invalid extension number"
    is printed for the token; the other tokens of the line are processed,
    so that the selection after the line is the one the line without the
    token gives (a line of such a token alone leaves the selection as it
    was); and the loop goes on with the next line. *)
Theorem invalid_token_is_skipped (extensions : Py.dict BaseExtension) (idx : string) :
  Py.lookup extensions idx = None ->
  (forall rest temp,
      parse_indices extensions (idx :: rest) temp
      = (fst (parse_indices extensions rest temp),
         Print ("Invalid extension number: " ++ idx)
           :: snd (parse_indices extensions rest temp)))
  /\ (forall pre post selected,
         fst (select_tokens extensions (pre ++ idx :: post) selected)
         = fst (select_tokens extensions (pre ++ post) selected)
         /\ In (Print ("Invalid extension number: " ++ idx))
               (snd (select_tokens extensions (pre ++ idx :: post) selected)))
  /\ (forall selected, fst (select_tokens extensions [idx] selected) = selected)
  /\ (forall (Host : Type) (m : Menu Host) line rest selected pre post,
         key_line line = true ->
         Py.split (Py.strip line) = (pre ++ idx :: post)%list ->
         fst (selection_loop m extensions (line :: rest) selected)
         = fst (selection_loop m extensions rest
                  (fst (select_tokens extensions (pre ++ post) selected)))).
Proof.
  intros Hnone.
  assert (Hstep : forall rest temp,
      parse_indices extensions (idx :: rest) temp
      = (fst (parse_indices extensions rest temp),
         Print ("Invalid extension number: " ++ idx)
           :: snd (parse_indices extensions rest temp))).
  { intros rest temp. simpl. rewrite Hnone.
    now destruct (parse_indices extensions rest temp). }
  assert (Hsame : forall pre post selected,
      fst (select_tokens extensions (pre ++ idx :: post) selected)
      = fst (select_tokens extensions (pre ++ post) selected)).
  { intros pre post selected. rewrite !select_tokens_picked, !picked_app.
    simpl. now rewrite Hnone. }
  split; [exact Hstep|]. split; [|split].
  - intros pre post selected. split; [apply Hsame|].
    unfold select_tokens. rewrite parse_indices_app, Hstep. cbn [fst snd].
    set (out := (snd (parse_indices extensions pre [])
                 ++ Print ("Invalid extension number: " ++ idx) :: _)%list).
    assert (Hin : In (Print ("Invalid extension number: " ++ idx)) out).
    { apply in_or_app. right. now left. }
    destruct (fst (parse_indices extensions post _)); cbn [snd];
      [exact Hin | apply in_or_app; now left].
  - intros selected. rewrite select_tokens_picked. simpl. now rewrite Hnone.
  - intros Host m line rest selected pre post Hk Hsplit.
    rewrite (loop_key_line m extensions line rest selected Hk). cbn [fst].
    unfold select_line. rewrite Hsplit, Hsame.
    now destruct (selection_loop m extensions rest _) as [[r t] o].
Qed.

Lemma invalid_token_is_skipped_witness :
  fst (select_tokens Sample.registry ["3"; "9"; "1"] [Sample.B])
  = [Sample.B; Sample.C; Sample.A]
  /\ In (Print "Invalid extension number: 9")
        (snd (select_tokens Sample.registry ["3"; "9"; "1"] [Sample.B]))
  /\ fst (select_tokens Sample.registry ["9"] [Sample.B]) = [Sample.B].
Proof.
  destruct (invalid_token_is_skipped Sample.registry "9" eq_refl)
    as [_ [H2 [H3 _]]].
  destruct (H2 ["3"] ["1"] [Sample.B]) as [H4 H5].
  split; [exact (eq_trans H4 eq_refl) | split; [exact H5 | exact (H3 [Sample.B])]].
Defined.

(** C10.  When the selection is empty after the loop, or the user declines
    the confirmation, [bulk_install_extensions] returns without invoking
    the install action of any instance: the host is as it was, nothing is
    raised, and the selection is not handed on. *)
Theorem no_install_without_confirmation {Host : Type} (m : Menu Host)
    (extensions : Py.dict BaseExtension) (stdin : list string) (host : Host) :
  fst (fst (selection_loop m extensions stdin [])) = Ok []
  \/ (exists sel,
        fst (fst (selection_loop m extensions stdin [])) = Ok sel
        /\ fst (fst (get_confirm m "Proceed with installation?" true
                       (snd (fst (selection_loop m extensions stdin [])))))
           = Ok false) ->
  fst (fst (fst (bulk_install_extensions m extensions stdin host))) = Ok tt
  /\ snd (fst (bulk_install_extensions m extensions stdin host)) = host
  /\ installs (snd (bulk_install_extensions m extensions stdin host)) = [].
Proof.
  intros H. unfold bulk_install_extensions.
  pose proof (installs_selection_loop m extensions stdin []) as Hq.
  destruct (selection_loop m extensions stdin []) as [[r rest] out].
  cbn [fst snd] in *.
  assert (Hcase : r = Ok [] \/ exists x sel, r = Ok (x :: sel)
            /\ fst (fst (get_confirm m "Proceed with installation?" true rest))
               = Ok false).
  { destruct H as [H|[sel [H1 H2]]]; [now left|].
    destruct sel as [|x sel]; [now left | right; now exists x, sel]. }
  clear H. destruct Hcase as [->|[x [sel [-> Hc]]]].
  - cbn [fst snd]. repeat split.
    now rewrite !installs_app, Hq, installs_bulk_header.
  - destruct (get_confirm m "Proceed with installation?" true rest)
      as [[c rest'] said].
    cbn [fst snd] in Hc. subst c. cbn [fst snd]. repeat split.
    rewrite !installs_app, Hq, installs_bulk_header. cbn [app].
    cbn [installs flat_map app]. fold installs.
    rewrite installs_print_names.
    rewrite installs_map_Print. reflexivity.
Qed.

Lemma no_install_without_confirmation_witness :
  snd (fst (bulk_install_extensions Sample.menu Sample.registry
              ["3 1"; "done"; "n"; "y"] [5])) = [5]
  /\ installs (snd (bulk_install_extensions Sample.menu Sample.registry
                      ["3 1"; "done"; "n"; "y"] [5])) = [].
Proof.
  destruct (no_install_without_confirmation Sample.menu Sample.registry
              ["3 1"; "done"; "n"; "y"] [5]) as [_ [H1 H2]].
  - right. exists [Sample.C; Sample.A]. split; reflexivity.
  - split; [exact H1 | exact H2].
Defined.

(** * Further properties *)

(** ** discover_extensions: keys, collisions and aborts *)



(** X1.  The registry [discover_extensions] returns has pairwise distinct
    keys and holds pairwise distinct objects: no instance is registered
    under two keys. *)
Theorem registry_instances_are_distinct (site : Site) (root : list Package)
    (o : nat) (reg : Py.dict BaseExtension) (out : list event) (o' : nat) :
  discover_extensions site root o = (Ok reg, out, o') ->
  NoDup (Py.keys reg) /\ NoDup (map oid (Py.values reg)).
Proof.
  unfold discover_extensions.
  destruct (scan site root [] o) as [[[d|e] out1] p1] eqn:Hs; [|discriminate].
  destruct (Py.sorted key_int (Py.items d)) as [l|] eqn:Hl; [|discriminate].
  intros [= <- <- <-].
  (* the loop allocates a new object for every package that loads *)
  destruct (scan_allocates site root [] o d out1 p1) as [Hk [Hv _]];
    [constructor | split; constructor | exact Hs |].
  (* the sort rearranges the items, and dict() keeps them all *)
  apply sorted_perm in Hl. unfold Py.items in Hl.
  assert (Hnd : NoDup (map fst l)).
  { eapply Permutation_NoDup; [|exact Hk]. apply Permutation_map. now symmetry. }
  rewrite (of_items_distinct l Hnd). split; [exact Hnd|].
  eapply Permutation_NoDup; [|exact Hv].
  unfold Py.values. apply Permutation_map, Permutation_map. now symmetry.
Qed.

Lemma registry_instances_are_distinct_witness :
  NoDup (Py.keys [("1", mkExt 2 (Sample.plain "ShellCommandExtension")
                     (Sample.descriptor "gcode_shell_cmd_extension" "1" "G-Code Shell Command"));
                  ("2", mkExt 1 (Sample.plain "MainsailThemeInstallerExtension")
                     (Sample.descriptor "mainsail_theme_installer_extension" "2" "Mainsail Theme Installer"));
                  ("10", mkExt 0 (Sample.plain "KlipperbackupExtension")
                     (Sample.descriptor "klipper_backup_extension" "10" "Klipper-Backup"))])
  /\ NoDup [2; 1; 0].
Proof.
  exact (registry_instances_are_distinct Sample.site Sample.listing 0 _ _ _ eq_refl).
Defined.

(** X2.  A loaded key that is no integer literal (the key "None" of a
    package without [index], say) makes the final sort raise [ValueError]:
    with every package loading or failing in a handled way,
    [discover_extensions] still returns no registry. *)
Theorem discover_rejects_non_integer_key (site : Site) (root : list Package) (o : nat) :
  failures_handled site root ->
  Exists (fun k => Py.int k = None) (loaded_keys site root) ->
  fst (fst (discover_extensions site root o))
  = Raise (mkExn ValueError "invalid literal for int() with base 10")
  /\ snd (fst (discover_extensions site root o)) = failure_log site root.
Proof.
  intros Hh Hex.
  destruct (scan_keys_fold site root [] o Hh) as [d [o' [Hs Hk]]].
  unfold discover_extensions. rewrite Hs.
  assert (Hnone : Py.decorate key_int (Py.items d) = None).
  { apply decorate_None. apply Exists_exists in Hex. destruct Hex as [k [Hin Hint]].
    assert (Hkd : In k (Py.keys d)).
    { rewrite Hk. apply In_add_keys. now right. }
    unfold Py.keys in Hkd. apply in_map_iff in Hkd. destruct Hkd as [[k' v] [Hfst Hkv]].
    simpl in Hfst. subst k'. apply Exists_exists. exists (k, v). now split. }
  unfold Py.sorted. rewrite Hnone. now split.
Qed.

Lemma discover_rejects_non_integer_key_witness :
  fst (fst (discover_extensions Sample.site
              [Sample.backup; Sample.garbled; Sample.unnumbered; Sample.theme] 0))
  = Raise (mkExn ValueError "invalid literal for int() with base 10").
Proof.
  refine (proj1 (discover_rejects_non_integer_key Sample.site
                   [Sample.backup; Sample.garbled; Sample.unnumbered; Sample.theme] 0 _ _)).
  - apply failures_handled_check. reflexivity.
  - apply some_non_integer_check. reflexivity.
Defined.

(** X3.  The first package that fails with an exception the handler does
    not name ends the scan: that exception leaves [discover_extensions],
    whatever entries follow in the listing, and the log holds the handled
    failures met before it. *)
Theorem discover_stops_at_unhandled_failure (site : Site)
    (pre : list Package) (ext : Package) (post : list Package) (e : exn) (o : nat) :
  failures_handled site pre ->
  outcome_of site ext = Failed e ->
  handled e = false ->
  fst (fst (discover_extensions site (pre ++ ext :: post) o)) = Raise e
  /\ snd (fst (discover_extensions site (pre ++ ext :: post) o))
     = failure_log site pre.
Proof.
  intros Hh Hout Hnot.
  destruct (scan_app site pre (ext :: post) [] o Hh) as [d1 [o1 [_ H2]]].
  unfold discover_extensions. rewrite H2.
  rewrite (scan_failed site ext post d1 o1 e Hout), Hnot. cbn [fst snd].
  now rewrite app_nil_r.
Qed.

Lemma discover_stops_at_unhandled_failure_witness :
  fst (fst (discover_extensions Sample.site
              ([Sample.locked; Sample.backup] ++ Sample.bare :: [Sample.shell_cmd]) 0))
  = Raise (mkExn AttributeError "object has no attribute 'get'")
  /\ snd (fst (discover_extensions Sample.site
                 ([Sample.locked; Sample.backup] ++ Sample.bare :: [Sample.shell_cmd]) 0))
     = failure_log Sample.site [Sample.locked; Sample.backup].
Proof.
  apply (discover_stops_at_unhandled_failure Sample.site
           [Sample.locked; Sample.backup] Sample.bare [Sample.shell_cmd]).
  - apply failures_handled_check. reflexivity.
  - reflexivity.
  - reflexivity.
Defined.


(** X4.  Two packages that declare the same key: the one scanned later
    takes the key.  After a listing whose last package loads under [key]
    (every entry can be probed, every failure before it is handled and
    every loaded key is an integer literal), the registry holds that
    package's instance under [key], whatever was loaded under it before;
    and when the key was met before, the registry has the keys, in the
    order, it has without the last package: the entry is replaced, not
    added. *)
Theorem later_package_takes_the_key (site : Site) (root : list Package)
    (ext : Package) (o : nat) (doc : Result json_document) (key : string)
    (inst0 : BaseExtension) :
  failures_handled site root ->
  exists_raises ext = None ->
  metadata_json ext = Some doc ->
  load site ext doc 0 = Ok (key, inst0) ->
  Forall (fun k => Py.int k <> None) (loaded_keys site (root ++ [ext])) ->
  exists reg o1,
    fst (fst (discover_extensions site (root ++ [ext]) o)) = Ok reg
    /\ Py.lookup reg key = Some (mkExt o1 (ext_class inst0) (metadata inst0))
    /\ (In key (loaded_keys site root) ->
        registry_keys (fst (fst (discover_extensions site root o)))
        = Ok (Py.keys reg)).
Proof.
  intros Hh Hex Hmd Hload Hint.
  assert (Hout : outcome_of site ext = Loaded key).
  { unfold outcome_of. now rewrite Hex, Hmd, Hload. }
  destruct (scan_app site root [ext] [] o Hh) as [d1 [o1 [H1 H2]]].
  destruct (scan_keys_fold site root [] o Hh) as [d1' [o1' [H1' Hk1]]].
  rewrite H1 in H1'. injection H1' as <- <-. simpl in Hk1.
  destruct (scan_allocates site root [] o d1 (failure_log site root) o1)
    as [Hnd1 _]; [constructor | split; constructor | exact H1 |].
  set (inst := mkExt o1 (ext_class inst0) (metadata inst0)).
  assert (Hstep : scan site [ext] d1 o1 = (Ok (Py.set d1 key inst), [], S o1)).
  { simpl. rewrite Hex, Hmd, (load_at site ext doc o1), Hload. reflexivity. }
  rewrite Hstep in H2. cbn [fst snd] in H2.
  set (d2 := Py.set d1 key inst) in *.
  assert (Hnd2 : NoDup (Py.keys d2)) by (now apply NoDup_keys_set).
  assert (Hlk : loaded_keys site (root ++ [ext])
                = (loaded_keys site root ++ [key])%list).
  { rewrite loaded_keys_app. unfold loaded_keys at 2. simpl. now rewrite Hout. }
  assert (Hall : Forall (fun x : string * BaseExtension => key_int x <> None)
                        (Py.items d2)).
  { unfold Py.items, key_int. rewrite Forall_forall in *. intros [k v] Hkv.
    apply Hint. rewrite Hlk. apply in_or_app.
    assert (Hin : In k (Py.keys d2))
      by (unfold Py.keys; apply in_map_iff; now exists (k, v)).
    unfold d2 in Hin. rewrite keys_set_add in Hin. apply In_add_key in Hin.
    destruct Hin as [Hin| ->]; [left | right; now left].
    rewrite Hk1 in Hin. apply In_add_keys in Hin. now destruct Hin as [[]|Hin]. }
  destruct (sorted_Some key_int (Py.items d2) Hall)
    as [res [zs [Hres [Hperm _]]]].
  unfold Py.items in Hperm.
  assert (Hndr : NoDup (map fst res)).
  { eapply Permutation_NoDup; [|exact Hnd2]. apply Permutation_map. now symmetry. }
  exists res, o1. unfold discover_extensions at 1. rewrite H2, Hres.
  rewrite (of_items_distinct res Hndr). cbn [fst]. split; [reflexivity|]. split.
  - apply lookup_In; [exact Hndr|].
    apply (Permutation_in _ (Permutation_sym Hperm)). apply In_set.
  - intros Hin.
    assert (Hsame : Py.keys d2 = Py.keys d1).
    { unfold d2. rewrite keys_set_add. unfold add_key.
      replace (existsb (fun k' => String.eqb k' key) (Py.keys d1)) with true;
        [reflexivity|].
      symmetry. apply existsb_exists. exists key. split; [|apply String.eqb_refl].
      rewrite Hk1. apply In_add_keys. now right. }
    pose proof (sorted_registry_keys d1) as E1.
    pose proof (sorted_registry_keys d2) as E2.
    rewrite Hsame, <- E1, Hres in E2. simpl in E2.
    rewrite (of_items_distinct res Hndr) in E2.
    unfold discover_extensions. rewrite H1.
    destruct (Py.sorted key_int (Py.items d1)) as [l1|]; [|discriminate].
    simpl in E2. injection E2 as E2. simpl. now rewrite E2.
Qed.

Lemma later_package_takes_the_key_witness :
  exists reg o1,
    fst (fst (discover_extensions Sample.crowded_site
                ([Sample.twin; Sample.shell_cmd] ++ [Sample.usurper]) 0)) = Ok reg
    /\ Py.lookup reg "3"
       = Some (mkExt o1 (Sample.plain "UsurperExtension")
                        (Sample.descriptor "usurper_extension" "3" "Usurper"))
    /\ (In "3" (loaded_keys Sample.crowded_site [Sample.twin; Sample.shell_cmd]) ->
        registry_keys (fst (fst (discover_extensions Sample.crowded_site
                                   [Sample.twin; Sample.shell_cmd] 0)))
        = Ok (Py.keys reg)).
Proof.
  refine (later_package_takes_the_key Sample.crowded_site [Sample.twin; Sample.shell_cmd]
            Sample.usurper 0 _ "3"
            (mkExt 0 (Sample.plain "UsurperExtension")
                     (Sample.descriptor "usurper_extension" "3" "Usurper"))
            _ eq_refl eq_refl eq_refl _).
  - apply failures_handled_check. reflexivity.
  - apply all_integer_check. reflexivity.
Defined.

(** ** The selection loop: what a selection can hold *)

Section SelectionEdges.
Variable extensions : Py.dict BaseExtension.

Lemma In_add_selected l : forall acc x,
  In x (add_selected l acc) -> In x acc \/ In x l.
Proof.
  induction l as [|y l IH]; intros acc x Hin; simpl in *; [now left|].
  destruct (negb (mem y acc)).
  - destruct (IH _ _ Hin) as [H|H]; [|right; now right].
    apply in_app_or in H. destruct H as [H|[<-|[]]]; [now left | right; now left].
  - destruct (IH _ _ Hin) as [H|H]; [now left | right; now right].
Qed.

Lemma In_picked indices x :
  In x (picked extensions indices) -> In x (Py.values extensions).
Proof.
  unfold picked. rewrite in_flat_map. intros [idx [_ Hx]].
  destruct (Py.lookup extensions idx) as [ext|] eqn:Hl; [|destruct Hx].
  destruct Hx as [<-|[]]. now apply (lookup_Some_In extensions idx).
Qed.

Lemma picks_tokens lines :
  flat_map (picks extensions) lines
  = picked extensions (flat_map (fun line => Py.split (Py.strip line)) lines).
Proof.
  induction lines as [|line lines IH]; simpl; [reflexivity|].
  now rewrite picked_app, IH.
Qed.

Lemma picked_invalid indices :
  Forall (fun idx => Py.lookup extensions idx = None) indices ->
  picked extensions indices = [].
Proof.
  induction 1 as [|idx indices Hidx _ IH]; simpl; [reflexivity|].
  now rewrite Hidx.
Qed.

Lemma parse_indices_invalid indices : forall temp,
  Forall (fun idx => Py.lookup extensions idx = None) indices ->
  parse_indices extensions indices temp
  = (temp, map (fun idx => Print ("Invalid extension number: " ++ idx)) indices).
Proof.
  induction indices as [|idx indices IH]; intros temp Hall; simpl; [reflexivity|].
  inversion Hall as [|? ? Hidx Hall']; subst. now rewrite Hidx, (IH temp Hall').
Qed.

Lemma loop_within_registry {Host : Type} (m : Menu Host) stdin :
  forall selected sel,
    (forall x, In x selected -> In x (Py.values extensions)) ->
    fst (fst (selection_loop m extensions stdin selected)) = Ok sel ->
    forall x, In x sel -> In x (Py.values extensions).
Proof.
  induction stdin as [|line rest IH]; intros selected sel Hsel; [discriminate|].
  destruct (is_command "done" line) eqn:Hd.
  { rewrite loop_done by assumption. simpl. now intros [= <-]. }
  destruct (is_command "all" line) eqn:Ha.
  { rewrite loop_all by assumption. simpl. now intros [= <-]. }
  rewrite loop_key_line by (unfold key_line; now rewrite Hd, Ha).
  cbn [fst]. apply IH. intros x Hx.
  unfold select_line in Hx. rewrite select_tokens_picked in Hx.
  apply In_add_selected in Hx. destruct Hx as [Hx|Hx]; [now apply Hsel|].
  now apply In_picked in Hx.
Qed.
End SelectionEdges.

(** X6.  Whatever is typed, a selection the loop returns holds only
    instances of the registry; over a registry of distinct instances it
    holds at most as many instances as the registry has entries. *)
Theorem selection_is_within_registry {Host : Type} (m : Menu Host)
    (extensions : Py.dict BaseExtension) (stdin : list string)
    (sel : list BaseExtension) :
  fst (fst (selection_loop m extensions stdin [])) = Ok sel ->
  (forall x, In x sel -> In x (Py.values extensions))
  /\ (NoDup (map oid (Py.values extensions)) ->
      List.length sel <= List.length extensions).
Proof.
  intros Hs.
  assert (Hin : forall x, In x sel -> In x (Py.values extensions)).
  { apply (loop_within_registry extensions m stdin [] sel); [intros x []|exact Hs]. }
  split; [exact Hin|]. intros Hreg.
  assert (Hnd : NoDup (map oid sel)).
  { apply (loop_NoDup m extensions stdin [] sel Hreg); [constructor | exact Hs]. }
  rewrite <- (length_map oid sel).
  replace (List.length extensions) with (List.length (map oid (Py.values extensions)))
    by (unfold Py.values; now rewrite !length_map).
  apply NoDup_incl_length; [exact Hnd|].
  intros o Ho. apply in_map_iff in Ho. destruct Ho as [x [<- Hx]].
  apply in_map. now apply Hin.
Qed.

Lemma selection_is_within_registry_witness :
  (forall x, In x [Sample.C; Sample.A] -> In x (Py.values Sample.registry))
  /\ (NoDup (map oid (Py.values Sample.registry)) -> 2 <= 3).
Proof.
  exact (selection_is_within_registry Sample.menu Sample.registry
           ["3 1 3"; "8"; "done"] [Sample.C; Sample.A] eq_refl).
Defined.

(** X7.  Only the sequence of tokens counts, not the lines they are typed
    on: two inputs whose key lines hold the same tokens in the same order,
    each ended by "done", give the same selection. *)
Theorem selection_ignores_line_breaks {Host : Type} (m : Menu Host)
    (extensions : Py.dict BaseExtension)
    (pre1 pre2 : list string) (line1 line2 : string) (rest1 rest2 : list string) :
  forallb key_line pre1 = true ->
  forallb key_line pre2 = true ->
  is_command "done" line1 = true ->
  is_command "done" line2 = true ->
  flat_map (fun line => Py.split (Py.strip line)) pre1
  = flat_map (fun line => Py.split (Py.strip line)) pre2 ->
  fst (fst (selection_loop m extensions (pre1 ++ line1 :: rest1) []))
  = fst (fst (selection_loop m extensions (pre2 ++ line2 :: rest2) [])).
Proof.
  intros Hk1 Hk2 Hd1 Hd2 Htokens.
  destruct (loop_prefix m extensions pre1 (line1 :: rest1) [] Hk1) as [H1 _].
  destruct (loop_prefix m extensions pre2 (line2 :: rest2) [] Hk2) as [H2 _].
  rewrite H1, H2, (loop_done m extensions line1 rest1 _ Hd1),
    (loop_done m extensions line2 rest2 _ Hd2).
  cbn [fst]. rewrite !accumulate_picked, !picks_tokens. now rewrite Htokens.
Qed.

Lemma selection_ignores_line_breaks_witness :
  fst (fst (selection_loop Sample.menu Sample.registry ["2 3"; "1 2"; "done"] []))
  = fst (fst (selection_loop Sample.menu Sample.registry
                ["2"; ""; " 3 1"; "2"; "DONE"; "1"] [])).
Proof.
  exact (selection_ignores_line_breaks Sample.menu Sample.registry
           ["2 3"; "1 2"] ["2"; ""; " 3 1"; "2"] "done" "DONE" [] ["1"]
           eq_refl eq_refl eq_refl eq_refl eq_refl).
Defined.

(** X8.  A line none of whose tokens is a key of the registry (an empty or
    blank line among them) leaves the selection as it was and prints one
    "Invalid extension number" report per token and nothing else: the
    "Currently selected" echo is skipped; the loop then reads the next
    line. *)
Theorem line_without_valid_token_is_inert {Host : Type} (m : Menu Host)
    (extensions : Py.dict BaseExtension) (line : string) (rest : list string)
    (selected : list BaseExtension) :
  key_line line = true ->
  Forall (fun idx => Py.lookup extensions idx = None) (Py.split (Py.strip line)) ->
  selection_loop m extensions (line :: rest) selected
  = (fst (fst (selection_loop m extensions rest selected)),
     snd (fst (selection_loop m extensions rest selected)),
     select_prompt m
       :: (map (fun idx => Print ("Invalid extension number: " ++ idx))
               (Py.split (Py.strip line))
           ++ snd (selection_loop m extensions rest selected))%list).
Proof.
  intros Hk Hall. rewrite (loop_key_line m extensions line rest selected Hk).
  unfold select_line, select_tokens.
  rewrite (parse_indices_invalid extensions _ [] Hall). reflexivity.
Qed.

Lemma line_without_valid_token_is_inert_witness :
  selection_loop Sample.menu Sample.registry [" 7 x "; "done"] [Sample.B]
  = (Ok [Sample.B], [],
     [select_prompt Sample.menu;
      Print "Invalid extension number: 7";
      Print "Invalid extension number: x";
      select_prompt Sample.menu]).
Proof.
  refine (line_without_valid_token_is_inert Sample.menu Sample.registry
            " 7 x " ["done"] [Sample.B] eq_refl _).
  repeat constructor.
Defined.

(** ** bulk_install_extensions: from the selection to the batch *)

Section BulkEdges.
Context {Host : Type} (m : Menu Host).

Lemma install_selected_spec extensions host :
  _install_selected_extensions m extensions host
  = (mkBatch (List.length extensions)
       (succeeded (fst (run_actions m extensions host)))
       (failed_names extensions (fst (run_actions m extensions host))),
     snd (run_actions m extensions host),
     Print (Py.nl ++ color_apply m "Starting bulk installation..." GREEN)
       :: Print ("Installing " ++ Py.str_nat (List.length extensions)
                               ++ " extension(s)" ++ Py.nl)
       :: (batch_trace (List.length extensions) 1 extensions
             (fst (run_actions m extensions host))
           ++ summary m
                (mkBatch (List.length extensions)
                   (succeeded (fst (run_actions m extensions host)))
                   (failed_names extensions (fst (run_actions m extensions host)))))%list).
Proof.
  unfold _install_selected_extensions. now rewrite install_each_spec.
Qed.

Lemma installs_install_selected extensions host :
  installs (snd (_install_selected_extensions m extensions host)) = extensions.
Proof.
  rewrite install_selected_spec. cbn [snd installs flat_map app]. fold installs.
  rewrite installs_app, installs_summary, app_nil_r.
  apply installs_batch_trace, run_actions_length.
Qed.

Lemma loop_eof extensions stdin : forall selected,
  forallb key_line stdin = true ->
  fst (selection_loop m extensions stdin selected)
  = (Raise (mkExn EOFError "EOF when reading a line"), []).
Proof.
  intros selected Hk.
  destruct (loop_prefix m extensions stdin [] selected Hk) as [H _].
  rewrite app_nil_r in H. now rewrite H.
Qed.

Lemma run_actions_app l1 : forall l2 host,
  run_actions m (l1 ++ l2) host
  = ((fst (run_actions m l1 host)
      ++ fst (run_actions m l2 (snd (run_actions m l1 host))))%list,
     snd (run_actions m l2 (snd (run_actions m l1 host)))).
Proof.
  induction l1 as [|x l1 IH]; intros l2 host; simpl.
  - now destruct (run_actions m l2 host).
  - destruct (install_extension m x host) as [r host1]. rewrite IH.
    destruct (run_actions m l1 host1) as [rs1 host2]. reflexivity.
Qed.

Lemma succeeded_app rs1 rs2 : succeeded (rs1 ++ rs2) = succeeded rs1 + succeeded rs2.
Proof. unfold succeeded. now rewrite filter_app, length_app. Qed.

Lemma failed_names_app l1 : forall l2 rs1 rs2,
  List.length rs1 = List.length l1 ->
  failed_names (l1 ++ l2) (rs1 ++ rs2)
  = (failed_names l1 rs1 ++ failed_names l2 rs2)%list.
Proof.
  unfold failed_names.
  induction l1 as [|x l1 IH]; intros l2 [|r rs1] rs2 Hlen;
    simpl in *; try discriminate; [reflexivity|].
  injection Hlen as Hlen. destruct r; simpl; now rewrite (IH l2 rs1 rs2 Hlen).
Qed.

Lemma failed_names_nil extensions : forall rs,
  List.length rs = List.length extensions ->
  (failed_names extensions rs = [] <-> Forall (fun r => r = None) rs).
Proof.
  unfold failed_names.
  induction extensions as [|x l IH]; intros [|r rs] Hlen;
    simpl in *; try discriminate.
  - split; [constructor | reflexivity].
  - injection Hlen as Hlen. destruct r as [e|]; simpl.
    + split; [discriminate|]. intros H. inversion H. discriminate.
    + rewrite (IH rs Hlen). split; [now constructor|].
      intros H. now inversion H.
Qed.
End BulkEdges.

(** X9.  When the input ends before "done" or "all" was read, [input]
    raises [EOFError] and [bulk_install_extensions] lets it through: what
    was selected is lost, the confirmation is never asked, no install
    action is invoked and the host is as it was. *)
Theorem input_exhausted_raises_eof {Host : Type} (m : Menu Host)
    (extensions : Py.dict BaseExtension) (stdin : list string) (host : Host) :
  forallb key_line stdin = true ->
  fst (bulk_install_extensions m extensions stdin host)
  = (Raise (mkExn EOFError "EOF when reading a line"), [], host)
  /\ installs (snd (bulk_install_extensions m extensions stdin host)) = [].
Proof.
  intros Hk. unfold bulk_install_extensions.
  pose proof (loop_eof m extensions stdin [] Hk) as He.
  pose proof (installs_selection_loop m extensions stdin []) as Hq.
  destruct (selection_loop m extensions stdin []) as [[r rest] out].
  cbn [fst snd] in *. injection He as -> ->. cbn [fst snd]. split; [reflexivity|].
  now rewrite installs_app, installs_bulk_header, Hq.
Qed.

Lemma input_exhausted_raises_eof_witness :
  fst (bulk_install_extensions Sample.menu Sample.registry ["1 2"; "3"] [5])
  = (Raise (mkExn EOFError "EOF when reading a line"), [], [5]).
Proof.
  exact (proj1 (input_exhausted_raises_eof Sample.menu Sample.registry
                  ["1 2"; "3"] [5] eq_refl)).
Defined.

(** X11.  When the loop returns a non-empty selection and the user
    confirms, [bulk_install_extensions] returns normally after invoking
    the install action of exactly the selected instances, in selection
    order, each once; the host is the one these actions leave, run one
    after the other. *)
Theorem confirmed_bulk_installs_selection {Host : Type} (m : Menu Host)
    (extensions : Py.dict BaseExtension) (stdin : list string) (host : Host)
    (sel : list BaseExtension) :
  fst (fst (selection_loop m extensions stdin [])) = Ok sel ->
  sel <> [] ->
  fst (fst (get_confirm m "Proceed with installation?" true
              (snd (fst (selection_loop m extensions stdin [])))))
  = Ok true ->
  fst (fst (fst (bulk_install_extensions m extensions stdin host))) = Ok tt
  /\ installs (snd (bulk_install_extensions m extensions stdin host)) = sel
  /\ snd (fst (bulk_install_extensions m extensions stdin host))
     = snd (run_actions m sel host).
Proof.
  intros Hs Hne Hc. unfold bulk_install_extensions.
  pose proof (installs_selection_loop m extensions stdin []) as Hq.
  destruct (selection_loop m extensions stdin []) as [[r rest] out].
  cbn [fst snd] in *. subst r. destruct sel as [|x sel]; [contradiction|].
  destruct (get_confirm m "Proceed with installation?" true rest)
    as [[c rest'] said].
  cbn [fst snd] in Hc. subst c.
  pose proof (installs_install_selected m (x :: sel) host) as Hi.
  pose proof (install_selected_spec m (x :: sel) host) as Hspec.
  destruct (_install_selected_extensions m (x :: sel) host) as [[b h] o].
  cbn [fst snd] in *. injection Hspec as _ Hh _. split; [reflexivity|]. split.
  - rewrite !installs_app, Hq, installs_bulk_header. cbn [app].
    cbn [installs flat_map app]. fold installs.
    change (installs (print_names (x :: sel)) ++ installs (map Print said)
            ++ installs o = x :: sel)%list.
    now rewrite installs_print_names, installs_map_Print.
  - exact Hh.
Qed.

Lemma confirmed_bulk_installs_selection_witness :
  installs (snd (bulk_install_extensions Sample.menu Sample.registry
                   ["3 2"; "1"; "done"; "y"] []))
  = [Sample.C; Sample.B; Sample.A]
  /\ snd (fst (bulk_install_extensions Sample.menu Sample.registry
                 ["3 2"; "1"; "done"; "y"] []))
     = [2; 0].
Proof.
  destruct (confirmed_bulk_installs_selection Sample.menu Sample.registry
              ["3 2"; "1"; "done"; "y"] [] [Sample.C; Sample.B; Sample.A] eq_refl)
    as [_ [H1 H2]].
  - discriminate.
  - reflexivity.
  - split; [exact H1 | exact H2].
Defined.

(** X12.  With an empty registry nothing can be selected: whatever is
    typed, [bulk_install_extensions] invokes no install action, leaves the
    host as it is and never asks for confirmation; it returns as soon as
    "done" or "all" is read and raises [EOFError] if the input ends
    first. *)
Theorem empty_registry_bulk_is_inert {Host : Type} (m : Menu Host)
    (stdin : list string) (host : Host) :
  fst (bulk_install_extensions m [] stdin host)
  = (match fst (fst (selection_loop m [] stdin [])) with
     | Ok _ => Ok tt
     | Raise e => Raise e
     end,
     snd (fst (selection_loop m [] stdin [])),
     host)
  /\ installs (snd (bulk_install_extensions m [] stdin host)) = [].
Proof.
  unfold bulk_install_extensions.
  pose proof (installs_selection_loop m [] stdin []) as Hq.
  pose proof (loop_within_registry [] m stdin []) as Hin.
  destruct (selection_loop m [] stdin []) as [[r rest] out].
  cbn [fst snd] in *. destruct r as [[|x sel]|e]; cbn [fst snd].
  - split; [reflexivity|]. now rewrite !installs_app, Hq, installs_bulk_header.
  - exfalso. apply (Hin (x :: sel) (fun y H => H) eq_refl x). now left.
  - split; [reflexivity|]. now rewrite installs_app, installs_bulk_header, Hq.
Qed.

(** X13.  The summary of a batch ends with the "All extensions installed
    successfully" line exactly when no install action raised, which is
    when [successful] equals [total]; otherwise it ends with the list of
    the failed display names, the last line naming the last item that
    raised. *)
Theorem summary_tells_success_from_failure {Host : Type} (m : Menu Host)
    (extensions : list BaseExtension) (host : Host) :
  let rs := fst (run_actions m extensions host) in
  let b := fst (fst (_install_selected_extensions m extensions host)) in
  let out := snd (_install_selected_extensions m extensions host) in
  (failed b = [] <-> Forall (fun r => r = None) rs)
  /\ (failed b = [] <-> successful b = total b)
  /\ (failed b = [] ->
      exists pre,
        out = (pre ++ [Print (color_apply m
                         "All extensions installed successfully! ğŸ‰" GREEN)])%list)
  /\ (forall names name, failed b = (names ++ [name])%list ->
      exists pre,
        out = (pre ++ Print (color_apply m
                               ("Failed: " ++ Py.str_nat (S (List.length names))) RED)
                   :: Print "Failed extensions:"
                   :: map (fun n => Print ("  - " ++ n)) names
                   ++ [Print ("  - " ++ name)])%list).
Proof.
  intros rs b out. subst rs b out. rewrite install_selected_spec. cbn [fst snd].
  pose proof (run_actions_length m extensions host) as Hlen.
  pose proof (failed_names_length extensions _ Hlen) as Hsum.
  set (rs := fst (run_actions m extensions host)) in *.
  set (fs := failed_names extensions rs) in *.
  split; [now apply failed_names_nil|]. split; [|split].
  - cbn [failed successful total]. split.
    + intros Hf. rewrite Hf in Hsum. simpl in Hsum. lia.
    + intros Hs. destruct fs as [|n fs']; [reflexivity|]. simpl in Hsum. lia.
  - cbn [failed]. intros Hf. unfold summary. cbn [failed]. rewrite Hf.
    eexists. rewrite !app_comm_cons, app_assoc. reflexivity.
  - cbn [failed]. intros names name Hf. unfold summary. cbn [failed]. rewrite Hf.
    destruct (names ++ [name])%list as [|n0 l0] eqn:Hl;
      [now destruct names|]. rewrite <- Hl.
    rewrite length_app, Nat.add_1_r, map_app. cbn [map].
    eexists. rewrite !app_comm_cons, app_assoc. reflexivity.
Qed.

(** X14.  A batch over a sequence in two parts is the batch over the
    first part followed by the batch over the second on the host the first
    left: the successes add up, the failed names follow one another, and
    the host at the end is the same. *)
Theorem batch_of_two_parts {Host : Type} (m : Menu Host)
    (l1 l2 : list BaseExtension) (host : Host) :
  let b := fst (fst (_install_selected_extensions m (l1 ++ l2) host)) in
  let b1 := fst (fst (_install_selected_extensions m l1 host)) in
  let host1 := snd (fst (_install_selected_extensions m l1 host)) in
  let b2 := fst (fst (_install_selected_extensions m l2 host1)) in
  total b = total b1 + total b2
  /\ successful b = successful b1 + successful b2
  /\ failed b = (failed b1 ++ failed b2)%list
  /\ snd (fst (_install_selected_extensions m (l1 ++ l2) host))
     = snd (fst (_install_selected_extensions m l2 host1)).
Proof.
  intros b b1 host1 b2. subst b b1 host1 b2.
  rewrite !install_selected_spec. cbn [fst snd total successful failed].
  rewrite run_actions_app. cbn [fst snd].
  rewrite length_app, succeeded_app, failed_names_app
    by apply run_actions_length.
  repeat split.
Qed.

(** ** The extensions menu and its options *)


(** Every key of a registry [discover_extensions] returns is an integer
    literal. *)
Lemma discover_keys_are_integers site root o reg out o' :
  discover_extensions site root o = (Ok reg, out, o') ->
  Forall (fun k => Py.int k <> None) (Py.keys reg).
Proof.
  intros Hd. destruct (discover_distinct_instances site root o reg out o' Hd) as [Hnd _].
  revert Hd Hnd. unfold discover_extensions.
  destruct (scan site root [] o) as [[[d|e] out1] p1]; [|discriminate].
  destruct (Py.sorted key_int (Py.items d)) as [l|] eqn:Hl; [|discriminate].
  intros [= <- <- <-] Hnd.
  pose proof (sorted_perm _ _ _ Hl) as Hperm. unfold Py.items in *.
  unfold Py.sorted in Hl.
  destruct (Py.decorate key_int d) as [r|] eqn:Hr; [|discriminate].
  apply decorate_Some_inv in Hr.
  rewrite Forall_forall in *. intros k Hk.
  unfold Py.keys in Hk. apply in_map_iff in Hk. destruct Hk as [[k' v] [Hfst Hkv]].
  simpl in Hfst. subst k'.
  assert (Hin : In k (map fst l)).
  { destruct (in_dec string_dec k (map fst l)) as [H|H]; [exact H|].
    exfalso. unfold Py.of_items in Hkv.
    assert (Hks : In k (Py.keys (fold_left (fun d kv => Py.set d (fst kv) (snd kv)) l [])))
      by (unfold Py.keys; apply in_map_iff; now exists (k, v)).
    rewrite keys_fold_set in Hks. apply In_add_keys in Hks.
    destruct Hks as [[]|Hks]. contradiction. }
  apply in_map_iff in Hin. destruct Hin as [[k0 v0] [Hk0 Hin]]. simpl in Hk0. subst k0.
  apply (Permutation_in _ Hperm) in Hin. exact (Hr (k, v0) Hin).
Qed.

(** X15.  A menu that was made and whose options were set offers exactly
    the keys of the registry, in registry order, followed by "i".  The
    option of a key carries the instance registered under that key, and
    [extension_submenu] called with it makes the submenu of that instance,
    titled with its display name and leading back to the extensions menu:
    it never meets [None].  "i" is bound to [bulk_install_extensions]. *)
Theorem options_cover_the_registry (base sub_base : Py.dict Option) (site : Site)
    (root : list Package) (o : nat) (back : option menu_class)
    (self : ExtensionsMenu.t) :
  fst (fst (ExtensionsMenu.__init__ base site root o back)) = Ok self ->
  let menu := ExtensionsMenu.set_options self in
  Py.keys (ExtensionsMenu.options menu)
  = (Py.keys (ExtensionsMenu.extensions self) ++ ["i"])%list
  /\ Py.lookup (ExtensionsMenu.options menu) "i"
     = Some (mkOption Bulk_install_extensions None)
  /\ forall k inst,
       Py.lookup (ExtensionsMenu.extensions self) k = Some inst ->
       Py.lookup (ExtensionsMenu.options menu) k
       = Some (mkOption Extension_submenu (Some inst))
       /\ ExtensionsMenu.extension_submenu sub_base menu (Some inst)
          = Ok (ExtensionSubmenu.mk (Py.get (metadata inst) "display_name") YELLOW
                  inst (Some ExtensionsMenu_class) sub_base).
Proof.
  unfold ExtensionsMenu.__init__.
  destruct (discover_extensions site root o) as [[[reg|e] out] o'] eqn:Hd;
    [|discriminate].
  cbn [fst]. intros [= <-]. cbn zeta. cbn [ExtensionsMenu.extensions].
  destruct (discover_distinct_instances site root o reg out o' Hd) as [Hnd _].
  pose proof (discover_keys_are_integers site root o reg out o' Hd) as Hint.
  assert (Hi : ~ In "i" (Py.keys reg)).
  { intros Hin. rewrite Forall_forall in Hint. now apply (Hint "i" Hin). }
  unfold ExtensionsMenu.set_options.
  cbn [ExtensionsMenu.options ExtensionsMenu.extensions].
  pose (f := fun i => mkOption Extension_submenu (Py.lookup reg i)).
  change (fun i : string => (i, mkOption Extension_submenu (Py.lookup reg i)))
    with (fun i : string => (i, f i)).
  assert (Hkeys : map fst (map (fun i => (i, f i)) (Py.keys reg)) = Py.keys reg).
  { rewrite map_map. simpl. apply map_id. }
  assert (Hkeys' : Py.keys (map (fun i => (i, f i)) (Py.keys reg)) = Py.keys reg)
    by exact Hkeys.
  rewrite of_items_distinct by (now rewrite Hkeys).
  split; [|split].
  - rewrite keys_set, Hkeys'.
    destruct (Py.contains _ "i") eqn:Hc; [|reflexivity].
    apply contains_In in Hc. now rewrite Hkeys' in Hc.
  - apply lookup_set_same.
  - intros k inst Hk. split; [|reflexivity].
    assert (Hin : In k (Py.keys reg)) by (now apply (lookup_Some_key reg k inst)).
    rewrite lookup_set_other by (intros Heq; subst k; contradiction).
    rewrite (lookup_mapped f (Py.keys reg) k Hin). unfold f. now rewrite Hk.
Qed.

Lemma options_cover_the_registry_witness :
  Py.keys (ExtensionsMenu.options
             (ExtensionsMenu.set_options
                (ExtensionsMenu.mk "Extensions Menu" CYAN (Some MainMenu)
                   (Py.of_items
                      [("1", mkExt 2 (Sample.plain "ShellCommandExtension")
                               (Sample.descriptor "gcode_shell_cmd_extension" "1"
                                  "G-Code Shell Command"));
                       ("2", mkExt 1 (Sample.plain "MainsailThemeInstallerExtension")
                               (Sample.descriptor "mainsail_theme_installer_extension"
                                  "2" "Mainsail Theme Installer"));
                       ("10", mkExt 0 (Sample.plain "KlipperbackupExtension")
                                (Sample.descriptor "klipper_backup_extension" "10"
                                   "Klipper-Backup"))])
                   [])))
  = ["1"; "2"; "10"; "i"].
Proof.
  exact (proj1 (options_cover_the_registry [] [] Sample.site Sample.listing 0
                  (Some MainMenu) _ eq_refl)).
Defined.

(** ** The submenu of an extension *)

Lemma Ok_inj {A : Type} (a b : A) : Ok a = Ok b -> a = b.
Proof. now intros [= ->]. Qed.

Lemma append_assoc (a b c : string) : (a ++ b) ++ c = a ++ b ++ c.
Proof. induction a as [|x a IH]; simpl; [reflexivity | now rewrite IH]. Qed.

Section Submenu.
Variable r : Render.
Variable self : ExtensionSubmenu.t.

(** The closing part of the menu, from the rule above "1) Install" to the
    last rule, lists the options [set_options] makes from none. *)
Lemma actions_are_the_options :
  slice1 (dedent (Py.nl ++ indent12 ++ rule ++ Py.nl
                   ++ indent12 ++ ExtensionSubmenu.action_row "1" "Install" ++ Py.nl
                   ++ indent12))
  ++ (if truthy (Py.get (metadata (ExtensionSubmenu.extension self)) "updates")
      then ExtensionSubmenu.action_row "2" "Update" ++ Py.nl
           ++ ExtensionSubmenu.action_row "3" "Remove" ++ Py.nl
      else ExtensionSubmenu.action_row "2" "Remove" ++ Py.nl)
  ++ rule ++ Py.nl
  = rule ++ Py.nl ++ action_rows (offered self) ++ rule ++ Py.nl.
Proof.
  unfold offered, ExtensionSubmenu.set_options.
  cbn [ExtensionSubmenu.options ExtensionSubmenu.extension].
  destruct (truthy (Py.get (metadata (ExtensionSubmenu.extension self)) "updates"));
    reflexivity.
Qed.

(** A value that is false in a condition, or a string, never makes
    [print_menu] raise; the link it gives is [link_of]. *)
Lemma strip_value_link v :
  is_str v || negb (truthy v) = true ->
  strip_value (or_else v (Py.PyStr "")) = Ok (link_of v).
Proof.
  unfold or_else. destruct v as [|b|z|s|t]; simpl; try discriminate.
  - reflexivity.
  - destruct b; [discriminate | reflexivity].
  - destruct (z =? 0)%Z; [reflexivity | discriminate].
  - intros _. destruct (String.eqb_spec s "") as [->|Hne]; reflexivity.
  - intros H. apply negb_true_iff in H. rewrite negb_false_iff in H.
    now rewrite H.
Qed.

End Submenu.

(** X16.  The submenu shows what it offers.  [set_options] binds "1" to
    the install action of the extension and its last key ("3" when the
    metadata's [updates] is true in a condition, "2" otherwise) to the
    remove action, the update action being offered exactly in the first
    case; it leaves every other key of the options as it was.  Starting
    from no options, the text [print_menu] writes ends with the action
    list of exactly these options, key by key, between two rules. *)
Theorem submenu_lists_what_it_offers (r : Render) (self : ExtensionSubmenu.t)
    (text : string) :
  ExtensionSubmenu.options self = [] ->
  ExtensionSubmenu.print_menu r self = Ok text ->
  let ext := ExtensionSubmenu.extension self in
  let offered := ExtensionSubmenu.options (ExtensionSubmenu.set_options self) in
  (exists head,
      text = head ++ rule ++ Py.nl ++ action_rows offered ++ rule ++ Py.nl)
  /\ offered
     = (if truthy (Py.get (metadata ext) "updates")
        then [("1", mkOption (Install_extension ext) None);
              ("2", mkOption (Update_extension ext) None);
              ("3", mkOption (Remove_extension ext) None)]
        else [("1", mkOption (Install_extension ext) None);
              ("2", mkOption (Remove_extension ext) None)]).
Proof.
  intros Hopt Hp ext offered. subst offered.
  assert (Hself : self = ExtensionSubmenu.mk (ExtensionSubmenu.title self)
                    (ExtensionSubmenu.title_color self) ext
                    (ExtensionSubmenu.previous_menu self) []).
  { destruct self as [t c e p o]. simpl in *. now subst o. }
  split.
  - pose proof (actions_are_the_options self) as Hact.
    unfold offered in Hact. fold ext in Hact. rewrite <- Hself in Hact.
    unfold ExtensionSubmenu.print_menu in Hp. fold ext in Hp.
    destruct (format_content r (Described _) 53 border border) as [dt|e];
      [|discriminate].
    destruct (strip_value (or_else (Py.get (metadata ext) "website") _))
      as [website|e]; [|discriminate].
    destruct (strip_value (or_else (Py.get (metadata ext) "repo") _))
      as [repo|e]; [|discriminate].
    destruct (negb (String.eqb website "") || negb (String.eqb repo "")).
    + destruct (format_content r (Lines _) 53 border border) as [lt|e];
        [|discriminate].
      apply Ok_inj in Hp. subst text. rewrite Hact.
      eexists. rewrite <- !append_assoc. reflexivity.
    + apply Ok_inj in Hp. subst text. rewrite Hact.
      eexists. rewrite <- !append_assoc. reflexivity.
  - unfold ExtensionSubmenu.set_options. rewrite Hopt. fold ext.
    cbn [ExtensionSubmenu.options].
    destruct (truthy (Py.get (metadata ext) "updates")); reflexivity.
Qed.

Lemma submenu_lists_what_it_offers_witness :
  exists head,
    ExtensionSubmenu.print_menu Sample.render
      (ExtensionSubmenu.mk (Py.PyStr "Obico for Klipper") YELLOW Sample.obico None [])
    = Ok (head ++ rule ++ Py.nl
               ++ action_rows [("1", mkOption (Install_extension Sample.obico) None);
                               ("2", mkOption (Update_extension Sample.obico) None);
                               ("3", mkOption (Remove_extension Sample.obico) None)]
               ++ rule ++ Py.nl).
Proof.
  pose (menu := ExtensionSubmenu.mk (Py.PyStr "Obico for Klipper") YELLOW
                  Sample.obico None []).
  pose (text := match ExtensionSubmenu.print_menu Sample.render menu with
                | Ok t => t
                | Raise _ => ""
                end).
  destruct (submenu_lists_what_it_offers Sample.render menu text eq_refl eq_refl)
    as [[head Hhead] _].
  exists head. transitivity (Ok text); [reflexivity|].
  f_equal. exact Hhead.
Defined.

(** X17.  The links block.  With [website] and [repo] each a string or
    a value that is false in a condition (missing, null, false, 0, empty),
    [print_menu] writes, after the description, a block "Links:" with one
    bullet line per link that is not blank, the website before the
    repository, each without the blanks around it; when both are blank or
    absent the block is left out and [Logger.format_content] is not asked
    to lay out any links.  The action list follows in either case. *)
Theorem links_block_lists_the_links (r : Render) (self : ExtensionSubmenu.t) :
  let md := metadata (ExtensionSubmenu.extension self) in
  let tail := rule ++ Py.nl ++ action_rows (offered self) ++ rule ++ Py.nl in
  is_str (Py.get md "website") || negb (truthy (Py.get md "website")) = true ->
  is_str (Py.get md "repo") || negb (truthy (Py.get md "repo")) = true ->
  ExtensionSubmenu.print_menu r self
  = match format_content r (Described (description_of md)) 53 border border with
    | Raise e => Raise e
    | Ok dt =>
        match link_lines (Py.get md "website") (Py.get md "repo") with
        | [] => Ok (rule ++ Py.nl ++ dt ++ Py.nl ++ tail)
        | links =>
            match format_content r (Lines ("Links:" :: links)) 53 border border with
            | Raise e => Raise e
            | Ok lt =>
                Ok (rule ++ Py.nl ++ dt ++ Py.nl
                         ++ rule ++ Py.nl ++ lt ++ Py.nl ++ tail)
            end
        end
    end.
Proof.
  intros md tail Hw Hr. subst tail. unfold ExtensionSubmenu.print_menu.
  fold md. fold (description_of md).
  destruct (format_content r (Described (description_of md)) 53 border border)
    as [dt|e]; [|reflexivity].
  rewrite (strip_value_link _ Hw), (strip_value_link _ Hr).
  pose proof (actions_are_the_options self) as Hact.
  fold md in Hact. rewrite Hact.
  change (slice1 (dedent (Py.nl ++ indent12 ++ rule ++ Py.nl ++ indent12)))
    with (rule ++ Py.nl).
  change (slice1 (dedent (Py.nl ++ indent16 ++ rule ++ Py.nl ++ indent16)))
    with (rule ++ Py.nl).
  unfold link_lines. cbn [filter].
  destruct (String.eqb (link_of (Py.get md "website")) "");
    destruct (String.eqb (link_of (Py.get md "repo")) "");
    cbn [negb orb app map].
  - now rewrite !append_assoc.
  - destruct (format_content r _ 53 border border); [|reflexivity].
    now rewrite !append_assoc.
  - destruct (format_content r _ 53 border border); [|reflexivity].
    now rewrite !append_assoc.
  - destruct (format_content r _ 53 border border); [|reflexivity].
    now rewrite !append_assoc.
Qed.

Lemma links_block_lists_the_links_witness :
  ExtensionSubmenu.print_menu Sample.render
    (ExtensionSubmenu.mk (Py.PyStr "Obico for Klipper") YELLOW Sample.obico None [])
  = match format_content Sample.render
            (Lines ["Links:"; ExtensionSubmenu.bullet_line "https://www.obico.io"])
            53 border border with
    | Raise e => Raise e
    | Ok lt =>
        Ok (rule ++ Py.nl
            ++ (border ++ " "
                ++ ljust "['Remote access and AI failure detection']" 53
                ++ " " ++ border)
            ++ Py.nl ++ rule ++ Py.nl ++ lt ++ Py.nl
            ++ rule ++ Py.nl
            ++ action_rows
                 (offered (ExtensionSubmenu.mk (Py.PyStr "Obico for Klipper") YELLOW
                             Sample.obico None []))
            ++ rule ++ Py.nl)
    end.
Proof.
  exact (links_block_lists_the_links Sample.render
           (ExtensionSubmenu.mk (Py.PyStr "Obico for Klipper") YELLOW
              Sample.obico None [])
           eq_refl eq_refl).
Defined.



(** ** The number a row shows *)

(** *** An integer literal is never read as a command *)

Section Literals.
Implicit Types (s t : string) (c : ascii).

Lemma int_digits_chars t : forall acc after_digit z,
  Py.int_digits acc after_digit t = Some z ->
  Forall (fun c => literal_char c = true) (list_ascii_of_string t).
Proof.
  induction t as [|c t IH]; intros acc b z H; [constructor|].
  cbn [Py.int_digits] in H. cbn [list_ascii_of_string].
  destruct (Py.is_digit c) eqn:Hd.
  - constructor; [|exact (IH _ _ _ H)].
    unfold literal_char. now rewrite Hd.
  - destruct (Ascii.eqb c "_") eqn:Hu; [|discriminate].
    destruct b; [|discriminate].
    constructor; [|exact (IH _ _ _ H)].
    unfold literal_char. now rewrite Hu, orb_true_r.
Qed.

Lemma int_body_chars t :
  Py.int_body t <> None ->
  Forall (fun c => literal_char c = true) (list_ascii_of_string t).
Proof.
  unfold Py.int_body. destruct (Py.int_digits 0 false t) as [z|] eqn:H.
  - intros _. exact (int_digits_chars t _ _ _ H).
  - intros Hn. now contradiction Hn.
Qed.

Lemma isspace_c_literal c : Py.isspace_c c = true -> literal_char c = true.
Proof. unfold literal_char. intros ->. now rewrite !orb_true_r. Qed.

Lemma rstrip_c_chars s :
  Forall (fun c => literal_char c = true) (list_ascii_of_string (Py.rstrip_c s)) ->
  Forall (fun c => literal_char c = true) (list_ascii_of_string s).
Proof.
  induction s as [|c s IH]; simpl; [trivial|].
  destruct (Py.rstrip_c s) as [|c' t].
  - intros H. constructor; [|apply IH; constructor].
    destruct (Py.isspace_c c) eqn:Hc; [now apply isspace_c_literal|].
    now inversion H.
  - intros H. inversion H as [|? ? Hc Ht]; subst. constructor; [exact Hc|].
    now apply IH.
Qed.

Lemma lstrip_c_chars s :
  Forall (fun c => literal_char c = true) (list_ascii_of_string (Py.lstrip_c s)) ->
  Forall (fun c => literal_char c = true) (list_ascii_of_string s).
Proof.
  induction s as [|c s IH]; simpl; [trivial|].
  destruct (Py.isspace_c c) eqn:Hc; [|trivial].
  intros H. constructor; [now apply isspace_c_literal | now apply IH].
Qed.

(** Whatever [int] accepts is made of digits, underscores, signs and
    blanks. *)
Lemma int_chars s :
  Py.int s <> None ->
  Forall (fun c => literal_char c = true) (list_ascii_of_string s).
Proof.
  unfold Py.int. intros H. apply rstrip_c_chars, lstrip_c_chars.
  destruct (Py.lstrip_c (Py.rstrip_c s)) as [|c t]; [constructor|].
  destruct (Ascii.eqb c "-") eqn:Hm.
  - simpl. constructor.
    + unfold literal_char. rewrite Hm. now rewrite !orb_true_r.
    + apply int_body_chars. intros Hn. apply H. now rewrite Hn.
  - destruct (Ascii.eqb c "+") eqn:Hp.
    + simpl. constructor.
      * unfold literal_char. rewrite Hp. now rewrite !orb_true_r.
      * now apply int_body_chars.
    + now apply int_body_chars.
Qed.

Lemma rstrip_In s c :
  In c (list_ascii_of_string (Py.rstrip s)) -> In c (list_ascii_of_string s).
Proof.
  induction s as [|a s IH]; simpl; [trivial|].
  destruct (Py.rstrip s) as [|a' t].
  - destruct (Py.isspace a); simpl; [intros [] | intros [H|[]]; now left].
  - intros [H|H]; [now left | right; now apply IH].
Qed.

Lemma lstrip_In s c :
  In c (list_ascii_of_string (Py.lstrip s)) -> In c (list_ascii_of_string s).
Proof.
  induction s as [|a s IH]; simpl; [trivial|].
  destruct (Py.isspace a); [|trivial]. intros H. right. now apply IH.
Qed.

Lemma literal_is_no_letter c :
  literal_char c = true ->
  Py.lower_char c <> "d"%char /\ Py.lower_char c <> "a"%char.
Proof.
  destruct c as [[] [] [] [] [] [] [] []]; vm_compute; intros H;
    (discriminate H) || (split; discriminate).
Qed.

(** A line [int] accepts is no command: the loop reads it as key
    tokens. *)
Lemma integer_is_key_line s : Py.int s <> None -> key_line s = true.
Proof.
  intros Hint. pose proof (int_chars s Hint) as Hall.
  rewrite Forall_forall in Hall.
  assert (Hfirst : forall x rest,
            Py.lower (Py.strip s) = String x rest ->
            x <> "d"%char /\ x <> "a"%char).
  { intros x rest Hl. destruct (Py.strip s) as [|c t] eqn:Hs; [discriminate|].
    simpl in Hl. injection Hl as <- _.
    apply literal_is_no_letter, Hall. apply rstrip_In, lstrip_In.
    unfold Py.strip in Hs. rewrite Hs. now left. }
  unfold key_line, is_command.
  destruct (String.eqb_spec (Py.lower (Py.strip s)) "done") as [Hd|_].
  { exfalso. destruct (Hfirst _ _ Hd) as [H _]. now apply H. }
  destruct (String.eqb_spec (Py.lower (Py.strip s)) "all") as [Ha|_].
  { exfalso. destruct (Hfirst _ _ Ha) as [_ H]. now apply H. }
  reflexivity.
Qed.
End Literals.

(** *** Keys and rows *)

Section ShownNumber.
Variable site : Site.

Lemma load_key ext doc o key inst :
  load site ext doc o = Ok (key, inst) ->
  key = Py.str (Py.get (metadata inst) "index").
Proof.
  unfold load. destruct doc as [document|e]; [|discriminate].
  destruct (get_metadata document) as [[md|v]|e]; try discriminate.
  destruct (import_module site _) as [m|e]; [|discriminate].
  destruct (getmembers m predicate) as [|[n cls] rest]; [discriminate|].
  unfold instantiate. destruct cls; try discriminate.
  destruct (init c md); [discriminate|]. now intros [= <- <-].
Qed.

Lemma keyed_by_index_set d key inst :
  keyed_by_index d ->
  key = Py.str (Py.get (metadata inst) "index") ->
  keyed_by_index (Py.set d key inst).
Proof.
  unfold keyed_by_index. intros Hd Hk.
  induction d as [|[k v] d IH]; simpl.
  - now repeat constructor.
  - inversion Hd as [|? ? Hkv Hd']; subst.
    destruct (String.eqb_spec k (Py.str (Py.get (metadata inst) "index"))) as [->|Hne].
    + now constructor.
    + constructor; [exact Hkv | now apply IH].
Qed.

Lemma scan_keyed_by_index root : forall d o d' out o',
  keyed_by_index d ->
  scan site root d o = (Ok d', out, o') ->
  keyed_by_index d'.
Proof.
  induction root as [|ext root IH]; intros d o d' out o' Hd Hs; simpl in Hs.
  - now injection Hs as <- _ _.
  - destruct (exists_raises ext); [discriminate|].
    destruct (metadata_json ext) as [doc|]; [|now apply (IH d o d' out o')].
    destruct (load site ext doc o) as [[key inst]|e] eqn:Hl.
    + apply (IH _ _ _ _ _ (keyed_by_index_set d key inst Hd (load_key _ _ _ _ _ Hl)) Hs).
    + destruct (handled e); [|discriminate].
      destruct (scan site root d o) as [[r out1] p1] eqn:Hrest.
      injection Hs as -> _ _. now apply (IH d o d' out1 p1).
Qed.
End ShownNumber.

(** A registry [discover_extensions] returns holds every instance under
    the text of its own [index]. *)
Lemma discover_keyed_by_index site root o reg out o' :
  discover_extensions site root o = (Ok reg, out, o') -> keyed_by_index reg.
Proof.
  unfold discover_extensions.
  destruct (scan site root [] o) as [[[d|e] out1] p1] eqn:Hs; [|discriminate].
  destruct (Py.sorted key_int (Py.items d)) as [l|] eqn:Hl; [|discriminate].
  intros [= <- <- <-].
  pose proof (scan_keyed_by_index site root [] o d out1 p1 (Forall_nil _) Hs) as Hk.
  apply sorted_perm in Hl. unfold Py.items in Hl.
  assert (Hkl : keyed_by_index l).
  { unfold keyed_by_index in *. rewrite Forall_forall in *. intros kv Hkv.
    apply Hk. now apply (Permutation_in _ Hl). }
  clear - Hkl. unfold Py.of_items.
  assert (Hgen : forall acc, keyed_by_index acc ->
            keyed_by_index (fold_left (fun d kv => Py.set d (fst kv) (snd kv)) l acc)).
  { induction l as [|[k v] l IH]; intros acc Hacc; simpl; [exact Hacc|].
    inversion Hkl as [|? ? Hkv Hkl']; subst.
    apply IH; [exact Hkl'|]. now apply keyed_by_index_set. }
  apply Hgen. constructor.
Qed.

Lemma append_nil_r (s : string) : s ++ "" = s.
Proof. induction s as [|c s IH]; simpl; [reflexivity | now rewrite IH]. Qed.

Lemma concat_cons (x : string) (l : list string) :
  String.concat "" (x :: l) = x ++ String.concat "" l.
Proof. destruct l; simpl; [now rewrite append_nil_r | reflexivity]. Qed.

Lemma concat_app (l1 l2 : list string) :
  String.concat "" (l1 ++ l2) = String.concat "" l1 ++ String.concat "" l2.
Proof.
  induction l1 as [|x l1 IH]; [reflexivity|].
  change ((x :: l1) ++ l2)%list with (x :: (l1 ++ l2))%list.
  now rewrite !concat_cons, IH, append_assoc.
Qed.

(** [print_menu] writes one row per value of the registry, in registry
    order, between its heading and its closing lines. *)
Lemma print_menu_rows (r : Render) (self : ExtensionsMenu.t) :
  exists head tail,
    ExtensionsMenu.print_menu r self
    = head
      ++ String.concat "" (map menu_row (Py.values (ExtensionsMenu.extensions self)))
      ++ tail.
Proof. unfold ExtensionsMenu.print_menu. eexists. eexists. reflexivity. Qed.

Lemma print_menu_row (r : Render) (self : ExtensionsMenu.t) (inst : BaseExtension) :
  In inst (Py.values (ExtensionsMenu.extensions self)) ->
  exists head tail,
    ExtensionsMenu.print_menu r self = head ++ menu_row inst ++ tail.
Proof.
  intros Hin. destruct (print_menu_rows r self) as [head [tail Hp]].
  apply in_split in Hin. destruct Hin as [l1 [l2 Hl]].
  rewrite Hp, Hl, map_app, concat_app. cbn [map]. rewrite concat_cons.
  exists (head ++ String.concat "" (map menu_row l1)),
         (String.concat "" (map menu_row l2) ++ tail).
  now rewrite !append_assoc.
Qed.

(** X19.  The number a row shows is the key that selects the extension.
    In a registry [discover_extensions] returns every instance is
    registered under the text of its own metadata [index].  That text
    stands in front of the name in the row [print_menu] writes for the
    instance and in the line the listing of [bulk_install_extensions]
    prints for it; looking it up gives the instance back; typed at the
    prompt it is never taken for a command; and when it is one token, as
    [strip] and [split] read it, typing it and then "done" selects exactly
    that instance, with the report "Added". *)
Theorem shown_number_selects_the_extension {Host : Type} (m : Menu Host)
    (r : Render) (site : Site) (root : list Package) (o : nat)
    (self : ExtensionsMenu.t) (out : list event) (o' : nat)
    (inst : BaseExtension) :
  discover_extensions site root o = (Ok (ExtensionsMenu.extensions self), out, o') ->
  In inst (Py.values (ExtensionsMenu.extensions self)) ->
  let reg := ExtensionsMenu.extensions self in
  let shown := Py.str (Py.get (metadata inst) "index") in
  let label := shown ++ ") " ++ display_name inst in
  (exists head tail,
      ExtensionsMenu.print_menu r self
      = head ++ (border ++ " " ++ ljust label 53 ++ " " ++ border ++ Py.nl) ++ tail)
  /\ In (Print ("  " ++ label)) (bulk_header m reg)
  /\ Py.lookup reg shown = Some inst
  /\ key_line shown = true
  /\ (Py.split (Py.strip shown) = [shown] ->
      forall line rest,
        is_command "done" line = true ->
        fst (selection_loop m reg (shown :: line :: rest) []) = (Ok [inst], rest)
        /\ In (Print ("Added: " ++ display_name inst))
              (snd (selection_loop m reg (shown :: line :: rest) []))).
Proof.
  intros Hd Hin reg shown label.
  destruct (discover_distinct_instances site root o reg out o' Hd) as [Hnd _].
  pose proof (discover_keyed_by_index site root o reg out o' Hd) as Hkeyed.
  assert (Hlook : Py.lookup reg shown = Some inst).
  { pose proof Hin as Hin'. unfold Py.values in Hin'. apply in_map_iff in Hin'.
    destruct Hin' as [[k v] [Hv Hkv]]. simpl in Hv. subst v.
    unfold keyed_by_index in Hkeyed. rewrite Forall_forall in Hkeyed.
    pose proof (Hkeyed (k, inst) Hkv) as Hk. simpl in Hk. subst k.
    now apply lookup_In. }
  assert (Hkey : key_line shown = true).
  { apply integer_is_key_line.
    pose proof (discover_keys_are_integers site root o reg out o' Hd) as Hint.
    rewrite Forall_forall in Hint. apply Hint.
    now apply (lookup_Some_key reg shown inst). }
  split; [exact (print_menu_row r self inst Hin)|].
  split; [|split; [exact Hlook|split; [exact Hkey|]]].
  - unfold bulk_header. right. right. apply in_or_app. left.
    unfold print_available. apply in_map_iff. exists inst. now split.
  - intros Hsplit line rest Hdone.
    rewrite (loop_key_line m reg shown (line :: rest) [] Hkey).
    unfold select_line, select_tokens. rewrite Hsplit.
    cbn [parse_indices]. rewrite Hlook. cbn [mem existsb negb app fst snd].
    rewrite (loop_done m reg line rest _ Hdone). cbn [fst snd add_selected mem existsb negb app].
    split; [reflexivity|]. right. now left.
Qed.

Lemma shown_number_selects_the_extension_witness :
  fst (selection_loop Sample.menu
         [("1", mkExt 2 (Sample.plain "ShellCommandExtension")
                  (Sample.descriptor "gcode_shell_cmd_extension" "1"
                     "G-Code Shell Command"));
          ("2", mkExt 1 (Sample.plain "MainsailThemeInstallerExtension")
                  (Sample.descriptor "mainsail_theme_installer_extension"
                     "2" "Mainsail Theme Installer"));
          ("10", mkExt 0 (Sample.plain "KlipperbackupExtension")
                   (Sample.descriptor "klipper_backup_extension" "10"
                      "Klipper-Backup"))]
         ["10"; "Done"; "y"] [])
  = (Ok [mkExt 0 (Sample.plain "KlipperbackupExtension")
               (Sample.descriptor "klipper_backup_extension" "10" "Klipper-Backup")],
     ["y"]).
Proof.
  pose (reg := [("1", mkExt 2 (Sample.plain "ShellCommandExtension")
                        (Sample.descriptor "gcode_shell_cmd_extension" "1"
                           "G-Code Shell Command"));
                ("2", mkExt 1 (Sample.plain "MainsailThemeInstallerExtension")
                        (Sample.descriptor "mainsail_theme_installer_extension"
                           "2" "Mainsail Theme Installer"));
                ("10", mkExt 0 (Sample.plain "KlipperbackupExtension")
                         (Sample.descriptor "klipper_backup_extension" "10"
                            "Klipper-Backup"))]).
  destruct (shown_number_selects_the_extension Sample.menu Sample.render
              Sample.site Sample.listing 0
              (ExtensionsMenu.mk "Extensions Menu" CYAN None reg [])
              (failure_log Sample.site Sample.listing) 3
              (mkExt 0 (Sample.plain "KlipperbackupExtension")
                 (Sample.descriptor "klipper_backup_extension" "10" "Klipper-Backup"))
              eq_refl)
    as [_ [_ [_ [_ H]]]].
  - right. right. left. reflexivity.
  - exact (proj1 (H eq_refl "Done" ["y"] eq_refl)).
Defined.

(** An index written with a blank in front is a key [int] accepts, but
    [strip] and [split] read the text the row shows as another token:
    typed at the prompt it selects nothing. *)
Example shown_number_with_a_blank :
  discover_extensions Sample.crowded_site [Sample.spaced] 0
  = (Ok [(" 7", mkExt 0 (Sample.plain "SpacedExtension")
                  (Sample.descriptor "spaced_extension" " 7" "Spaced"))], [], 1)
  /\ Py.split (Py.strip " 7") = ["7"]
  /\ selection_loop Sample.menu
       [(" 7", mkExt 0 (Sample.plain "SpacedExtension")
                 (Sample.descriptor "spaced_extension" " 7" "Spaced"))]
       [" 7"; "done"] []
     = (Ok [], [],
        [select_prompt Sample.menu;
         Print "Invalid extension number: 7";
         select_prompt Sample.menu]).
Proof. repeat split; reflexivity. Qed.
